(** * Selenium parsers for nalog.ru / kad.arbitr.ru: model and properties

    The four parsers ([ArbitrParser], [InnParser], [RomParser], [NpdParser])
    drive a browser through Selenium and classify the page that results.
    The browser is an external collaborator: it is modelled as a [Driver],
    an arbitrary transition system that answers each Selenium call.  The
    parsers are written in a state-and-exception monad over a driver; every
    call and its answer is appended to the session's [log], so that
    properties of a run can speak about the calls that were made.

    Conventions of the model:
    - a Selenium call answers with a value or with the one exception the
      parsers handle for it ([find_element]: [NoSuchElementException];
      [WebDriverWait.until]: [TimeoutException]); the session stays alive
      and element handles stay valid for the length of a run.  A browser
      that fails in another way (a click that is intercepted, a page that
      does not load) is outside the model: the properties are about the
      runs in which every other call answers;
    - Python [str] is a list of Unicode code points; locator values, which
      are ASCII configuration data, are kept as [string];
    - the Unicode tables behind [\b] and [str.strip] are parameters. *)

From Stdlib Require Import ZArith NArith Floats List String Ascii Bool Lia.
Import ListNotations.

(** ** Python values *)

Module Py.

(** [int | float] *)
Inductive num :=
| Int (z : Z)
| Float (f : float).

(** Truth value of a number: zero (of either kind, of either sign) is
    false, everything else, NaN included, is true. *)
Definition truthy (n : num) : bool :=
  match n with
  | Int z => negb (z =? 0)%Z
  | Float f => negb (PrimFloat.eqb f 0%float)
  end.

(** [a or b] for [a : Optional[int | float]]: [a] when it is truthy,
    else [b]. *)
Definition or_ (a : option num) (b : num) : num :=
  match a with
  | None => b
  | Some t => if truthy t then t else b
  end.

(** [str]: a sequence of code points. *)
Definition str := list N.

Definition of_ascii (s : string) : str :=
  map N_of_ascii (list_ascii_of_string s).

End Py.

(** ** exceptions.py, and the two Selenium exceptions the parsers handle *)

Inductive exn :=
| NoSuchElementException
| TimeoutException
| UndefinedError
| ServiceUnavailableError
| FieldFormatError
| InnNotFoundError
| DataVerificationError
| ServiceCaptchaError.

Definition exn_eqb (a b : exn) : bool :=
  match a, b with
  | NoSuchElementException, NoSuchElementException
  | TimeoutException, TimeoutException
  | UndefinedError, UndefinedError
  | ServiceUnavailableError, ServiceUnavailableError
  | FieldFormatError, FieldFormatError
  | InnNotFoundError, InnNotFoundError
  | DataVerificationError, DataVerificationError
  | ServiceCaptchaError, ServiceCaptchaError => true
  | _, _ => false
  end.

(** The classes of exceptions.py: every class there derives from
    [Exception] directly, none from a Selenium exception. *)
Definition domain_error (e : exn) : bool :=
  match e with
  | NoSuchElementException | TimeoutException => false
  | _ => true
  end.

Inductive outcome (A : Type) :=
| Return (a : A)
| Raise (e : exn).
Arguments Return {A} a.
Arguments Raise {A} e.

(** ** The Selenium session *)

Inductive By := XPATH | CLASS_NAME | ID.

Definition locator := (By * string)%type.

(** An element handle. *)
Definition WebElement := N.

(** [WebElement] defines neither [__bool__] nor [__len__]: a handle is
    always true in an [if]. *)
Definition WebElement_truthy (_ : WebElement) : bool := true.

(** selenium.webdriver.support.expected_conditions, as far as used. *)
#[warnings="-register-all"]
Inductive condition :=
| visibility_of_element_located (l : locator)
| element_to_be_clickable (l : locator)
| any_of (cs : list condition).

Definition By_eqb (a b : By) : bool :=
  match a, b with
  | XPATH, XPATH | CLASS_NAME, CLASS_NAME | ID, ID => true
  | _, _ => false
  end.

Definition locator_eqb (a b : locator) : bool :=
  By_eqb (fst a) (fst b) && String.eqb (snd a) (snd b).

Fixpoint condition_eqb (a b : condition) : bool :=
  match a, b with
  | visibility_of_element_located l, visibility_of_element_located l' =>
      locator_eqb l l'
  | element_to_be_clickable l, element_to_be_clickable l' =>
      locator_eqb l l'
  | any_of cs, any_of cs' =>
      (fix all2 (xs ys : list condition) : bool :=
         match xs, ys with
         | [], [] => true
         | x :: xs', y :: ys' => condition_eqb x y && all2 xs' ys'
         | _, _ => false
         end) cs cs'
  | _, _ => false
  end.

Inductive jsarg :=
| JElement (e : WebElement)
| JStr (s : Py.str).

(** One call to the session, with its answer. *)
Inductive event :=
| Eget (url : string)
| Eimplicitly_wait (t : Py.num)
| Efind_element (l : locator) (r : option WebElement)
| Euntil (t : Py.num) (c : condition) (r : option WebElement)
| Eis_displayed (e : WebElement) (r : bool)
| Etext (e : WebElement) (r : Py.str)
| Eclick (e : WebElement)
| Esend_keys (e : WebElement) (s : Py.str)
| Eexecute_script (script : string) (args : list jsarg)
| Esleep.

(** The browser behind the session: a state and, for each call, the answer
    and the next state.  [None] from [drv_find_element] is "no such
    element"; [None] from [drv_until] is "the condition did not hold before
    the timeout".  [drv_sleep] is [time.sleep(uniform(1, 1.5))], whose
    length the environment chooses; [drv_today] is the system date already
    formatted by [strftime]. *)
Record Driver := {
  drv_state : Type;
  drv_get : string -> drv_state -> drv_state;
  drv_implicitly_wait : Py.num -> drv_state -> drv_state;
  drv_find_element : locator -> drv_state -> option WebElement * drv_state;
  drv_until : Py.num -> condition -> drv_state -> option WebElement * drv_state;
  drv_is_displayed : WebElement -> drv_state -> bool * drv_state;
  drv_text : WebElement -> drv_state -> Py.str * drv_state;
  drv_click : WebElement -> drv_state -> drv_state;
  drv_send_keys : WebElement -> Py.str -> drv_state -> drv_state;
  drv_execute_script : string -> list jsarg -> drv_state -> drv_state;
  drv_sleep : drv_state -> drv_state;
  drv_today : string -> drv_state -> Py.str
}.

(** ** The execution monad: browser state, call log, exceptions *)

Record session (d : Driver) := {
  page : drv_state d;
  log : list event
}.
Arguments page {d} s.
Arguments log {d} s.

Definition M (d : Driver) (A : Type) : Type :=
  session d -> outcome A * session d.

Section Monad.
Context {d : Driver}.

Definition ret {A} (a : A) : M d A := fun s => (Return a, s).

Definition raise {A} (e : exn) : M d A := fun s => (Raise e, s).

Definition bind {A B} (m : M d A) (k : A -> M d B) : M d B :=
  fun s =>
    match m s with
    | (Return a, s') => k a s'
    | (Raise e, s') => (Raise e, s')
    end.

(** A computation that makes no call: it returns or raises at once. *)
Definition lift {A} (r : outcome A) : M d A := fun s => (r, s).

(** [try: body / except ...: handler e] *)
Definition try_except {A} (body : M d A) (handler : exn -> M d A) : M d A :=
  fun s =>
    match body s with
    | (Return a, s') => (Return a, s')
    | (Raise e, s') => handler e s'
    end.

(** [with suppress(E): body], followed by [after] when the block was left
    through the suppressed exception.  A body that ends in [return]
    gives the result of the function; a body of statements gives [tt]
    and [after] is [ret tt]. *)
Definition suppress {A} (E : exn) (body : M d A) (after : M d A) : M d A :=
  try_except body (fun e => if exn_eqb e E then after else raise e).

(** [try: body / finally: fin] *)
Definition try_finally {A} (body : M d A) (fin : M d unit) : M d A :=
  fun s =>
    let (r, s1) := body s in
    match fin s1 with
    | (Return _, s2) => (r, s2)
    | (Raise e, s2) => (Raise e, s2)
    end.

(** A call that always answers. *)
Definition call {A} (f : drv_state d -> A * drv_state d) (ev : A -> event)
  : M d A :=
  fun s =>
    let (a, p) := f (page s) in
    (Return a, {| page := p; log := log s ++ [ev a] |}).

(** A call that answers with a value or raises [e]. *)
Definition call_or_raise {A} (f : drv_state d -> option A * drv_state d)
    (ev : option A -> event) (e : exn) : M d A :=
  fun s =>
    let (r, p) := f (page s) in
    let s' := {| page := p; log := log s ++ [ev r] |} in
    match r with
    | Some a => (Return a, s')
    | None => (Raise e, s')
    end.

End Monad.

Declare Scope py_scope.
Delimit Scope py_scope with py.
Notation "x <- m ;; k" := (bind m (fun x => k))
  (at level 61, m at next level, right associativity) : py_scope.
Notation "m ;; k" := (bind m (fun _ => k))
  (at level 61, right associativity) : py_scope.
Local Open Scope py_scope.
Local Open Scope string_scope.

(** A session on page [p] in which no call has been made yet. *)
Definition start (d : Driver) (p : drv_state d) : session d :=
  {| page := p; log := [] |}.

(** The outcome and the calls of a run that starts with an empty log. *)
Definition run {d A} (m : M d A) (p : drv_state d) : outcome A * session d :=
  m (start d p).

(** ** The Selenium API, as calls on the driver *)

Section Selenium.
Context (d : Driver).

Definition driver_get (url : string) : M d unit :=
  call (fun p => (tt, drv_get d url p)) (fun _ => Eget url).

Definition implicitly_wait (t : Py.num) : M d unit :=
  call (fun p => (tt, drv_implicitly_wait d t p)) (fun _ => Eimplicitly_wait t).

(** [driver.find_element(by, value)] *)
Definition find_element (by_ : By) (value : string) : M d WebElement :=
  call_or_raise (drv_find_element d (by_, value))
                (Efind_element (by_, value)) NoSuchElementException.

(** [WebDriverWait(driver, timeout).until(condition)] *)
Definition WebDriverWait_until (timeout : Py.num) (c : condition)
  : M d WebElement :=
  call_or_raise (drv_until d timeout c) (Euntil timeout c) TimeoutException.

Definition is_displayed (e : WebElement) : M d bool :=
  call (drv_is_displayed d e) (Eis_displayed e).

Definition text (e : WebElement) : M d Py.str :=
  call (drv_text d e) (Etext e).

Definition click (e : WebElement) : M d unit :=
  call (fun p => (tt, drv_click d e p)) (fun _ => Eclick e).

Definition send_keys (e : WebElement) (s : Py.str) : M d unit :=
  call (fun p => (tt, drv_send_keys d e s p)) (fun _ => Esend_keys e s).

Definition execute_script (script : string) (args : list jsarg) : M d unit :=
  call (fun p => (tt, drv_execute_script d script args p))
       (fun _ => Eexecute_script script args).

(** [time.sleep(uniform(1, 1.5))] *)
Definition time_sleep : M d unit :=
  call (fun p => (tt, drv_sleep d p)) (fun _ => Esleep).

(** [date.today().strftime(fmt)]: reads the clock, no call to the page. *)
Definition date_today_strftime (fmt : string) : M d Py.str :=
  fun s => (Return (drv_today d fmt (page s)), s).

End Selenium.

(** A double quote, for the XPath literals of the sources. *)
Definition dq : string := String (ascii_of_nat 34) EmptyString.

(** [//*[@id="i"]rest] *)
Definition xpath_id (i rest : string) : string :=
  "//*[@id=" ++ dq ++ i ++ dq ++ "]" ++ rest.

(** ** base.py *)

Module BaseParser.

(** The state of a parser object: [self.timeout].  ([self.driver] is the
    session the monad threads.) *)
Record t := { timeout : Py.num }.

Section Methods.
Context (d : Driver).

(** [__init__]: the driver is created with the implicit wait set to
    the timeout, then the page is opened. *)
Definition __init__ (url : string) (timeout : Py.num) : M d t :=
  implicitly_wait d timeout ;;
  driver_get d url ;;
  ret {| timeout := timeout |}.

Definition wait_for_element_visibility (self : t) (by_ : By)
    (value : string) (timeout : option Py.num) : M d WebElement :=
  let timeout := Py.or_ timeout self.(BaseParser.timeout) in
  WebDriverWait_until d timeout (visibility_of_element_located (by_, value)).

Definition wait_for_element_clickable (self : t) (by_ : By)
    (value : string) (timeout : option Py.num) : M d WebElement :=
  let timeout := Py.or_ timeout self.(BaseParser.timeout) in
  WebDriverWait_until d timeout (element_to_be_clickable (by_, value)).

End Methods.

End BaseParser.

(** ** parser_arbitr.py *)

Module ArbitrParser.

Definition URL : string := "https://kad.arbitr.ru/".

Section Methods.
Context (d : Driver).

Definition __init__ (timeout : Py.num) : M d BaseParser.t :=
  BaseParser.__init__ d URL timeout.

Definition _close_notification (self : BaseParser.t) : M d unit :=
  suppress TimeoutException
    (close_btn <- BaseParser.wait_for_element_clickable d self XPATH
                    (xpath_id "js" "/div[13]/div[2]/div/div/div/div/a[1]")
                    (Some (Py.Int 5)) ;;
     click d close_btn ;;
     time_sleep d)
    (ret tt).

Definition _input_inn (self : BaseParser.t) (inn : Py.str) : M d unit :=
  inn_field <- BaseParser.wait_for_element_visibility d self XPATH
                 (xpath_id "sug-participants" "/div/textarea") None ;;
  send_keys d inn_field inn ;;
  time_sleep d.

Definition _submit_search (self : BaseParser.t) : M d unit :=
  submit_button <- BaseParser.wait_for_element_clickable d self XPATH
                     (xpath_id "b-form-submit" "/div/button") None ;;
  click d submit_button ;;
  time_sleep d.

(** The markers the result wait races over, in the order of the source. *)
Definition result_markers : condition :=
  any_of [ visibility_of_element_located (CLASS_NAME, "b-noResults");
           visibility_of_element_located (CLASS_NAME, "b-results") ].

Definition _wait_for_result_display (self : BaseParser.t) : M d unit :=
  WebDriverWait_until d self.(BaseParser.timeout) result_markers ;;
  ret tt.

Definition _is_element_displayed (by_ : By) (value : string) : M d bool :=
  suppress NoSuchElementException
    (element <- find_element d by_ value ;;
     is_displayed d element)
    (ret false).

Definition _check_result (self : BaseParser.t) : M d bool :=
  _wait_for_result_display self ;;
  no_results <- _is_element_displayed CLASS_NAME "b-noResults" ;;
  if no_results then ret false
  else
    results <- _is_element_displayed CLASS_NAME "b-results" ;;
    if results then ret true
    else raise UndefinedError.

Definition parse (self : BaseParser.t) (inn : Py.str) : M d bool :=
  try_except
    (_close_notification self ;;
     _input_inn self inn ;;
     _submit_search self ;;
     result <- _check_result self ;;
     ret result)
    (fun e =>
       match e with
       | NoSuchElementException => raise UndefinedError
       | TimeoutException => raise ServiceUnavailableError
       | _ => raise e
       end).

End Methods.

End ArbitrParser.

(** ** parser_inn.py *)

Module InnParser.

Definition URL : string := "https://service.nalog.ru/inn.do".

Section Methods.
Context (d : Driver).

Definition __init__ (timeout : Py.num) : M d BaseParser.t :=
  BaseParser.__init__ d URL timeout.

Definition _find_and_click (by_ : By) (locator : string) : M d bool :=
  suppress NoSuchElementException
    (element <- find_element d by_ locator ;;
     execute_script d "arguments[0].click()" [JElement element] ;;
     ret true)
    (ret false).

Definition _bypass_personal_data_block : M d unit :=
  personal_data <- _find_and_click XPATH (xpath_id "unichk_0" "") ;;
  if personal_data
  then _find_and_click XPATH (xpath_id "btnContinue" "") ;; ret tt
  else ret tt.

Definition _fill_field (self : BaseParser.t) (by_ : By) (locator : string)
    (value : Py.str) : M d unit :=
  field <- BaseParser.wait_for_element_visibility d self by_ locator None ;;
  execute_script d "arguments[0].value = arguments[1]"
                 [JElement field; JStr value].

Definition _fill_personal_info (self : BaseParser.t)
    (surname name lastname birthdate passport : Py.str) : M d unit :=
  _fill_field self XPATH (xpath_id "fam" "") surname ;;
  _fill_field self XPATH (xpath_id "nam" "") name ;;
  _fill_field self XPATH (xpath_id "otch" "") lastname ;;
  _fill_field self XPATH (xpath_id "bdate" "") birthdate ;;
  _fill_field self XPATH (xpath_id "docno" "") passport.

Definition _submit_form : M d unit :=
  _find_and_click XPATH (xpath_id "btn_send" "") ;; ret tt.

Definition _check_for_errors (self : BaseParser.t) : M d unit :=
  suppress TimeoutException
    (marker <- BaseParser.wait_for_element_visibility d self CLASS_NAME
                 "field-errors" (Some (Py.Int 2)) ;;
     if WebElement_truthy marker then raise FieldFormatError else ret tt)
    (ret tt).

Definition _check_for_captcha (self : BaseParser.t) : M d unit :=
  suppress TimeoutException
    (marker <- BaseParser.wait_for_element_visibility d self XPATH
                 (xpath_id "uniDialogData" "") (Some (Py.Int 3)) ;;
     if WebElement_truthy marker then raise ServiceCaptchaError else ret tt)
    (ret tt).

Definition _validate_input (self : BaseParser.t) : M d unit :=
  try_finally
    (implicitly_wait d (Py.Int 0) ;;
     _check_for_errors self ;;
     _check_for_captcha self)
    (implicitly_wait d self.(BaseParser.timeout)).

Definition result_markers : condition :=
  any_of [ visibility_of_element_located (ID, "result_0");
           visibility_of_element_located (ID, "result_1");
           visibility_of_element_located (ID, "result_3");
           visibility_of_element_located (ID, "result_err") ].

Definition _wait_for_result_display (self : BaseParser.t) : M d unit :=
  WebDriverWait_until d self.(BaseParser.timeout) result_markers ;;
  ret tt.

Definition _is_element_displayed (by_ : By) (value : string) : M d bool :=
  suppress NoSuchElementException
    (element <- find_element d by_ value ;;
     is_displayed d element)
    (ret false).

Definition _parse_result (self : BaseParser.t) : M d Py.str :=
  _wait_for_result_display self ;;
  r0 <- _is_element_displayed ID "result_0" ;;
  if r0 then raise InnNotFoundError
  else
    r1 <- _is_element_displayed ID "result_1" ;;
    if r1 then
      inn <- find_element d XPATH (xpath_id "resultInn" "") ;;
      text d inn
    else
      r3 <- _is_element_displayed ID "result_3" ;;
      if r3 then raise DataVerificationError
      else
        rerr <- _is_element_displayed ID "result_err" ;;
        if rerr then raise ServiceUnavailableError
        else raise UndefinedError.

Definition parse (self : BaseParser.t)
    (surname name lastname birthdate passport : Py.str) : M d Py.str :=
  try_except
    (_bypass_personal_data_block ;;
     _fill_personal_info self surname name lastname birthdate passport ;;
     _submit_form ;;
     _validate_input self ;;
     _parse_result self)
    (fun e =>
       match e with
       | NoSuchElementException => raise UndefinedError
       | TimeoutException => raise ServiceUnavailableError
       | _ => raise e
       end).

End Methods.

End InnParser.

(** ** parser_rom.py *)

Module RomParser.

Definition URL : string := "https://service.nalog.ru/rom/".

Section Methods.
Context (d : Driver).

Definition __init__ (timeout : Py.num) : M d BaseParser.t :=
  BaseParser.__init__ d URL timeout.

Definition _input_inn (self : BaseParser.t) (inn : Py.str) : M d unit :=
  inn_field <- BaseParser.wait_for_element_visibility d self XPATH
                 (xpath_id "query" "") None ;;
  execute_script d "arguments[0].value = arguments[1]"
                 [JElement inn_field; JStr inn].

Definition _submit_search (self : BaseParser.t) : M d unit :=
  submit_button <- BaseParser.wait_for_element_clickable d self XPATH
                     (xpath_id "pnlSearch" "/div[4]/div[2]/button") None ;;
  execute_script d "arguments[0].click()" [JElement submit_button].

Definition _check_entry_validation (self : BaseParser.t) : M d unit :=
  suppress TimeoutException
    (marker <- BaseParser.wait_for_element_visibility d self CLASS_NAME
                 "field-errors" (Some (Py.Int 2)) ;;
     if WebElement_truthy marker then raise FieldFormatError else ret tt)
    (ret tt).

Definition result_markers : condition :=
  any_of [ visibility_of_element_located (ID, "pnlData");
           visibility_of_element_located (ID, "pnlNoData") ].

Definition _wait_for_result_display (self : BaseParser.t) : M d unit :=
  WebDriverWait_until d self.(BaseParser.timeout) result_markers ;;
  ret tt.

Definition _is_element_displayed (by_ : By) (value : string) : M d bool :=
  suppress NoSuchElementException
    (element <- find_element d by_ value ;;
     is_displayed d element)
    (ret false).

Definition _check_result (self : BaseParser.t) : M d bool :=
  _wait_for_result_display self ;;
  no_data <- _is_element_displayed ID "pnlNoData" ;;
  if no_data then ret false
  else
    data <- _is_element_displayed ID "pnlData" ;;
    if data then ret true
    else raise UndefinedError.

Definition parse (self : BaseParser.t) (inn : Py.str) : M d bool :=
  try_except
    (_input_inn self inn ;;
     _submit_search self ;;
     _check_entry_validation self ;;
     result <- _check_result self ;;
     ret result)
    (fun e =>
       match e with
       | NoSuchElementException => raise UndefinedError
       | TimeoutException => raise ServiceUnavailableError
       | _ => raise e
       end).

End Methods.

End RomParser.

(** ** The fragment of Python's [re] and [str] that parser_npd.py uses *)

(** The character tables of the Python runtime ([str.isalnum],
    [str.isspace]); they are parameters of the model. *)
Record Unicode := {
  isalnum : N -> bool;
  isspace : N -> bool
}.

Module Re.

(** Patterns without repetition: literals, [\b], concatenation, [|]. *)
Inductive regex :=
| Empty
| Char (c : N)
| WordBoundary
| Cat (r1 r2 : regex)
| Alt (r1 r2 : regex).

Fixpoint literal (s : Py.str) : regex :=
  match s with
  | [] => Empty
  | c :: s' => Cat (Char c) (literal s')
  end.

(** A match object: where the match starts and where it ends. *)
Record Match := { m_start : nat; m_end : nat }.

Section Engine.
Context (u : Unicode).

(** [\w] on [str] patterns: alphanumeric, or the underscore. *)
Definition word_char (c : N) : bool := isalnum u c || (c =? 95)%N.

Definition word_at (text : Py.str) (i : nat) : bool :=
  match nth_error text i with
  | Some c => word_char c
  | None => false
  end.

(** [\b] holds at [i] when exactly one of the characters before and
    after position [i] is a word character; the ends of the text count
    as non-word. *)
Definition at_boundary (text : Py.str) (i : nat) : bool :=
  xorb (match i with O => false | S j => word_at text j end)
       (word_at text i).

(** Backtracking matcher: match [r] at position [i], then continue
    with [k]; the first alternative that lets the rest succeed wins. *)
Fixpoint matches (r : regex) (text : Py.str) (i : nat)
    (k : nat -> option nat) : option nat :=
  match r with
  | Empty => k i
  | Char c =>
      match nth_error text i with
      | Some c' => if (c =? c')%N then k (S i) else None
      | None => None
      end
  | WordBoundary => if at_boundary text i then k i else None
  | Cat r1 r2 => matches r1 text i (fun j => matches r2 text j k)
  | Alt r1 r2 =>
      match matches r1 text i k with
      | Some j => Some j
      | None => matches r2 text i k
      end
  end.

(** Try the start positions [i], [i+1], ..., [i+n] in turn. *)
Fixpoint search_from (r : regex) (text : Py.str) (i n : nat)
  : option Match :=
  match matches r text i Some with
  | Some j => Some {| m_start := i; m_end := j |}
  | None =>
      match n with
      | O => None
      | S n' => search_from r text (S i) n'
      end
  end.

(** [re.search(pattern, text)]: the leftmost match, or [None]. *)
Definition search (r : regex) (text : Py.str) : option Match :=
  search_from r text 0 (List.length text).

End Engine.

(** [match.group()] *)
Definition group (text : Py.str) (m : Match) : Py.str :=
  firstn (m_end m - m_start m) (skipn (m_start m) text).

End Re.

Fixpoint str_eqb (a b : Py.str) : bool :=
  match a, b with
  | [], [] => true
  | x :: a', y :: b' => (x =? y)%N && str_eqb a' b'
  | _, _ => false
  end.

Fixpoint lstrip (sp : N -> bool) (s : Py.str) : Py.str :=
  match s with
  | [] => []
  | c :: s' => if sp c then lstrip sp s' else s
  end.

(** [s.strip()] *)
Definition strip (u : Unicode) (s : Py.str) : Py.str :=
  rev (lstrip (isspace u) (rev (lstrip (isspace u) s))).

(** ** parser_npd.py *)

Module NpdParser.

Definition URL : string := "https://npd.nalog.ru/check-status/".

(** The two phrases, as code points. *)
Definition ne : Py.str := [1085; 1077]%N.
Definition yavlyaetsya : Py.str :=
  [1103; 1074; 1083; 1103; 1077; 1090; 1089; 1103]%N.
Definition ne_yavlyaetsya : Py.str := (ne ++ [32%N] ++ yavlyaetsya)%list.

(** The pattern of [_analyze_result]: the phrase "ne yavlyaetsya" between
    word boundaries, or else the word "yavlyaetsya" between word
    boundaries. *)
Definition pattern : Re.regex :=
  Re.Alt
    (Re.Cat Re.WordBoundary (Re.Cat (Re.literal ne_yavlyaetsya) Re.WordBoundary))
    (Re.Cat Re.WordBoundary (Re.Cat (Re.literal yavlyaetsya) Re.WordBoundary)).

Section Methods.
Context (d : Driver) (u : Unicode).

Definition __init__ (timeout : Py.num) : M d BaseParser.t :=
  BaseParser.__init__ d URL timeout.

Definition _fill_inn_field (self : BaseParser.t) (inn : Py.str) : M d unit :=
  inn_field <- BaseParser.wait_for_element_visibility d self XPATH
                 (xpath_id "ctl00_ctl00_tbINN" "") None ;;
  execute_script d "arguments[0].value = arguments[1]"
                 [JElement inn_field; JStr inn].

Definition _fill_date_field (self : BaseParser.t) : M d unit :=
  current_date <- date_today_strftime d "%d-%m-%Y" ;;
  date_field <- BaseParser.wait_for_element_visibility d self XPATH
                  (xpath_id "ctl00_ctl00_tbDate" "") None ;;
  execute_script d "arguments[0].value = arguments[1]"
                 [JElement date_field; JStr current_date].

Definition _submit_form (self : BaseParser.t) : M d unit :=
  submit_button <- BaseParser.wait_for_element_clickable d self XPATH
                     (xpath_id "ctl00_ctl00_btSend" "") None ;;
  execute_script d "arguments[0].click()" [JElement submit_button].

Definition validation_markers : condition :=
  any_of
    [ visibility_of_element_located
        (XPATH, xpath_id "ctl00_ctl00_RequiredFieldValidator1" "");
      visibility_of_element_located (XPATH, xpath_id "ctl00_ctl00_cv_Inn" "");
      visibility_of_element_located
        (XPATH, xpath_id "ctl00_ctl00_RequiredFieldValidator2" "");
      visibility_of_element_located
        (XPATH, xpath_id "ctl00_ctl00_CustomValidator1" "") ].

Definition _check_entry_validation : M d unit :=
  suppress TimeoutException
    (WebDriverWait_until d (Py.Int 2) validation_markers ;;
     raise FieldFormatError)
    (ret tt).

Definition result_marker : condition :=
  visibility_of_element_located
    (XPATH, xpath_id "content" "/div/div/div[1]/div[5]").

Definition _get_result_text (self : BaseParser.t) : M d Py.str :=
  result_element <- WebDriverWait_until d self.(BaseParser.timeout)
                      result_marker ;;
  t <- text d result_element ;;
  ret (strip u t).

(** A static method: no call to the session. *)
Definition _analyze_result (text : Py.str) : outcome bool :=
  match Re.search u pattern text with
  | None => Raise ServiceUnavailableError
  | Some m => Return (str_eqb (Re.group text m) yavlyaetsya)
  end.

Definition parse (self : BaseParser.t) (inn : Py.str) : M d bool :=
  try_except
    (_fill_inn_field self inn ;;
     _fill_date_field self ;;
     _submit_form self ;;
     _check_entry_validation ;;
     result_text <- _get_result_text self ;;
     lift (_analyze_result result_text))
    (fun e =>
       match e with
       | NoSuchElementException => raise UndefinedError
       | TimeoutException => raise ServiceUnavailableError
       | _ => raise e
       end).

End Methods.

End NpdParser.

(** ** The workflows behind one interface *)

Inductive service := Arbitr | Inn | Rom | Npd.

(** What a caller passes in: the three boolean lookups read [inn], the
    extraction reads the five personal fields. *)
Record request := {
  inn : Py.str;
  surname : Py.str;
  name : Py.str;
  lastname : Py.str;
  birthdate : Py.str;
  passport : Py.str
}.

(** What a parser returns. *)
Inductive result :=
| Found (b : bool)
| Value (s : Py.str).

(** [parse] of the parser for [sv], on the fields of [rq] it takes. *)
Definition parse_service (sv : service) (d : Driver) (u : Unicode)
    (self : BaseParser.t) (rq : request) : M d result :=
  match sv with
  | Arbitr => b <- ArbitrParser.parse d self (inn rq) ;; ret (Found b)
  | Inn => v <- InnParser.parse d self (surname rq) (name rq) (lastname rq)
                  (birthdate rq) (passport rq) ;;
           ret (Value v)
  | Rom => b <- RomParser.parse d self (inn rq) ;; ret (Found b)
  | Npd => b <- NpdParser.parse d u self (inn rq) ;; ret (Found b)
  end.

(** ** A test double: a page that does not change during the run *)

Module StaticPage.

Record node := {
  selector : locator;
  handle : WebElement;
  displayed : bool;
  enabled : bool;
  inner_text : Py.str
}.

Definition dom := list node.

Definition select (l : locator) (p : dom) : option node :=
  find (fun n => locator_eqb (selector n) l) p.

Definition by_handle (e : WebElement) (p : dom) : option node :=
  find (fun n => (handle n =? e)%N) p.

(** The element a condition yields on the page, if it holds. *)
Fixpoint holds (p : dom) (c : condition) : option WebElement :=
  match c with
  | visibility_of_element_located l =>
      match select l p with
      | Some n => if displayed n then Some (handle n) else None
      | None => None
      end
  | element_to_be_clickable l =>
      match select l p with
      | Some n => if displayed n && enabled n then Some (handle n) else None
      | None => None
      end
  | any_of cs =>
      (fix first (cs : list condition) : option WebElement :=
         match cs with
         | [] => None
         | c' :: cs' =>
             match holds p c' with
             | Some e => Some e
             | None => first cs'
             end
         end) cs
  end.

(** Since the page never changes, a wait succeeds exactly when its
    condition holds at once, whatever the timeout. *)
Definition driver (today : Py.str) : Driver := {|
  drv_state := dom;
  drv_get := fun _ p => p;
  drv_implicitly_wait := fun _ p => p;
  drv_find_element := fun l p => (option_map handle (select l p), p);
  drv_until := fun _ c p => (holds p c, p);
  drv_is_displayed := fun e p =>
    (match by_handle e p with Some n => displayed n | None => false end, p);
  drv_text := fun e p =>
    (match by_handle e p with Some n => inner_text n | None => [] end, p);
  drv_click := fun _ p => p;
  drv_send_keys := fun _ _ p => p;
  drv_execute_script := fun _ _ p => p;
  drv_sleep := fun p => p;
  drv_today := fun _ _ => today
|}.

Definition visible (l : locator) (e : WebElement) (t : Py.str) : node :=
  {| selector := l; handle := e; displayed := true; enabled := true;
     inner_text := t |}.

Definition hidden (l : locator) (e : WebElement) : node :=
  {| selector := l; handle := e; displayed := false; enabled := true;
     inner_text := [] |}.

End StaticPage.

(** ** A second test double: elements that vanish

    Every wait finds its element at once, but no element is there any more
    when it is looked up afterwards. *)

Module VanishingPage.

Definition driver : Driver := {|
  drv_state := unit;
  drv_get := fun _ p => p;
  drv_implicitly_wait := fun _ p => p;
  drv_find_element := fun _ p => (None, p);
  drv_until := fun _ _ p => (Some 1%N, p);
  drv_is_displayed := fun _ p => (false, p);
  drv_text := fun _ p => ([], p);
  drv_click := fun _ p => p;
  drv_send_keys := fun _ _ p => p;
  drv_execute_script := fun _ _ p => p;
  drv_sleep := fun p => p;
  drv_today := fun _ _ => []
|}.

End VanishingPage.

(** A table for the test doubles: ASCII letters and digits and the
    Cyrillic letters U+0400..U+04FF are alphanumeric; the ASCII blanks are
    spaces. *)
Definition small_unicode : Unicode := {|
  isalnum := fun c =>
    ((48 <=? c) && (c <=? 57) || (65 <=? c) && (c <=? 90)
     || (97 <=? c) && (c <=? 122) || (1024 <=? c) && (c <=? 1279))%N;
  isspace := fun c => ((c =? 32) || ((9 <=? c) && (c <=? 13)))%N
|}.

Definition session30 : BaseParser.t := {| BaseParser.timeout := Py.Int 30 |}.

(** ** Pages and requests for the test doubles *)

Definition digits12 : Py.str := Py.of_ascii "123456789012".

Definition ivanov : request := {|
  inn := Py.of_ascii "1234567890";
  surname := Py.of_ascii "Ivanov";
  name := Py.of_ascii "Ivan";
  lastname := Py.of_ascii "Ivanovich";
  birthdate := Py.of_ascii "01.01.1900";
  passport := Py.of_ascii "12 34 567890"
|}.

Module Pages.
Import StaticPage.
Local Open Scope N_scope.

(** kad.arbitr.ru with the search form, no notification. *)
Definition arbitr_form : dom :=
  [ visible (XPATH, xpath_id "sug-participants" "/div/textarea") 1 [];
    visible (XPATH, xpath_id "b-form-submit" "/div/button") 2 [] ].

(** The same page without its submit button. *)
Definition arbitr_no_button : dom :=
  [ visible (XPATH, xpath_id "sug-participants" "/div/textarea") 1 [] ].

Definition arbitr_no_results : dom :=
  (arbitr_form ++ [ visible (CLASS_NAME, "b-noResults") 3 [];
                   hidden (CLASS_NAME, "b-results") 4 ])%list.

Definition arbitr_results : dom :=
  (arbitr_form ++ [ hidden (CLASS_NAME, "b-noResults") 3;
                   visible (CLASS_NAME, "b-results") 4 [] ])%list.

(** Both markers hidden; a wait on this page times out. *)
Definition arbitr_neither : dom :=
  (arbitr_form ++ [ hidden (CLASS_NAME, "b-noResults") 3;
                   hidden (CLASS_NAME, "b-results") 4 ])%list.

(** service.nalog.ru/inn.do with its five fields and the send button. *)
Definition inn_form : dom :=
  [ visible (XPATH, xpath_id "fam" "") 1 [];
    visible (XPATH, xpath_id "nam" "") 2 [];
    visible (XPATH, xpath_id "otch" "") 3 [];
    visible (XPATH, xpath_id "bdate" "") 4 [];
    visible (XPATH, xpath_id "docno" "") 5 [];
    visible (XPATH, xpath_id "btn_send" "") 6 [] ].

Definition inn_value : node :=
  visible (XPATH, xpath_id "resultInn" "") 20 digits12.

Definition inn_success : dom :=
  (inn_form ++ [ visible (ID, "result_1") 11 []; inn_value ])%list.

(** The success marker together with the verification-error marker. *)
Definition inn_success_and_result_3 : dom :=
  (inn_form ++ [ visible (ID, "result_1") 11 [];
                visible (ID, "result_3") 13 []; inn_value ])%list.

(** The success marker together with the server-error marker. *)
Definition inn_success_and_result_err : dom :=
  (inn_form ++ [ visible (ID, "result_1") 11 [];
                visible (ID, "result_err") 14 []; inn_value ])%list.

(** The not-found marker together with the success marker. *)
Definition inn_result_0_and_success : dom :=
  (inn_form ++ [ visible (ID, "result_0") 10 [];
                visible (ID, "result_1") 11 []; inn_value ])%list.

Definition inn_field_errors : dom :=
  (inn_form ++ [ visible (CLASS_NAME, "field-errors") 7 [] ])%list.

(** service.nalog.ru/rom with the query field and the search button. *)
Definition rom_form : dom :=
  [ visible (XPATH, xpath_id "query" "") 1 [];
    visible (XPATH, xpath_id "pnlSearch" "/div[4]/div[2]/button") 2 [] ].

Definition rom_field_errors : dom :=
  (rom_form ++ [ visible (CLASS_NAME, "field-errors") 3 [] ])%list.

(** npd.nalog.ru/check-status with its form, before any result. *)
Definition npd_form : dom :=
  [ visible (XPATH, xpath_id "ctl00_ctl00_tbINN" "") 1 [];
    visible (XPATH, xpath_id "ctl00_ctl00_tbDate" "") 2 [];
    visible (XPATH, xpath_id "ctl00_ctl00_btSend" "") 3 [] ].

(** npd.nalog.ru/check-status with its form and a result text. *)
Definition npd_page (result_text : Py.str) : dom :=
  [ visible (XPATH, xpath_id "ctl00_ctl00_tbINN" "") 1 [];
    visible (XPATH, xpath_id "ctl00_ctl00_tbDate" "") 2 [];
    visible (XPATH, xpath_id "ctl00_ctl00_btSend" "") 3 [];
    visible (XPATH, xpath_id "content" "/div/div/div[1]/div[5]") 4 result_text ].

End Pages.

(** Texts for the classifier: one without either phrase; one in which
    the word "yavlyaetsya" comes first and the phrase "ne yavlyaetsya"
    later; one in which "ne yavlyaetsya" is glued to a letter before it;
    one in which "yavlyaetsya" runs on into a longer word. *)
Definition text_unknown : Py.str := Py.of_ascii "status unknown".

Definition text_both : Py.str :=
  (NpdParser.yavlyaetsya ++ [44; 32]%N ++ NpdParser.ne_yavlyaetsya)%list.

Definition text_glued : Py.str := (1086%N :: NpdParser.ne_yavlyaetsya)%list.

Definition text_longer_word : Py.str :=
  (NpdParser.yavlyaetsya ++ [1103]%N)%list.

(** * Vocabulary of the properties *)

(** What the helper is meant to compute: [True] exactly when the element
    is found and the found element is displayed. *)
Definition exists_and_displayed (d : Driver) (l : locator) (p : drv_state d)
  : Prop :=
  exists e p1, drv_find_element d l p = (Some e, p1)
               /\ fst (drv_is_displayed d e p1) = true.

Definition absent (d : Driver) (l : locator) (p : drv_state d) : Prop :=
  fst (drv_find_element d l p) = None.

Definition present_not_displayed (d : Driver) (l : locator) (p : drv_state d)
  : Prop :=
  exists e p1, drv_find_element d l p = (Some e, p1)
               /\ fst (drv_is_displayed d e p1) = false.

Definition displayed_helper_spec (d : Driver)
    (helper : By -> string -> M d bool) : Prop :=
  forall by_ value s,
    (exists b, fst (helper by_ value s) = Return b)
    /\ (fst (helper by_ value s) = Return true
        <-> exists_and_displayed d (by_, value) (page s))
    /\ (absent d (by_, value) (page s) ->
        fst (helper by_ value s) = Return false)
    /\ (present_not_displayed d (by_, value) (page s) ->
        fst (helper by_ value s) = Return false).

(** The session after one more call: [ev] is logged and the browser is
    on page [p]. *)
Definition after_call {d : Driver} (s : session d) (ev : event)
    (p : drv_state d) : session d :=
  {| page := p; log := (log s ++ [ev])%list |}.

(** ** Waits that time out *)

(** The waits of the required Steps of each workflow: the waits that are
    not wrapped in [suppress(TimeoutException)] and come before the
    validation and the result wait. *)
Definition required_waits (sv : service) : list condition :=
  match sv with
  | Arbitr =>
      [ visibility_of_element_located
          (XPATH, xpath_id "sug-participants" "/div/textarea");
        element_to_be_clickable (XPATH, xpath_id "b-form-submit" "/div/button") ]
  | Inn =>
      [ visibility_of_element_located (XPATH, xpath_id "fam" "");
        visibility_of_element_located (XPATH, xpath_id "nam" "");
        visibility_of_element_located (XPATH, xpath_id "otch" "");
        visibility_of_element_located (XPATH, xpath_id "bdate" "");
        visibility_of_element_located (XPATH, xpath_id "docno" "") ]
  | Rom =>
      [ visibility_of_element_located (XPATH, xpath_id "query" "");
        element_to_be_clickable
          (XPATH, xpath_id "pnlSearch" "/div[4]/div[2]/button") ]
  | Npd =>
      [ visibility_of_element_located (XPATH, xpath_id "ctl00_ctl00_tbINN" "");
        visibility_of_element_located (XPATH, xpath_id "ctl00_ctl00_tbDate" "");
        element_to_be_clickable (XPATH, xpath_id "ctl00_ctl00_btSend" "") ]
  end.

(** The wait for the terminal markers of each workflow. *)
Definition result_wait (sv : service) : condition :=
  match sv with
  | Arbitr => ArbitrParser.result_markers
  | Inn => InnParser.result_markers
  | Rom => RomParser.result_markers
  | Npd => NpdParser.result_marker
  end.

(** The fast validation wait of the workflows that have one. *)
Definition validation_wait (sv : service) : list condition :=
  match sv with
  | Arbitr => []
  | Inn | Rom => [ visibility_of_element_located (CLASS_NAME, "field-errors") ]
  | Npd => [ NpdParser.validation_markers ]
  end.

(** [timed_out cs ev]: [ev] is a wait on one of the conditions [cs] that
    ended in a timeout. *)
Definition timed_out (cs : list condition) (ev : event) : bool :=
  match ev with
  | Euntil _ c r =>
      existsb (condition_eqb c) cs
      && match r with None => true | Some _ => false end
  | _ => false
  end.

(** [waited cs ev]: [ev] is a wait on one of the conditions [cs]. *)
Definition waited (cs : list condition) (ev : event) : bool :=
  match ev with
  | Euntil _ c _ => existsb (condition_eqb c) cs
  | _ => false
  end.

(** [succeeded cs ev]: [ev] is a wait on one of [cs] that found its
    element. *)
Definition succeeded (cs : list condition) (ev : event) : bool :=
  match ev with
  | Euntil _ c r =>
      existsb (condition_eqb c) cs
      && match r with None => false | Some _ => true end
  | _ => false
  end.

(** Judgements on computations, relative to a set [bad] of events:
    [quiet] computations never log a bad event; [strict] ones log a bad
    event only to leave at once with [TimeoutException]. *)
Definition quiet {d A} (bad : event -> bool) (m : M d A) : Prop :=
  forall s, existsb bad (log s) = false ->
            existsb bad (log (snd (m s))) = false.

Definition strict {d A} (bad : event -> bool) (m : M d A) : Prop :=
  forall s, existsb bad (log s) = false ->
            existsb bad (log (snd (m s))) = false
            \/ fst (m s) = Raise TimeoutException.

(** [decisive hit never e m]: from a log without [hit] and [never]
    events, [m] logs a [hit] event only to leave at once with [e], and
    then without having logged any [never] event. *)
Definition decisive {d A} (hit never : event -> bool) (e : exn) (m : M d A)
  : Prop :=
  forall s, existsb hit (log s) = false -> existsb never (log s) = false ->
            existsb hit (log (snd (m s))) = false
            \/ (fst (m s) = Raise e
                /\ existsb never (log (snd (m s))) = false).

(** The [except] clauses that close [parse] in all four parsers. *)
Definition except_clauses {d A} (e : exn) : M d A :=
  match e with
  | NoSuchElementException => raise UndefinedError
  | TimeoutException => raise ServiceUnavailableError
  | _ => raise e
  end.

(** ** The [try] blocks of [parse] *)

(** The statements between [try:] and the first [except] of each [parse],
    on their own. *)
Definition try_block (sv : service) (d : Driver) (u : Unicode)
    (self : BaseParser.t) (rq : request) : M d result :=
  match sv with
  | Arbitr =>
      b <- (ArbitrParser._close_notification d self ;;
            ArbitrParser._input_inn d self (inn rq) ;;
            ArbitrParser._submit_search d self ;;
            result <- ArbitrParser._check_result d self ;;
            ret result) ;;
      ret (Found b)
  | Inn =>
      v <- (InnParser._bypass_personal_data_block d ;;
            InnParser._fill_personal_info d self (surname rq) (name rq)
              (lastname rq) (birthdate rq) (passport rq) ;;
            InnParser._submit_form d ;;
            InnParser._validate_input d self ;;
            InnParser._parse_result d self) ;;
      ret (Value v)
  | Rom =>
      b <- (RomParser._input_inn d self (inn rq) ;;
            RomParser._submit_search d self ;;
            RomParser._check_entry_validation d self ;;
            result <- RomParser._check_result d self ;;
            ret result) ;;
      ret (Found b)
  | Npd =>
      b <- (NpdParser._fill_inn_field d self (inn rq) ;;
            NpdParser._fill_date_field d self ;;
            NpdParser._submit_form d self ;;
            NpdParser._check_entry_validation d ;;
            result_text <- NpdParser._get_result_text d u self ;;
            lift (NpdParser._analyze_result u result_text)) ;;
      ret (Found b)
  end.

(** ** Whole-word occurrences of a phrase *)

(** The phrase [s] stands in [text] at position [i]. *)
Fixpoint occurs (s text : Py.str) (i : nat) : bool :=
  match s with
  | [] => true
  | c :: s' =>
      match nth_error text i with
      | Some c' => (c =? c')%N && occurs s' text (S i)
      | None => false
      end
  end.

(** ... and it stands there as a whole word: there is a word boundary
    just before it and just after it. *)
Definition whole_word (u : Unicode) (s text : Py.str) (i : nat) : bool :=
  Re.at_boundary u text i && occurs s text i
  && Re.at_boundary u text (i + List.length s).

(** Neither phrase stands as a whole word at a position before [i]. *)
Definition no_phrase_before (u : Unicode) (text : Py.str) (i : nat) : Prop :=
  forall j, j < i ->
    whole_word u NpdParser.ne_yavlyaetsya text j = false
    /\ whole_word u NpdParser.yavlyaetsya text j = false.

(** * Vocabulary of the further properties *)

(** ** A third test double: scripted waits

    The state is the list of answers the coming waits will get, in order;
    a wait past the end of the script times out.  No element is ever found
    by a lookup. *)

Module ScriptedWaits.

Definition driver : Driver := {|
  drv_state := list (option WebElement);
  drv_get := fun _ p => p;
  drv_implicitly_wait := fun _ p => p;
  drv_find_element := fun _ p => (None, p);
  drv_until := fun _ _ p =>
    match p with
    | [] => (None, [])
    | r :: p' => (r, p')
    end;
  drv_is_displayed := fun _ p => (false, p);
  drv_text := fun _ p => ([], p);
  drv_click := fun _ p => p;
  drv_send_keys := fun _ _ p => p;
  drv_execute_script := fun _ _ p => p;
  drv_sleep := fun p => p;
  drv_today := fun _ _ => []
|}.

End ScriptedWaits.

Module MorePages.
Import StaticPage.
Local Open Scope N_scope.

Definition inn_not_found : dom :=
  (Pages.inn_form ++ [ visible (ID, "result_0") 10 [] ])%list.

Definition inn_verification_error : dom :=
  (Pages.inn_form ++ [ visible (ID, "result_3") 13 [] ])%list.

Definition inn_server_error : dom :=
  (Pages.inn_form ++ [ visible (ID, "result_err") 14 [] ])%list.

Definition inn_captcha : dom :=
  (Pages.inn_form ++ [ visible (XPATH, xpath_id "uniDialogData" "") 8 [] ])%list.

(** The success marker without the element that holds the value. *)
Definition inn_success_without_value : dom :=
  (Pages.inn_form ++ [ visible (ID, "result_1") 11 [] ])%list.

Definition rom_no_data : dom :=
  (Pages.rom_form ++ [ visible (ID, "pnlNoData") 4 [];
                       hidden (ID, "pnlData") 5 ])%list.

Definition rom_data : dom :=
  (Pages.rom_form ++ [ hidden (ID, "pnlNoData") 4;
                       visible (ID, "pnlData") 5 [] ])%list.

Definition npd_invalid : dom :=
  (Pages.npd_page [] ++
   [ visible (XPATH, xpath_id "ctl00_ctl00_cv_Inn" "") 9 [] ])%list.

End MorePages.

(** The phrase "ne yavlyaetsya" between blanks and a line break. *)
Definition text_padded : Py.str :=
  ([32; 32]%N ++ NpdParser.ne_yavlyaetsya ++ [10]%N)%list.

(** ** The errors a parser can raise *)

(** [raises_only P m]: whenever [m] raises, it raises an exception of
    [P]. *)
Definition raises_only {d A} (P : exn -> bool) (m : M d A) : Prop :=
  forall s, match fst (m s) with
            | Return _ => True
            | Raise e => P e = true
            end.

Definition one_of (es : list exn) (e : exn) : bool := existsb (exn_eqb e) es.

(** The errors that leave [parse] in the runs of the model, parser by
    parser. *)
Definition raisable (sv : service) : list exn :=
  match sv with
  | Arbitr => [ ServiceUnavailableError; UndefinedError ]
  | Inn => [ InnNotFoundError; DataVerificationError; FieldFormatError;
             ServiceCaptchaError; ServiceUnavailableError; UndefinedError ]
  | Rom => [ FieldFormatError; ServiceUnavailableError; UndefinedError ]
  | Npd => [ FieldFormatError; ServiceUnavailableError ]
  end.

(** The errors that the docstring of each [parse] lists under "Raises". *)
Definition documented (sv : service) : list exn :=
  match sv with
  | Arbitr => [ ServiceUnavailableError; UndefinedError ]
  | Inn => [ InnNotFoundError; DataVerificationError; FieldFormatError;
             ServiceUnavailableError; UndefinedError ]
  | Rom | Npd => [ ServiceUnavailableError; FieldFormatError; UndefinedError ]
  end.

(** ** Waits after which nothing more is done *)

(** The last event of [l] is in [bad], and it is the only one. *)
Definition ends_with (bad : event -> bool) (l : list event) : Prop :=
  exists l0 ev, l = (l0 ++ [ev])%list /\ bad ev = true
                /\ existsb bad l0 = false.

(** [halting bad m]: from a log without [bad] events, [m] logs a [bad]
    event only as its last call, leaving with [TimeoutException]. *)
Definition halting {d A} (bad : event -> bool) (m : M d A) : Prop :=
  forall s, existsb bad (log s) = false ->
            existsb bad (log (snd (m s))) = false
            \/ (fst (m s) = Raise TimeoutException
                /\ ends_with bad (log (snd (m s)))).

(** The captcha wait of [InnParser._check_for_captcha]. *)
Definition captcha_wait : condition :=
  visibility_of_element_located (XPATH, xpath_id "uniDialogData" "").

(** ** Invariants of the log *)

(** [keeps P m]: [m] takes a log in [P] to a log in [P], however it
    ends. *)
Definition keeps {d A} (P : list event -> Prop) (m : M d A) : Prop :=
  forall s, P (log s) -> P (log (snd (m s))).

(** [restores P m]: the log is in [P] after [m], whatever it was. *)
Definition restores {d A} (P : list event -> Prop) (m : M d A) : Prop :=
  forall s, P (log (snd (m s))).

(** The implicit wait that is in force after the calls of [l], when it was
    [cur] before them: the argument of the last [implicitly_wait]. *)
Definition implicit_wait_after (l : list event) (cur : option Py.num)
  : option Py.num :=
  fold_left (fun cur ev =>
               match ev with
               | Eimplicitly_wait t => Some t
               | _ => cur
               end) l cur.

(** The waits that are passed a timeout of their own, with that timeout:
    the notification of [ArbitrParser] (5), the field-format markers (2)
    and the captcha dialog (3). *)
Definition time_box (c : condition) : option Py.num :=
  if condition_eqb c
       (element_to_be_clickable
          (XPATH, xpath_id "js" "/div[13]/div[2]/div/div/div/div/a[1]"))
  then Some (Py.Int 5)
  else if condition_eqb c
            (visibility_of_element_located (CLASS_NAME, "field-errors"))
  then Some (Py.Int 2)
  else if condition_eqb c NpdParser.validation_markers
  then Some (Py.Int 2)
  else if condition_eqb c captcha_wait
  then Some (Py.Int 3)
  else None.

(** The timeout a wait on [c] is expected to be made with. *)
Definition expected_timeout (self : BaseParser.t) (c : condition) : Py.num :=
  match time_box c with
  | Some t => t
  | None => BaseParser.timeout self
  end.

Definition timeout_ok (self : BaseParser.t) (ev : event) : Prop :=
  match ev with
  | Euntil t c _ => t = expected_timeout self c
  | _ => True
  end.

(** ** What an answer rests on *)

(** The calls a returned result rests on, as the last events of the log:
    the displayed marker for the boolean lookups, the success marker and
    the value element for the extraction, the result text and its
    classification for the text lookup. *)
Definition evidence (sv : service) (u : Unicode) (self : BaseParser.t)
    (res : result) (l : list event) : Prop :=
  match sv, res with
  | Arbitr, Found b =>
      exists l0 e,
        l = (l0 ++ [ Efind_element
                       (CLASS_NAME, if b then "b-results" else "b-noResults")
                       (Some e);
                     Eis_displayed e true ])%list
  | Rom, Found b =>
      exists l0 e,
        l = (l0 ++ [ Efind_element (ID, if b then "pnlData" else "pnlNoData")
                       (Some e);
                     Eis_displayed e true ])%list
  | Inn, Value v =>
      exists l0 e e',
        l = (l0 ++ [ Efind_element (ID, "result_1") (Some e);
                     Eis_displayed e true;
                     Efind_element (XPATH, xpath_id "resultInn" "") (Some e');
                     Etext e' v ])%list
  | Npd, Found b =>
      exists l0 e txt,
        l = (l0 ++ [ Euntil (BaseParser.timeout self) NpdParser.result_marker
                       (Some e);
                     Etext e txt ])%list
        /\ NpdParser._analyze_result u (strip u txt) = Return b
  | _, _ => False
  end.

(** ** What an error rests on *)

(** The calls of one [_is_element_displayed] on [l] that answered [b], as
    the latest calls of [evs], a log read backwards (latest call first);
    what came before them is returned.  The helper answers [False] when
    the lookup finds nothing, and otherwise what [is_displayed] says of
    the element that the lookup found. *)
Definition helper_answered (l : locator) (b : bool) (evs : list event)
  : option (list event) :=
  match evs with
  | Efind_element l' None :: before =>
      if locator_eqb l l' && negb b then Some before else None
  | Eis_displayed e b' :: Efind_element l' (Some e') :: before =>
      if locator_eqb l l' && (e =? e')%N && Bool.eqb b b'
      then Some before else None
  | _ => None
  end.

(** The calls of a chain of tests, listed in the order of the code, as
    the latest calls of [evs]; what came before them is returned. *)
Definition tests_answered (answers : list (locator * bool))
    (evs : list event) : option (list event) :=
  fold_right
    (fun a earlier =>
       match earlier with
       | Some evs' => helper_answered (fst a) (snd a) evs'
       | None => None
       end)
    (Some evs) answers.

(** The latest call of [evs] is the wait for the terminal markers of
    [sv], and it found a marker. *)
Definition result_wait_found (sv : service) (evs : list event) : bool :=
  match evs with
  | Euntil _ c (Some _) :: _ => condition_eqb c (result_wait sv)
  | _ => false
  end.

(** The run ended like this: the wait for the terminal markers found a
    marker, then the tests [answers] were made, in this order and with
    these answers, and nothing else. *)
Definition ended_by_tests (sv : service) (answers : list (locator * bool))
    (l : list event) : bool :=
  match tests_answered answers (rev l) with
  | Some before => result_wait_found sv before
  | None => false
  end.

(** In [InnParser]: the wait for the terminal markers found a marker,
    [result_0] was not displayed, [result_1] was, and the lookup of
    [resultInn] then found nothing. *)
Definition ended_without_value (l : list event) : bool :=
  match rev l with
  | Efind_element l' None :: evs =>
      locator_eqb l' (XPATH, xpath_id "resultInn" "")
      && match tests_answered [ ((ID, "result_0"), false);
                                ((ID, "result_1"), true) ] evs with
         | Some before => result_wait_found Inn before
         | None => false
         end
  | _ => false
  end.

(** The last call of the run is a wait of a required Step, or the wait
    for the terminal markers, and it timed out. *)
Definition ended_by_timeout (sv : service) (l : list event) : bool :=
  match rev l with
  | ev :: _ => timed_out (result_wait sv :: required_waits sv) ev
  | [] => false
  end.

(** In [NpdParser]: the last calls of the run are the wait that found the
    result element and the reading of its text, which the classifier
    rejects. *)
Definition ended_by_unknown_text (u : Unicode) (l : list event) : bool :=
  match rev l with
  | Etext e txt :: Euntil _ c (Some e') :: _ =>
      condition_eqb c NpdParser.result_marker && (e =? e')%N
      && match NpdParser._analyze_result u (strip u txt) with
         | Raise _ => true
         | Return _ => false
         end
  | _ => false
  end.

(** What the calls of a run must show for [parse] to raise [e]. *)
Definition cause (sv : service) (u : Unicode) (e : exn) (l : list event)
  : bool :=
  match e with
  | FieldFormatError => existsb (succeeded (validation_wait sv)) l
  | ServiceCaptchaError => existsb (succeeded [captcha_wait]) l
  | InnNotFoundError => ended_by_tests sv [ ((ID, "result_0"), true) ] l
  | DataVerificationError =>
      ended_by_tests sv [ ((ID, "result_0"), false);
                          ((ID, "result_1"), false);
                          ((ID, "result_3"), true) ] l
  | ServiceUnavailableError =>
      ended_by_timeout sv l
      || match sv with
         | Inn => ended_by_tests Inn [ ((ID, "result_0"), false);
                                       ((ID, "result_1"), false);
                                       ((ID, "result_3"), false);
                                       ((ID, "result_err"), true) ] l
         | Npd => ended_by_unknown_text u l
         | _ => false
         end
  | UndefinedError =>
      match sv with
      | Arbitr => ended_by_tests Arbitr [ ((CLASS_NAME, "b-noResults"), false);
                                          ((CLASS_NAME, "b-results"), false) ] l
      | Rom => ended_by_tests Rom [ ((ID, "pnlNoData"), false);
                                    ((ID, "pnlData"), false) ] l
      | Inn => ended_by_tests Inn [ ((ID, "result_0"), false);
                                    ((ID, "result_1"), false);
                                    ((ID, "result_3"), false);
                                    ((ID, "result_err"), false) ] l
               || ended_without_value l
      | Npd => false
      end
  | NoSuchElementException | TimeoutException => false
  end.

(** ** The order of the phases *)

(** The waits of the validation phase of each workflow. *)
Definition time_boxed_waits (sv : service) : list condition :=
  match sv with
  | Inn => validation_wait Inn ++ [captcha_wait]
  | _ => validation_wait sv
  end.

(** When the wait for the terminal markers was made, every required wait
    had found its element and every validation wait had timed out. *)
Definition phases_in_order (sv : service) (l : list event) : bool :=
  if existsb (waited [result_wait sv]) l
  then forallb (fun c => existsb (succeeded [c]) l) (required_waits sv)
       && forallb (fun c => existsb (timed_out [c]) l) (time_boxed_waits sv)
  else true.

(** ** Python source literals *)

Module Utf8.

(** The code points of a UTF-8 byte sequence (the literals of the sources
    are UTF-8); a sequence cut short is dropped. *)
Fixpoint decode (bytes : list N) : Py.str :=
  match bytes with
  | [] => []
  | b :: rest =>
      if (b <? 128)%N then b :: decode rest
      else if (b <? 224)%N then
        match rest with
        | b2 :: rest' => ((b - 192) * 64 + (b2 - 128))%N :: decode rest'
        | _ => []
        end
      else if (b <? 240)%N then
        match rest with
        | b2 :: b3 :: rest' =>
            ((b - 224) * 4096 + (b2 - 128) * 64 + (b3 - 128))%N
            :: decode rest'
        | _ => []
        end
      else
        match rest with
        | b2 :: b3 :: b4 :: rest' =>
            ((b - 240) * 262144 + (b2 - 128) * 4096 + (b3 - 128) * 64
             + (b4 - 128))%N :: decode rest'
        | _ => []
        end
  end.

Definition str (s : string) : Py.str :=
  decode (map N_of_ascii (list_ascii_of_string s)).

End Utf8.

(** ** exceptions.py: the text of each error *)

(** [__str__] of the six classes of exceptions.py.  The two Selenium
    classes have Selenium's own text, which nothing here prints; they are
    given the empty text. *)
Definition __str__ (e : exn) : Py.str :=
  match e with
  | UndefinedError => Utf8.str "Неопознанная ошибка."
  | ServiceUnavailableError =>
      Utf8.str "Сервис временно не доступен. Повторите запрос позднее."
  | FieldFormatError => Utf8.str "Ошибка формата полей."
  | InnNotFoundError => Utf8.str "Информация об ИНН не найдена."
  | DataVerificationError => Utf8.str "Данные не прошли однозначной проверки."
  | ServiceCaptchaError =>
      Utf8.str "Превышен лимит запросов. Повторите запрос позднее."
  | NoSuchElementException | TimeoutException => []
  end.

(** ** The process around a session

    A browser that can be quit and a standard output that can be printed
    to: the state of any driver, extended by the number of [quit] calls and
    the lines printed so far.  Every Selenium call acts on the browser
    part alone. *)

Record world (d : Driver) := {
  browser : drv_state d;
  quits : nat;
  stdout : list Py.str
}.
Arguments browser {d} w.
Arguments quits {d} w.
Arguments stdout {d} w.

Definition in_browser {d : Driver} {A} (f : drv_state d -> A * drv_state d)
    (w : world d) : A * world d :=
  let (a, p) := f (browser w) in
  (a, {| browser := p; quits := quits w; stdout := stdout w |}).

Definition on_browser {d : Driver} (f : drv_state d -> drv_state d)
    (w : world d) : world d :=
  {| browser := f (browser w); quits := quits w; stdout := stdout w |}.

Definition managed (d : Driver) : Driver := {|
  drv_state := world d;
  drv_get := fun url => on_browser (drv_get d url);
  drv_implicitly_wait := fun t => on_browser (drv_implicitly_wait d t);
  drv_find_element := fun l => in_browser (drv_find_element d l);
  drv_until := fun t c => in_browser (drv_until d t c);
  drv_is_displayed := fun e => in_browser (drv_is_displayed d e);
  drv_text := fun e => in_browser (drv_text d e);
  drv_click := fun e => on_browser (drv_click d e);
  drv_send_keys := fun e s => on_browser (drv_send_keys d e s);
  drv_execute_script := fun script args =>
    on_browser (drv_execute_script d script args);
  drv_sleep := on_browser (drv_sleep d);
  drv_today := fun fmt w => drv_today d fmt (browser w)
|}.

Section Process.
Context (d : Driver).

(** A step of the process that is no Selenium call. *)
Definition in_process (f : world d -> world d) : M (managed d) unit :=
  fun s => (Return tt, Build_session (managed d) (f (page s)) (log s)).

(** [self.driver.quit()] *)
Definition driver_quit : M (managed d) unit :=
  in_process (fun w => {| browser := browser w;
                          quits := S (quits w);
                          stdout := stdout w |}).

(** [print(line)] *)
Definition print (line : Py.str) : M (managed d) unit :=
  in_process (fun w => {| browser := browser w;
                          quits := quits w;
                          stdout := (stdout w ++ [line])%list |}).

End Process.

(** ** base.py, continued: the context manager *)

Module ContextManager.
Section Methods.
Context (d : Driver).

(** [close]: [self.driver] is a driver object, which is always true in
    the [if]. *)
Definition close (self : BaseParser.t) : M (managed d) unit :=
  driver_quit d.

Definition __enter__ (self : BaseParser.t) : BaseParser.t := self.

(** [__exit__] closes and returns [None]: an exception that left the
    block goes on. *)
Definition __exit__ (self : BaseParser.t) : M (managed d) unit :=
  close self.

(** [with obj as x: body x] *)
Definition with_ {A} (obj : BaseParser.t)
    (body : BaseParser.t -> M (managed d) A) : M (managed d) A :=
  try_finally (body (__enter__ obj)) (__exit__ obj).

End Methods.
End ContextManager.

(** ** The [main] functions of the four parser files *)

Module parser_arbitr.

Definition main (d : Driver) : M (managed d) unit :=
  parser <- ArbitrParser.__init__ (managed d) (Py.Int 30) ;;
  ContextManager.with_ d parser (fun arbitr_parser =>
    try_except
      (data <- ArbitrParser.parse (managed d) arbitr_parser
                 (Py.of_ascii "1234567890") ;;
       print d (if data then Utf8.str "Данные найдены"
                else Utf8.str "Данные не найдены"))
      (fun ex =>
         match ex with
         | ServiceUnavailableError | UndefinedError => print d (__str__ ex)
         | _ => raise ex
         end)).

End parser_arbitr.

Module parser_inn.

Definition main (d : Driver) : M (managed d) unit :=
  parser <- InnParser.__init__ (managed d) (Py.Int 30) ;;
  ContextManager.with_ d parser (fun inn_parser =>
    try_except
      (data <- InnParser.parse (managed d) inn_parser
                 (Utf8.str "Иванов") (Utf8.str "Иван") (Utf8.str "Иванович")
                 (Py.of_ascii "01.01.1900") (Py.of_ascii "12 34 567890") ;;
       print d data)
      (fun ex =>
         match ex with
         | InnNotFoundError | DataVerificationError | FieldFormatError
         | ServiceUnavailableError | UndefinedError => print d (__str__ ex)
         | _ => raise ex
         end)).

End parser_inn.

Module parser_rom.

Definition main (d : Driver) : M (managed d) unit :=
  parser <- RomParser.__init__ (managed d) (Py.Int 30) ;;
  ContextManager.with_ d parser (fun rom_parser =>
    try_except
      (data <- RomParser.parse (managed d) rom_parser
                 (Py.of_ascii "1234567890") ;;
       print d (if data then Utf8.str "Данные найдены"
                else Utf8.str "Данные не найдены"))
      (fun ex =>
         match ex with
         | FieldFormatError | ServiceUnavailableError | UndefinedError =>
             print d (__str__ ex)
         | _ => raise ex
         end)).

End parser_rom.

Module parser_npd.

Definition main (d : Driver) (u : Unicode) : M (managed d) unit :=
  parser <- NpdParser.__init__ (managed d) (Py.Int 30) ;;
  ContextManager.with_ d parser (fun npd_parser =>
    try_except
      (is_self_employed <- NpdParser.parse (managed d) u npd_parser
                             (Py.of_ascii "123123123123") ;;
       print d (if is_self_employed then Utf8.str "Является самозанятым"
                else Utf8.str "Не является самозанятым"))
      (fun ex =>
         match ex with
         | FieldFormatError | ServiceUnavailableError | UndefinedError =>
             print d (__str__ ex)
         | _ => raise ex
         end)).

End parser_npd.

(** [main] of the file of [sv]. *)
Definition main_of (sv : service) (d : Driver) (u : Unicode)
  : M (managed d) unit :=
  match sv with
  | Arbitr => parser_arbitr.main d
  | Inn => parser_inn.main d
  | Rom => parser_rom.main d
  | Npd => parser_npd.main d u
  end.

(** [steady m]: [m] neither quits the browser nor prints. *)
Definition steady {d A} (m : M (managed d) A) : Prop :=
  forall s : session (managed d),
    quits (d := d) (page (snd (m s))) = quits (d := d) (page s)
    /\ stdout (d := d) (page (snd (m s))) = stdout (d := d) (page s).


(** The constructor of the parser of [sv]. *)
Definition new_parser (sv : service) (d : Driver) (timeout : Py.num)
  : M d BaseParser.t :=
  match sv with
  | Arbitr => ArbitrParser.__init__ d timeout
  | Inn => InnParser.__init__ d timeout
  | Rom => RomParser.__init__ d timeout
  | Npd => NpdParser.__init__ d timeout
  end.

(** The arguments [main] passes to [parse]. *)
Definition main_request (sv : service) : request :=
  match sv with
  | Inn => {| inn := [];
              surname := Utf8.str "Иванов";
              name := Utf8.str "Иван";
              lastname := Utf8.str "Иванович";
              birthdate := Py.of_ascii "01.01.1900";
              passport := Py.of_ascii "12 34 567890" |}
  | Arbitr | Rom => {| inn := Py.of_ascii "1234567890";
                       surname := []; name := []; lastname := [];
                       birthdate := []; passport := [] |}
  | Npd => {| inn := Py.of_ascii "123123123123";
              surname := []; name := []; lastname := [];
              birthdate := []; passport := [] |}
  end.

(** The line [main] prints for what [parse] returned. *)
Definition shown (sv : service) (r : result) : Py.str :=
  match sv, r with
  | Inn, Value v => v
  | (Arbitr | Rom), Found true => Utf8.str "Данные найдены"
  | (Arbitr | Rom), Found false => Utf8.str "Данные не найдены"
  | Npd, Found true => Utf8.str "Является самозанятым"
  | Npd, Found false => Utf8.str "Не является самозанятым"
  | _, _ => []
  end.

(** The classes named in the [except] clause of [main]. *)
Definition caught (sv : service) : list exn :=
  match sv with
  | Arbitr => [ServiceUnavailableError; UndefinedError]
  | Inn => [InnNotFoundError; DataVerificationError; FieldFormatError;
            ServiceUnavailableError; UndefinedError]
  | Rom | Npd => [FieldFormatError; ServiceUnavailableError; UndefinedError]
  end.

(** A process that has not yet quit or printed, on the page [p]. *)
Definition fresh_process (d : Driver) (p : drv_state d)
  : session (managed d) :=
  start (managed d) {| browser := p; quits := 0; stdout := [] |}.

(** * Properties *)

(** ** The monad: how outcomes travel through a sequence *)

Section MonadFacts.
Context {d : Driver}.

Lemma bind_return {A B} (m : M d A) (k : A -> M d B) s a s1 :
  m s = (Return a, s1) -> bind m k s = k a s1.
Proof. intros H. unfold bind. rewrite H. reflexivity. Qed.

Lemma bind_raise {A B} (m : M d A) (k : A -> M d B) s e s1 :
  m s = (Raise e, s1) -> bind m k s = (Raise e, s1).
Proof. intros H. unfold bind. rewrite H. reflexivity. Qed.

Lemma try_except_return {A} (body : M d A) h s a s1 :
  body s = (Return a, s1) -> try_except body h s = (Return a, s1).
Proof. intros H. unfold try_except. rewrite H. reflexivity. Qed.

Lemma try_except_raise {A} (body : M d A) h s e s1 :
  body s = (Raise e, s1) -> try_except body h s = h e s1.
Proof. intros H. unfold try_except. rewrite H. reflexivity. Qed.

End MonadFacts.

(** ** base.py: the timeout a wait uses *)

Lemma wait_default_timeout d self by_ value :
  BaseParser.wait_for_element_visibility d self by_ value None
    = WebDriverWait_until d (BaseParser.timeout self)
        (visibility_of_element_located (by_, value))
  /\ BaseParser.wait_for_element_clickable d self by_ value None
    = WebDriverWait_until d (BaseParser.timeout self)
        (element_to_be_clickable (by_, value)).
Proof. split; reflexivity. Qed.

Lemma wait_explicit_timeout d self by_ value t :
  Py.truthy t = true ->
  BaseParser.wait_for_element_visibility d self by_ value (Some t)
    = WebDriverWait_until d t (visibility_of_element_located (by_, value))
  /\ BaseParser.wait_for_element_clickable d self by_ value (Some t)
    = WebDriverWait_until d t (element_to_be_clickable (by_, value)).
Proof.
  intros Ht.
  unfold BaseParser.wait_for_element_visibility,
    BaseParser.wait_for_element_clickable, Py.or_.
  rewrite Ht. split; reflexivity.
Qed.

(** C8: a wait that is passed the explicit timeout 0 does not use 0: it is
    made with the session-wide timeout, exactly as if no timeout had been
    passed; the same holds for the float 0.0.  On a session whose timeout
    is 30 the one call in the log is a wait of 30, for the visibility wait
    and for the clickability wait. *)
Theorem wait_timeout_zero_uses_session_timeout :
  forall d self by_ value p,
    BaseParser.wait_for_element_visibility d self by_ value (Some (Py.Int 0))
      = BaseParser.wait_for_element_visibility d self by_ value None
    /\ BaseParser.wait_for_element_clickable d self by_ value (Some (Py.Int 0))
      = BaseParser.wait_for_element_clickable d self by_ value None
    /\ BaseParser.wait_for_element_visibility d self by_ value
         (Some (Py.Float 0%float))
      = BaseParser.wait_for_element_visibility d self by_ value None
    /\ (exists r,
          log (snd (run (BaseParser.wait_for_element_visibility d session30
                           by_ value (Some (Py.Int 0))) p))
            = [Euntil (Py.Int 30) (visibility_of_element_located (by_, value)) r])
    /\ (exists r,
          log (snd (run (BaseParser.wait_for_element_clickable d session30
                           by_ value (Some (Py.Int 0))) p))
            = [Euntil (Py.Int 30) (element_to_be_clickable (by_, value)) r]).
Proof.
  intros d self by_ value p.
  split; [reflexivity | split; [reflexivity | split; [reflexivity | ] ] ].
  unfold run, start, BaseParser.wait_for_element_visibility,
    BaseParser.wait_for_element_clickable, WebDriverWait_until, call_or_raise.
  cbn [Py.or_ Py.truthy Z.eqb negb page log session30 BaseParser.timeout].
  split.
  - destruct (drv_until d (Py.Int 30)
                (visibility_of_element_located (by_, value)) p) as [[e|] p'];
      eexists; reflexivity.
  - destruct (drv_until d (Py.Int 30)
                (element_to_be_clickable (by_, value)) p) as [[e|] p'];
      eexists; reflexivity.
Qed.

(** ** The result-classification helper [_is_element_displayed] *)

(** The three parsers carry the same helper body. *)
Lemma displayed_body_spec d :
  displayed_helper_spec d
    (fun by_ value =>
       suppress NoSuchElementException
         (element <- find_element d by_ value ;; is_displayed d element)
         (ret false)).
Proof.
  intros by_ value s.
  unfold exists_and_displayed, absent, present_not_displayed,
    suppress, try_except, bind, find_element, is_displayed,
    call_or_raise, call, raise, ret.
  cbn [page log].
  destruct (drv_find_element d (by_, value) (page s)) as [[e|] p1] eqn:Hfind;
    cbn [exn_eqb fst snd page log].
  - destruct (drv_is_displayed d e p1) as [b p2] eqn:Hdisp; cbn [fst snd].
    split; [exists b; reflexivity | ].
    split; [split | split].
    + intros H; inversion H; subst.
      exists e, p1. rewrite Hdisp. split; reflexivity.
    + intros (e0 & p0 & Heq & Hd). inversion Heq; subst.
      rewrite Hdisp in Hd. cbn in Hd. subst. reflexivity.
    + discriminate.
    + intros (e0 & p0 & Heq & Hd). inversion Heq; subst.
      rewrite Hdisp in Hd. cbn in Hd. subst. reflexivity.
  - split; [exists false; reflexivity | ].
    split; [split | split].
    + discriminate.
    + intros (e0 & p0 & Heq & _). discriminate.
    + reflexivity.
    + reflexivity.
Qed.

(** C9: in each parser that has it, [_is_element_displayed] never raises,
    returns [True] exactly when the element exists and is displayed, and
    returns [False] both when the element is absent and when it is present
    but not displayed. *)
Theorem is_element_displayed_absent_like_invisible :
  forall d,
    displayed_helper_spec d (ArbitrParser._is_element_displayed d)
    /\ displayed_helper_spec d (InnParser._is_element_displayed d)
    /\ displayed_helper_spec d (RomParser._is_element_displayed d).
Proof.
  intros d.
  split; [ | split]; exact (displayed_body_spec d).
Qed.

(** ** Which computations log which waits *)

Section LogLogic.
Context {d : Driver} (bad : event -> bool).

Lemma existsb_snoc (l : list event) ev :
  existsb bad (l ++ [ev]) = existsb bad l || bad ev.
Proof. rewrite existsb_app. cbn. rewrite orb_false_r. reflexivity. Qed.

Lemma quiet_ret {A} (a : A) : quiet (d := d) bad (ret a).
Proof. intros s H. exact H. Qed.

Lemma quiet_raise {A} e : quiet (d := d) (A := A) bad (raise e).
Proof. intros s H. exact H. Qed.

Lemma quiet_lift {A} (r : outcome A) : quiet (d := d) bad (lift r).
Proof. intros s H. exact H. Qed.

Lemma quiet_date fmt : quiet bad (date_today_strftime d fmt).
Proof. intros s H. exact H. Qed.

Lemma quiet_bind {A B} (m : M d A) (k : A -> M d B) :
  quiet bad m -> (forall a, quiet bad (k a)) -> quiet bad (bind m k).
Proof.
  intros Hm Hk s H. specialize (Hm s H). unfold bind.
  destruct (m s) as [[a|e] s1]; cbn in *.
  - apply Hk, Hm.
  - exact Hm.
Qed.

Lemma quiet_try_except {A} (body : M d A) h :
  quiet bad body -> (forall e, quiet bad (h e)) ->
  quiet bad (try_except body h).
Proof.
  intros Hb Hh s H. specialize (Hb s H). unfold try_except.
  destruct (body s) as [[a|e] s1]; cbn in *.
  - exact Hb.
  - apply Hh, Hb.
Qed.

Lemma quiet_suppress {A} E (body after : M d A) :
  quiet bad body -> quiet bad after -> quiet bad (suppress E body after).
Proof.
  intros Hb Ha. apply quiet_try_except; [exact Hb | ].
  intros e. destruct (exn_eqb e E); [exact Ha | apply quiet_raise].
Qed.

Lemma quiet_try_finally {A} (body : M d A) fin :
  quiet bad body -> quiet bad fin -> quiet bad (try_finally body fin).
Proof.
  intros Hb Hf s H. specialize (Hb s H). unfold try_finally.
  destruct (body s) as [r s1]; cbn in *.
  specialize (Hf s1 Hb).
  destruct (fin s1) as [[a|e] s2]; cbn in *; exact Hf.
Qed.

Lemma quiet_call {A} (f : drv_state d -> A * drv_state d) ev :
  (forall a, bad (ev a) = false) -> quiet bad (call f ev).
Proof.
  intros Hev s H. unfold call.
  destruct (f (page s)) as [a p]; cbn.
  rewrite existsb_snoc, H, Hev. reflexivity.
Qed.

Lemma quiet_call_or_raise {A} (f : drv_state d -> option A * drv_state d)
    ev e :
  (forall r, bad (ev r) = false) -> quiet bad (call_or_raise f ev e).
Proof.
  intros Hev s H. unfold call_or_raise.
  destruct (f (page s)) as [[a|] p]; cbn;
    rewrite existsb_snoc, H, Hev; reflexivity.
Qed.

Lemma strict_quiet {A} (m : M d A) : quiet bad m -> strict bad m.
Proof. intros Hm s H. left. apply Hm, H. Qed.

Lemma strict_bind {A B} (m : M d A) (k : A -> M d B) :
  strict bad m -> (forall a, strict bad (k a)) -> strict bad (bind m k).
Proof.
  intros Hm Hk s H. specialize (Hm s H). unfold bind.
  destruct (m s) as [[a|e] s1]; cbn in *.
  - destruct Hm as [Hm | Hm]; [apply Hk, Hm | discriminate].
  - destruct Hm as [Hm | Hm]; [left; exact Hm | right; congruence].
Qed.

(** A wait that times out leaves with [TimeoutException]; one that
    succeeds logs an event that is none of the timeouts. *)
Lemma strict_until t c :
  (forall e, bad (Euntil t c (Some e)) = false) ->
  strict bad (WebDriverWait_until d t c).
Proof.
  intros Hev s H. unfold WebDriverWait_until, call_or_raise.
  destruct (drv_until d t c (page s)) as [[e|] p]; cbn.
  - left. rewrite existsb_snoc, H, Hev. reflexivity.
  - right. reflexivity.
Qed.

(** [parse] is its [try] block under the [except] clauses: when the
    block is strict, a bad event in the log of a run means that the run
    ended in [ServiceUnavailableError]. *)
Lemma strict_try_block {A} (body : M d A) p :
  strict bad body ->
  existsb bad (log (snd (run (try_except body except_clauses) p))) = true ->
  fst (run (try_except body except_clauses) p)
    = Raise ServiceUnavailableError.
Proof.
  intros Hb. unfold run, start, try_except.
  specialize (Hb {| page := p; log := [] |} eq_refl).
  destruct (body {| page := p; log := [] |}) as [[a|e] s1]; cbn in *.
  - destruct Hb as [Hb | Hb]; [congruence | discriminate].
  - destruct Hb as [Hb | Hb].
    + destruct e; cbn; congruence.
    + inversion Hb; subst. reflexivity.
Qed.

Lemma quiet_try_block {A} (body : M d A) p :
  quiet bad body ->
  existsb bad (log (snd (run (try_except body except_clauses) p))) = false.
Proof.
  intros Hb. unfold run.
  apply (@quiet_try_except A body except_clauses); auto.
  intros e; destruct e; apply quiet_raise.
Qed.

End LogLogic.

Lemma existsb_of_In (f : event -> bool) ev l :
  In ev l -> f ev = true -> existsb f l = true.
Proof. intros Hin Hf. apply existsb_exists. exists ev. split; assumption. Qed.

(** [parse_service] only wraps the value [parse] returns. *)
Lemma parse_service_log sv d u self rq p :
  log (snd (run (parse_service sv d u self rq) p))
  = match sv with
    | Arbitr => log (snd (run (ArbitrParser.parse d self (inn rq)) p))
    | Inn => log (snd (run (InnParser.parse d self (surname rq) (name rq)
                              (lastname rq) (birthdate rq) (passport rq)) p))
    | Rom => log (snd (run (RomParser.parse d self (inn rq)) p))
    | Npd => log (snd (run (NpdParser.parse d u self (inn rq)) p))
    end.
Proof.
  destruct sv; unfold run, parse_service, bind;
    match goal with
    | |- context [match ?m ?s with _ => _ end] => destruct (m s) as [[a|e] s1]
    end; reflexivity.
Qed.

Lemma parse_service_raise sv d u self rq p e :
  match sv with
  | Arbitr => fst (run (ArbitrParser.parse d self (inn rq)) p) = Raise e
  | Inn => fst (run (InnParser.parse d self (surname rq) (name rq)
                       (lastname rq) (birthdate rq) (passport rq)) p) = Raise e
  | Rom => fst (run (RomParser.parse d self (inn rq)) p) = Raise e
  | Npd => fst (run (NpdParser.parse d u self (inn rq)) p) = Raise e
  end ->
  fst (run (parse_service sv d u self rq) p) = Raise e.
Proof.
  destruct sv; unfold run, parse_service, bind;
    match goal with
    | |- context [match ?m ?s with _ => _ end] => destruct (m s) as [[a|e'] s1]
    end; cbn; congruence.
Qed.

Ltac unfold_steps :=
  unfold
    ArbitrParser._close_notification, ArbitrParser._input_inn,
    ArbitrParser._submit_search, ArbitrParser._check_result,
    ArbitrParser._wait_for_result_display, ArbitrParser._is_element_displayed,
    InnParser._bypass_personal_data_block, InnParser._fill_personal_info,
    InnParser._fill_field, InnParser._submit_form, InnParser._validate_input,
    InnParser._check_for_errors, InnParser._check_for_captcha,
    InnParser._parse_result, InnParser._wait_for_result_display,
    InnParser._is_element_displayed, InnParser._find_and_click,
    RomParser._input_inn, RomParser._submit_search,
    RomParser._check_entry_validation, RomParser._check_result,
    RomParser._wait_for_result_display, RomParser._is_element_displayed,
    NpdParser._fill_inn_field, NpdParser._fill_date_field,
    NpdParser._submit_form, NpdParser._check_entry_validation,
    NpdParser._get_result_text,
    BaseParser.wait_for_element_visibility,
    BaseParser.wait_for_element_clickable,
    find_element, is_displayed, text, click, send_keys, execute_script,
    time_sleep, implicitly_wait, driver_get;
  cbv zeta.

Ltac quiet_step :=
  match goal with
  | |- quiet _ (ret _) => apply quiet_ret
  | |- quiet _ (raise _) => apply quiet_raise
  | |- quiet _ (lift _) => apply quiet_lift
  | |- quiet _ (date_today_strftime _ _) => apply quiet_date
  | |- quiet _ (bind _ _) => apply quiet_bind; [ | intro ]
  | |- quiet _ (suppress _ _ _) => apply quiet_suppress
  | |- quiet _ (try_finally _ _) => apply quiet_try_finally
  | |- quiet _ (call _ _) => apply quiet_call; intro; reflexivity
  | |- quiet _ (call_or_raise _ _ _) =>
      apply quiet_call_or_raise; intro; reflexivity
  | |- quiet _ (WebDriverWait_until _ _ _) => unfold WebDriverWait_until
  | |- quiet _ (if ?c then _ else _) => destruct c
  end.

Ltac quiet_tac := repeat quiet_step.

Ltac strict_tac :=
  first [ solve [apply strict_quiet; quiet_tac]
        | apply strict_until; intro; reflexivity
        | apply strict_bind; [ strict_tac | intro; strict_tac ] ].

Lemma In_condition_eqb c cs :
  In c cs -> (forall c', In c' cs -> condition_eqb c' c' = true) ->
  existsb (condition_eqb c) cs = true.
Proof.
  intros Hin Hrefl. apply existsb_exists. exists c. auto.
Qed.

(** The [try] block of each [parse] is strict for the timeouts of any of
    its waits outside the [suppress] blocks: such a timeout ends the run
    in [ServiceUnavailableError]. *)
Lemma timeout_outside_suppress sv cs d u self rq p :
  cs = required_waits sv \/ cs = [result_wait sv] ->
  existsb (timed_out cs) (log (snd (run (parse_service sv d u self rq) p)))
    = true ->
  fst (run (parse_service sv d u self rq) p) = Raise ServiceUnavailableError.
Proof.
  intros Hcs Hlog. apply parse_service_raise.
  rewrite parse_service_log in Hlog.
  destruct sv, Hcs as [-> | ->];
    (eapply strict_try_block; [ | exact Hlog ]);
    unfold_steps; strict_tac.
Qed.

(** C1, as the code has it: in every parser, when the wait of a required
    Step times out, the run ends in [ServiceUnavailableError]. *)
Theorem required_step_timeout_raises_service_unavailable :
  forall sv d u self rq p t c,
    In c (required_waits sv) ->
    In (Euntil t c None) (log (snd (run (parse_service sv d u self rq) p))) ->
    fst (run (parse_service sv d u self rq) p) = Raise ServiceUnavailableError.
Proof.
  intros sv d u self rq p t c Hc Hlog.
  apply timeout_outside_suppress with (cs := required_waits sv);
    [left; reflexivity | ].
  apply existsb_of_In with (ev := Euntil t c None); [exact Hlog | ].
  cbn [timed_out]. rewrite andb_true_r.
  apply In_condition_eqb; [exact Hc | ].
  intros c' Hc'. destruct sv; cbn [required_waits In] in Hc';
    repeat (destruct Hc' as [<- | Hc']; [reflexivity | ]); contradiction.
Qed.

(** Read off the log: a run whose log holds the timed-out wait for the
    terminal markers ended in [ServiceUnavailableError]. *)
Lemma result_wait_timeout_in_log :
  forall sv d u self rq p,
    In (Euntil (BaseParser.timeout self) (result_wait sv) None)
       (log (snd (run (parse_service sv d u self rq) p))) ->
    fst (run (parse_service sv d u self rq) p) = Raise ServiceUnavailableError.
Proof.
  intros sv d u self rq p Hlog.
  apply timeout_outside_suppress with (cs := [result_wait sv]);
    [right; reflexivity | ].
  apply existsb_of_In with (1 := Hlog).
  cbn [timed_out existsb]. rewrite andb_true_r, orb_false_r.
  destruct sv; reflexivity.
Qed.

(** ** The validation phase *)

Section Decisive.
Context {d : Driver} (hit never : event -> bool) (x : exn).

(** A Step before the decisive one logs neither kind of event. *)
Lemma decisive_after {A B} (m : M d A) (k : A -> M d B) :
  quiet hit m -> quiet never m -> (forall a, decisive hit never x (k a)) ->
  decisive hit never x (bind m k).
Proof.
  intros Hh Hn Hk s H1 H2. specialize (Hh s H1). specialize (Hn s H2).
  unfold bind. destruct (m s) as [[a|e] s1]; cbn in *.
  - apply Hk; assumption.
  - left. exact Hh.
Qed.

(** What follows the decisive Step logs no [hit] event. *)
Lemma decisive_before {A B} (m : M d A) (k : A -> M d B) :
  decisive hit never x m -> (forall a, quiet hit (k a)) ->
  decisive hit never x (bind m k).
Proof.
  intros Hm Hk s H1 H2. specialize (Hm s H1 H2).
  unfold bind. destruct (m s) as [[a|e] s1]; cbn in *.
  - destruct Hm as [Hm | [Hm _]]; [ | discriminate].
    left. apply Hk, Hm.
  - destruct Hm as [Hm | [Hm Hn]]; [left; exact Hm | right].
    split; [congruence | exact Hn].
Qed.

Lemma decisive_try_finally {A} (body : M d A) fin :
  decisive hit never x body -> quiet hit fin -> quiet never fin ->
  (forall s, exists s', fin s = (Return tt, s')) ->
  decisive hit never x (try_finally body fin).
Proof.
  intros Hb Hh Hn Hret s H1 H2. specialize (Hb s H1 H2).
  unfold try_finally. destruct (body s) as [r s1]; cbn in *.
  specialize (Hh s1). specialize (Hn s1).
  destruct (Hret s1) as [s2 Hfin]. rewrite Hfin in *. cbn in *.
  destruct Hb as [Hb | [Hb Hb']]; [left | right]; auto.
Qed.

(** The decisive Step: a wait under [suppress(TimeoutException)] whose
    success raises [x]. *)
Lemma decisive_wait t c (k : WebElement -> M d unit) :
  (forall a s, k a s = (Raise x, s)) ->
  exn_eqb x TimeoutException = false ->
  hit (Euntil t c None) = false ->
  (forall r, never (Euntil t c r) = false) ->
  decisive hit never x
    (suppress TimeoutException (bind (WebDriverWait_until d t c) k) (ret tt)).
Proof.
  intros Hk Hx Hhit Hnever s H1 H2.
  unfold suppress, try_except, bind, WebDriverWait_until, call_or_raise.
  destruct (drv_until d t c (page s)) as [[a|] p1]; cbn.
  - rewrite Hk. cbn. rewrite Hx. cbn. right. split; [reflexivity | ].
    rewrite existsb_snoc, H2, Hnever. reflexivity.
  - left. rewrite existsb_snoc, H1, Hhit. reflexivity.
Qed.

(** From the [try] block to [parse]. *)
Lemma decisive_try_block {A} (body : M d A) p :
  domain_error x = true ->
  decisive hit never x body ->
  existsb hit (log (snd (run (try_except body except_clauses) p))) = true ->
  fst (run (try_except body except_clauses) p) = Raise x
  /\ existsb never (log (snd (run (try_except body except_clauses) p)))
     = false.
Proof.
  intros Hx Hb. unfold run, start, try_except.
  specialize (Hb {| page := p; log := [] |} eq_refl eq_refl).
  destruct (body {| page := p; log := [] |}) as [[a|e] s1]; cbn in *.
  - destruct Hb as [Hb | [Hb _]]; [congruence | discriminate].
  - destruct Hb as [Hb | [Hb Hn]].
    + destruct e; cbn; congruence.
    + inversion Hb; subst. destruct x; try discriminate; cbn; auto.
Qed.

End Decisive.

Ltac decisive_tac :=
  first
    [ apply decisive_wait;
        [ intros; reflexivity | reflexivity | reflexivity
        | intro; reflexivity ]
    | apply decisive_try_finally;
        [ decisive_tac | solve [quiet_tac] | solve [quiet_tac]
        | intros; eexists; unfold call; cbn; reflexivity ]
    | apply decisive_after;
        [ solve [quiet_tac] | solve [quiet_tac] | intro; decisive_tac ]
    | apply decisive_before; [ decisive_tac | intro; solve [quiet_tac] ] ].

Lemma validation_decides sv d u self rq p :
  existsb (succeeded (validation_wait sv))
          (log (snd (run (parse_service sv d u self rq) p))) = true ->
  fst (run (parse_service sv d u self rq) p) = Raise FieldFormatError
  /\ existsb (waited [result_wait sv])
             (log (snd (run (parse_service sv d u self rq) p))) = false.
Proof.
  intros Hlog. rewrite parse_service_log in *.
  assert (forall (P : Prop) e,
            (fst (run (parse_service sv d u self rq) p) = Raise e -> P) ->
            match sv with
            | Arbitr => fst (run (ArbitrParser.parse d self (inn rq)) p) = Raise e
            | Inn => fst (run (InnParser.parse d self (surname rq) (name rq)
                         (lastname rq) (birthdate rq) (passport rq)) p) = Raise e
            | Rom => fst (run (RomParser.parse d self (inn rq)) p) = Raise e
            | Npd => fst (run (NpdParser.parse d u self (inn rq)) p) = Raise e
            end -> P) as Hwrap
    by (intros P e HP He; apply HP, parse_service_raise, He).
  destruct sv.
  1: { exfalso.
       assert (existsb (succeeded [])
                 (log (snd (run (ArbitrParser.parse d self (inn rq)) p)))
               = false) as Hq
         by (apply quiet_try_block; unfold_steps; quiet_tac).
       cbn [validation_wait] in Hlog. congruence. }
  all: match goal with
       | H : existsb (succeeded (validation_wait ?sv)) (log (snd ?r)) = true
         |- _ =>
           assert (fst r = Raise FieldFormatError
                   /\ existsb (waited [result_wait sv]) (log (snd r)) = false)
             as [Hr Hn]
             by (apply (decisive_try_block (succeeded (validation_wait sv)));
                 [ reflexivity | unfold_steps; decisive_tac | exact H ])
       end;
    (split; [ | exact Hn]); (eapply Hwrap; [intro H; exact H | exact Hr]).
Qed.

(** ** Classification of the result *)

Ltac run_steps :=
  repeat match goal with
    | H : ?m ?s = (_, _) |- context [?m ?s] => rewrite H; cbn [fst snd]
    end.

(** C6: in [ArbitrParser], once the Steps and the result wait have
    completed, [parse] returns [False] when the no-results marker is
    displayed, [True] when it is not and the results marker is, and raises
    [UndefinedError] when neither is displayed. *)
Theorem arbitr_parse_classifies_markers :
  forall d self inn s s1 s2 s3 s4,
    ArbitrParser._close_notification d self s = (Return tt, s1) ->
    ArbitrParser._input_inn d self inn s1 = (Return tt, s2) ->
    ArbitrParser._submit_search d self s2 = (Return tt, s3) ->
    ArbitrParser._wait_for_result_display d self s3 = (Return tt, s4) ->
    (forall s5,
       ArbitrParser._is_element_displayed d CLASS_NAME "b-noResults" s4
         = (Return true, s5) ->
       ArbitrParser.parse d self inn s = (Return false, s5))
    /\ (forall s5 s6,
          ArbitrParser._is_element_displayed d CLASS_NAME "b-noResults" s4
            = (Return false, s5) ->
          ArbitrParser._is_element_displayed d CLASS_NAME "b-results" s5
            = (Return true, s6) ->
          ArbitrParser.parse d self inn s = (Return true, s6))
    /\ (forall s5 s6,
          ArbitrParser._is_element_displayed d CLASS_NAME "b-noResults" s4
            = (Return false, s5) ->
          ArbitrParser._is_element_displayed d CLASS_NAME "b-results" s5
            = (Return false, s6) ->
          ArbitrParser.parse d self inn s = (Raise UndefinedError, s6)).
Proof.
  intros d self inn s s1 s2 s3 s4 H1 H2 H3 H4.
  unfold ArbitrParser.parse, ArbitrParser._check_result, try_except, bind.
  repeat split; intros; run_steps; reflexivity.
Qed.

(** C7: in [InnParser], once the Steps, the validation and the result
    wait have completed, when the not-found marker [result_0] is not
    displayed and the success marker [result_1] is, [parse] returns the
    text read from the element [resultInn], as it is. *)
Theorem inn_parse_returns_value_text :
  forall d self surname name lastname birthdate passport
         s s1 s2 s3 s4 s5 s6 s7 s8 s9 element value,
    InnParser._bypass_personal_data_block d s = (Return tt, s1) ->
    InnParser._fill_personal_info d self surname name lastname birthdate
      passport s1 = (Return tt, s2) ->
    InnParser._submit_form d s2 = (Return tt, s3) ->
    InnParser._validate_input d self s3 = (Return tt, s4) ->
    InnParser._wait_for_result_display d self s4 = (Return tt, s5) ->
    InnParser._is_element_displayed d ID "result_0" s5 = (Return false, s6) ->
    InnParser._is_element_displayed d ID "result_1" s6 = (Return true, s7) ->
    find_element d XPATH (xpath_id "resultInn" "") s7 = (Return element, s8) ->
    text d element s8 = (Return value, s9) ->
    InnParser.parse d self surname name lastname birthdate passport s
      = (Return value, s9).
Proof.
  intros d self surname name lastname birthdate passport
         s s1 s2 s3 s4 s5 s6 s7 s8 s9 element value
         H1 H2 H3 H4 H5 H6 H7 H8 H9.
  unfold InnParser.parse, InnParser._parse_result, try_except, bind.
  run_steps. reflexivity.
Qed.

(** On a page where the success marker [result_1] is displayed together
    with an error marker, [result_3] or [result_err], [_parse_result]
    returns the value and raises no error. *)
Lemma inn_success_marker_beats_error_markers :
  (StaticPage.holds Pages.inn_success_and_result_3
     (visibility_of_element_located (ID, "result_1")) = Some 11%N
   /\ StaticPage.holds Pages.inn_success_and_result_3
        (visibility_of_element_located (ID, "result_3")) = Some 13%N
   /\ fst (run (InnParser._parse_result (StaticPage.driver []) session30)
               Pages.inn_success_and_result_3)
      = Return digits12)
  /\ (StaticPage.holds Pages.inn_success_and_result_err
        (visibility_of_element_located (ID, "result_1")) = Some 11%N
      /\ StaticPage.holds Pages.inn_success_and_result_err
           (visibility_of_element_located (ID, "result_err")) = Some 14%N
      /\ fst (run (InnParser._parse_result (StaticPage.driver []) session30)
                  Pages.inn_success_and_result_err)
         = Return digits12).
Proof. repeat split; vm_compute; reflexivity. Qed.

(** C3, as the code has it: when several markers are displayed, the
    outcome is decided by the order in which the parser tests them.  In
    [InnParser._parse_result] that order is [result_0], [result_1],
    [result_3], [result_err]: the not-found marker comes before the
    success marker, and the success marker before the two other error
    markers, which are not even looked at once [result_1] is displayed.
    In [ArbitrParser] and [RomParser] the no-results marker comes before
    the results marker. *)
Theorem result_markers_precedence :
  forall d self s s0,
    (InnParser._wait_for_result_display d self s = (Return tt, s0) ->
     (forall s1,
        InnParser._is_element_displayed d ID "result_0" s0
          = (Return true, s1) ->
        InnParser._parse_result d self s = (Raise InnNotFoundError, s1))
     /\ (forall s1 s2,
           InnParser._is_element_displayed d ID "result_0" s0
             = (Return false, s1) ->
           InnParser._is_element_displayed d ID "result_1" s1
             = (Return true, s2) ->
           InnParser._parse_result d self s
           = (inn <- find_element d XPATH (xpath_id "resultInn" "") ;;
              text d inn) s2)
     /\ (forall s1 s2 s3,
           InnParser._is_element_displayed d ID "result_0" s0
             = (Return false, s1) ->
           InnParser._is_element_displayed d ID "result_1" s1
             = (Return false, s2) ->
           InnParser._is_element_displayed d ID "result_3" s2
             = (Return true, s3) ->
           InnParser._parse_result d self s
           = (Raise DataVerificationError, s3))
     /\ (forall s1 s2 s3 s4,
           InnParser._is_element_displayed d ID "result_0" s0
             = (Return false, s1) ->
           InnParser._is_element_displayed d ID "result_1" s1
             = (Return false, s2) ->
           InnParser._is_element_displayed d ID "result_3" s2
             = (Return false, s3) ->
           InnParser._is_element_displayed d ID "result_err" s3
             = (Return true, s4) ->
           InnParser._parse_result d self s
           = (Raise ServiceUnavailableError, s4)))
    /\ (ArbitrParser._wait_for_result_display d self s = (Return tt, s0) ->
        forall s1,
          ArbitrParser._is_element_displayed d CLASS_NAME "b-noResults" s0
            = (Return true, s1) ->
          ArbitrParser._check_result d self s = (Return false, s1))
    /\ (RomParser._wait_for_result_display d self s = (Return tt, s0) ->
        forall s1,
          RomParser._is_element_displayed d ID "pnlNoData" s0
            = (Return true, s1) ->
          RomParser._check_result d self s = (Return false, s1)).
Proof.
  intros d self s s0.
  unfold InnParser._parse_result, ArbitrParser._check_result,
    RomParser._check_result.
  repeat split; intros; unfold bind; run_steps; reflexivity.
Qed.

(** ** Propagation of errors through [parse] *)

Lemma try_except_bind_ret {d A B} (body : M d A) (f : A -> B) s :
  bind (try_except body except_clauses) (fun a => ret (f a)) s
  = try_except (bind body (fun a => ret (f a))) except_clauses s.
Proof.
  unfold bind, try_except.
  destruct (body s) as [[a|e] s1]; [reflexivity | destruct e; reflexivity].
Qed.

(** [parse] is its [try] block under the [except] clauses. *)
Lemma parse_service_try_block sv d u self rq s :
  parse_service sv d u self rq s
  = try_except (try_block sv d u self rq) except_clauses s.
Proof.
  destruct sv; apply try_except_bind_ret.
Qed.

(** The [except] clauses touch the two Selenium exceptions only. *)
Lemma except_clauses_domain_error d A e :
  domain_error e = true -> @except_clauses d A e = raise e.
Proof. destruct e; try discriminate; reflexivity. Qed.

(** Inside the sub-steps: a [suppress] block for a Selenium exception and
    a [finally] clause that completes both let a domain error through. *)
Lemma suppress_passes_domain_error {d A} E (body after : M d A) s e s1 :
  domain_error e = true -> domain_error E = false ->
  body s = (Raise e, s1) ->
  suppress E body after s = (Raise e, s1).
Proof.
  intros He HE Hbody. unfold suppress.
  rewrite (try_except_raise _ _ _ _ _ Hbody).
  destruct e, E; try discriminate; reflexivity.
Qed.

Lemma try_finally_passes_error {d A} (body : M d A) fin s e s1 s2 :
  body s = (Raise e, s1) -> fin s1 = (Return tt, s2) ->
  try_finally body fin s = (Raise e, s2).
Proof.
  intros Hbody Hfin. unfold try_finally. rewrite Hbody, Hfin. reflexivity.
Qed.

(** C10: in every parser, a domain error that leaves the [try] block of
    [parse] leaves [parse] as the same error, in the same state. *)
Theorem domain_errors_propagate_unchanged :
  forall sv d u self rq e s s',
    domain_error e = true ->
    try_block sv d u self rq s = (Raise e, s') ->
    parse_service sv d u self rq s = (Raise e, s').
Proof.
  intros sv d u self rq e s s' He Hblock.
  rewrite parse_service_try_block.
  rewrite (try_except_raise _ except_clauses _ _ _ Hblock).
  rewrite (except_clauses_domain_error d result e He). reflexivity.
Qed.

(** ** The text classifier of [NpdParser] *)

Section Regex.
Context (u : Unicode).

Lemma matches_literal s : forall text i k,
  Re.matches u (Re.literal s) text i k
  = if occurs s text i then k (i + List.length s) else None.
Proof.
  induction s as [|c s IH]; intros text i k; cbn [Re.literal Re.matches occurs].
  - cbn. rewrite Nat.add_0_r. reflexivity.
  - destruct (nth_error text i) as [c'|]; [ | reflexivity].
    destruct (c =? c')%N; cbn [andb]; [ | reflexivity].
    rewrite IH. cbn [List.length].
    rewrite Nat.add_succ_r. reflexivity.
Qed.

(** One alternative of the pattern: a phrase between two [\b]. *)
Lemma matches_whole_word s text i :
  Re.matches u
    (Re.Cat Re.WordBoundary (Re.Cat (Re.literal s) Re.WordBoundary))
    text i Some
  = if whole_word u s text i then Some (i + List.length s) else None.
Proof.
  cbn [Re.matches]. unfold whole_word.
  destruct (Re.at_boundary u text i); cbn [andb]; [ | reflexivity].
  rewrite matches_literal.
  destruct (occurs s text i); cbn [andb]; reflexivity.
Qed.

Lemma matches_pattern text i :
  Re.matches u NpdParser.pattern text i Some
  = if whole_word u NpdParser.ne_yavlyaetsya text i
    then Some (i + List.length NpdParser.ne_yavlyaetsya)
    else if whole_word u NpdParser.yavlyaetsya text i
         then Some (i + List.length NpdParser.yavlyaetsya)
         else None.
Proof.
  unfold NpdParser.pattern.
  change (Re.matches u (Re.Alt ?a ?b) text i Some)
    with (match Re.matches u a text i Some with
          | Some j => Some j
          | None => Re.matches u b text i Some
          end).
  rewrite !matches_whole_word.
  destruct (whole_word u NpdParser.ne_yavlyaetsya text i); reflexivity.
Qed.

Lemma search_from_none r text : forall n i,
  (forall j, i <= j <= i + n -> Re.matches u r text j Some = None) ->
  Re.search_from u r text i n = None.
Proof.
  induction n as [|n IH]; intros i Hnone; cbn [Re.search_from];
    rewrite (Hnone i) by lia; [reflexivity | ].
  apply IH. intros j Hj. apply Hnone. lia.
Qed.

Lemma search_from_first r text j e : forall n i,
  i <= j <= i + n ->
  (forall j', i <= j' < j -> Re.matches u r text j' Some = None) ->
  Re.matches u r text j Some = Some e ->
  Re.search_from u r text i n = Some {| Re.m_start := j; Re.m_end := e |}.
Proof.
  induction n as [|n IH]; intros i Hj Hnone Hmatch; cbn [Re.search_from].
  - assert (i = j) as -> by lia. rewrite Hmatch. reflexivity.
  - destruct (Nat.eq_dec i j) as [-> | Hne].
    + rewrite Hmatch. reflexivity.
    + rewrite (Hnone i) by lia. apply IH; [lia | | exact Hmatch].
      intros j' Hj'. apply Hnone. lia.
Qed.

Lemma occurs_in_range s text : forall i,
  s <> [] -> occurs s text i = true -> i < List.length text.
Proof.
  destruct s as [|c s]; [congruence | ]. intros i _. cbn [occurs].
  destruct (nth_error text i) eqn:Hn; [ | discriminate].
  intros _. apply nth_error_Some. congruence.
Qed.

Lemma skipn_nth_error (text : Py.str) : forall i c,
  nth_error text i = Some c -> skipn i text = c :: skipn (S i) text.
Proof.
  induction text as [|x text IH]; intros [|i] c H; try discriminate.
  - cbn in H. inversion H. reflexivity.
  - cbn [nth_error] in H. cbn [skipn]. rewrite (IH i c H).
    destruct text; reflexivity.
Qed.

Lemma occurs_firstn s : forall text i,
  occurs s text i = true -> firstn (List.length s) (skipn i text) = s.
Proof.
  induction s as [|c s IH]; intros text i; cbn [occurs List.length firstn];
    [reflexivity | ].
  destruct (nth_error text i) as [c'|] eqn:Hn; [ | discriminate].
  intros H. apply andb_prop in H. destruct H as [Hc Hs].
  apply N.eqb_eq in Hc. subst c'.
  rewrite (skipn_nth_error text i c Hn). cbn [firstn].
  rewrite (IH text (S i) Hs). reflexivity.
Qed.

Lemma group_of_occurrence s text i :
  occurs s text i = true ->
  Re.group text {| Re.m_start := i; Re.m_end := i + List.length s |} = s.
Proof.
  intros H. unfold Re.group. cbn [Re.m_start Re.m_end].
  replace (i + List.length s - i) with (List.length s) by lia.
  apply occurs_firstn, H.
Qed.

Lemma whole_word_occurs s text i :
  whole_word u s text i = true -> occurs s text i = true.
Proof.
  unfold whole_word. intros H.
  apply andb_prop in H. destruct H as [H _].
  apply andb_prop in H. destruct H as [_ H]. exact H.
Qed.

Lemma whole_word_out_of_range s text i :
  s <> [] -> List.length text <= i -> whole_word u s text i = false.
Proof.
  intros Hs Hi. unfold whole_word.
  destruct (occurs s text i) eqn:Hocc.
  - apply occurs_in_range in Hocc; [lia | exact Hs].
  - rewrite andb_false_r. reflexivity.
Qed.

Lemma no_phrase_no_match text i :
  no_phrase_before u text i ->
  forall j, 0 <= j < i -> Re.matches u NpdParser.pattern text j Some = None.
Proof.
  intros Hno j Hj. rewrite matches_pattern.
  destruct (Hno j) as [H1 H2]; [lia | ]. rewrite H1, H2. reflexivity.
Qed.

End Regex.

Lemma yavlyaetsya_not_ne text i :
  occurs NpdParser.yavlyaetsya text i = true ->
  occurs NpdParser.ne_yavlyaetsya text i = false.
Proof.
  cbn [occurs NpdParser.yavlyaetsya NpdParser.ne_yavlyaetsya NpdParser.ne app].
  destruct (nth_error text i) as [c|]; [ | reflexivity].
  destruct (1103 =? c)%N eqn:Hc; [ | discriminate].
  apply N.eqb_eq in Hc. subst c. reflexivity.
Qed.

(** The classifier on the four texts: without either phrase it raises
    [ServiceUnavailableError]; with "ne yavlyaetsya" after an earlier
    "yavlyaetsya", or glued to a letter before it, it returns [True]; with
    "yavlyaetsya" inside a longer word it raises. *)
Lemma analyze_result_on_unknown_and_mixed_text :
  (NpdParser._analyze_result small_unicode text_unknown
     = Raise ServiceUnavailableError
   /\ NpdParser._analyze_result small_unicode text_unknown
        <> Raise UndefinedError)
  /\ (occurs NpdParser.ne_yavlyaetsya text_both 10 = true
      /\ NpdParser._analyze_result small_unicode text_both = Return true
      /\ NpdParser._analyze_result small_unicode text_both <> Return false)
  /\ (occurs NpdParser.ne_yavlyaetsya text_glued 1 = true
      /\ NpdParser._analyze_result small_unicode text_glued = Return true)
  /\ (occurs NpdParser.yavlyaetsya text_longer_word 0 = true
      /\ NpdParser._analyze_result small_unicode text_longer_word
         = Raise ServiceUnavailableError).
Proof.
  repeat split; try (vm_compute; reflexivity);
    vm_compute; discriminate.
Qed.

(** C2, as the code has it: the classifier raises
    [ServiceUnavailableError] when neither phrase stands in the text as a
    whole word; otherwise the leftmost whole-word occurrence decides: the
    result is [False] when it is the phrase "ne yavlyaetsya" and [True]
    when it is the word "yavlyaetsya". *)
Theorem analyze_result_leftmost_whole_word :
  forall u text,
    ((forall i, whole_word u NpdParser.ne_yavlyaetsya text i = false
                /\ whole_word u NpdParser.yavlyaetsya text i = false) ->
     NpdParser._analyze_result u text = Raise ServiceUnavailableError)
    /\ (forall i,
          no_phrase_before u text i ->
          whole_word u NpdParser.ne_yavlyaetsya text i = true ->
          NpdParser._analyze_result u text = Return false)
    /\ (forall i,
          no_phrase_before u text i ->
          whole_word u NpdParser.yavlyaetsya text i = true ->
          NpdParser._analyze_result u text = Return true).
Proof.
  intros u text. unfold NpdParser._analyze_result, Re.search.
  split; [ | split].
  - intros Hnone. rewrite search_from_none; [reflexivity | ].
    intros j _. rewrite matches_pattern.
    destruct (Hnone j) as [H1 H2]. rewrite H1, H2. reflexivity.
  - intros i Hbefore Hword.
    pose proof (whole_word_occurs u _ _ _ Hword) as Hocc.
    assert (i < List.length text) as Hi
      by (apply (occurs_in_range NpdParser.ne_yavlyaetsya);
          [discriminate | exact Hocc]).
    rewrite (search_from_first u NpdParser.pattern text i
               (i + List.length NpdParser.ne_yavlyaetsya)).
    + rewrite (group_of_occurrence _ _ _ Hocc). reflexivity.
    + lia.
    + intros j Hj. apply (no_phrase_no_match u text i Hbefore). lia.
    + rewrite matches_pattern, Hword. reflexivity.
  - intros i Hbefore Hword.
    pose proof (whole_word_occurs u _ _ _ Hword) as Hocc.
    assert (i < List.length text) as Hi
      by (apply (occurs_in_range NpdParser.yavlyaetsya);
          [discriminate | exact Hocc]).
    assert (whole_word u NpdParser.ne_yavlyaetsya text i = false) as Hne.
    { unfold whole_word. rewrite (yavlyaetsya_not_ne text i Hocc).
      rewrite andb_false_r. reflexivity. }
    rewrite (search_from_first u NpdParser.pattern text i
               (i + List.length NpdParser.yavlyaetsya)).
    + rewrite (group_of_occurrence _ _ _ Hocc). reflexivity.
    + lia.
    + intros j Hj. apply (no_phrase_no_match u text i Hbefore). lia.
    + rewrite matches_pattern, Hne, Hword. reflexivity.
Qed.

(** Read off the log: a run whose log holds a validation wait that found
    a field-format marker ended in [FieldFormatError], and its log holds
    no wait for the terminal markers. *)
Lemma validation_marker_in_log :
  forall sv d u self rq p t c e,
    In c (validation_wait sv) ->
    In (Euntil t c (Some e))
       (log (snd (run (parse_service sv d u self rq) p))) ->
    fst (run (parse_service sv d u self rq) p) = Raise FieldFormatError
    /\ forall t' r,
         ~ In (Euntil t' (result_wait sv) r)
              (log (snd (run (parse_service sv d u self rq) p))).
Proof.
  intros sv d u self rq p t c e Hc Hlog.
  destruct (validation_decides sv d u self rq p) as [Hr Hn].
  - apply existsb_of_In with (1 := Hlog).
    cbn [succeeded]. rewrite andb_true_r.
    apply In_condition_eqb; [exact Hc | ].
    intros c' Hc'. destruct sv; cbn [validation_wait In] in Hc';
      repeat (destruct Hc' as [<- | Hc']; [reflexivity | ]); contradiction.
  - split; [exact Hr | ].
    intros t' r Hin.
    assert (existsb (waited [result_wait sv])
              (log (snd (run (parse_service sv d u self rq) p))) = true)
      as Hyes.
    { apply existsb_of_In with (1 := Hin).
      cbn [waited existsb]. rewrite orb_false_r.
      destruct sv; reflexivity. }
    congruence.
Qed.

(** ** The result wait and the validation wait, by the browser's answers *)

(** One call after the other, with the monad unfolded. *)
Ltac sym_reduce :=
  cbv beta iota zeta delta
    [bind ret raise lift try_except suppress try_finally call call_or_raise
     WebDriverWait_until find_element is_displayed text click send_keys
     execute_script time_sleep implicitly_wait driver_get date_today_strftime
     exn_eqb WebElement_truthy fst snd page log
     Py.or_ Py.truthy Z.eqb negb].

(** C4: in every parser, once the Steps have completed and the
    validation phase has let the run pass, when the browser answers the
    wait for the terminal markers, made with the session timeout, with a
    timeout (no marker became visible in time), [parse] raises
    [ServiceUnavailableError]; the timed-out wait is the last call of the
    run. *)
Theorem result_wait_timeout_raises_service_unavailable :
  forall d u self,
    (forall inn s s1 s2 s3 p,
       ArbitrParser._close_notification d self s = (Return tt, s1) ->
       ArbitrParser._input_inn d self inn s1 = (Return tt, s2) ->
       ArbitrParser._submit_search d self s2 = (Return tt, s3) ->
       drv_until d (BaseParser.timeout self) ArbitrParser.result_markers
         (page s3) = (None, p) ->
       ArbitrParser.parse d self inn s
       = (Raise ServiceUnavailableError,
          after_call s3 (Euntil (BaseParser.timeout self)
                           ArbitrParser.result_markers None) p))
    /\ (forall surname name lastname birthdate passport s s1 s2 s3 s4 p,
          InnParser._bypass_personal_data_block d s = (Return tt, s1) ->
          InnParser._fill_personal_info d self surname name lastname
            birthdate passport s1 = (Return tt, s2) ->
          InnParser._submit_form d s2 = (Return tt, s3) ->
          InnParser._validate_input d self s3 = (Return tt, s4) ->
          drv_until d (BaseParser.timeout self) InnParser.result_markers
            (page s4) = (None, p) ->
          InnParser.parse d self surname name lastname birthdate passport s
          = (Raise ServiceUnavailableError,
             after_call s4 (Euntil (BaseParser.timeout self)
                              InnParser.result_markers None) p))
    /\ (forall inn s s1 s2 s3 p,
          RomParser._input_inn d self inn s = (Return tt, s1) ->
          RomParser._submit_search d self s1 = (Return tt, s2) ->
          RomParser._check_entry_validation d self s2 = (Return tt, s3) ->
          drv_until d (BaseParser.timeout self) RomParser.result_markers
            (page s3) = (None, p) ->
          RomParser.parse d self inn s
          = (Raise ServiceUnavailableError,
             after_call s3 (Euntil (BaseParser.timeout self)
                              RomParser.result_markers None) p))
    /\ (forall inn s s1 s2 s3 s4 p,
          NpdParser._fill_inn_field d self inn s = (Return tt, s1) ->
          NpdParser._fill_date_field d self s1 = (Return tt, s2) ->
          NpdParser._submit_form d self s2 = (Return tt, s3) ->
          NpdParser._check_entry_validation d s3 = (Return tt, s4) ->
          drv_until d (BaseParser.timeout self) NpdParser.result_marker
            (page s4) = (None, p) ->
          NpdParser.parse d u self inn s
          = (Raise ServiceUnavailableError,
             after_call s4 (Euntil (BaseParser.timeout self)
                              NpdParser.result_marker None) p)).
Proof.
  intros d u self.
  repeat split; intros;
    unfold ArbitrParser.parse, ArbitrParser._check_result,
      ArbitrParser._wait_for_result_display,
      InnParser.parse, InnParser._parse_result,
      InnParser._wait_for_result_display,
      RomParser.parse, RomParser._check_result,
      RomParser._wait_for_result_display,
      NpdParser.parse, NpdParser._get_result_text,
      try_except, bind;
    run_steps;
    unfold WebDriverWait_until, call_or_raise, after_call;
    match goal with
    | H : drv_until _ _ _ _ = _ |- _ => rewrite H
    end;
    reflexivity.
Qed.

(** What a quiet computation leaves in the log. *)
Lemma quiet_result {d A} (bad : event -> bool) (m : M d A) s r s1 :
  quiet bad m -> existsb bad (log s) = false -> m s = (r, s1) ->
  existsb bad (log s1) = false.
Proof. intros Hm Hs H. specialize (Hm s Hs). rewrite H in Hm. exact Hm. Qed.

(** No wait for the terminal markers: none before the validation wait,
    none among the calls that follow. *)
Ltac no_race :=
  intros ? ? Hin; apply in_app_or in Hin; destruct Hin as [Hin | Hin];
  [ match goal with
    | H : existsb _ ?l = false, Hin : In ?ev ?l |- _ =>
        rewrite (existsb_of_In _ ev l Hin eq_refl) in H; discriminate H
    end
  | cbn [In] in Hin;
    repeat (destruct Hin as [Hin | Hin]; [discriminate Hin | ]);
    exact Hin ].

(** C5: in every parser with a validation phase ([InnParser],
    [RomParser], [NpdParser]), once the Steps have completed, when the
    browser answers the validation wait, made with a timeout of 2 seconds,
    with a field-format marker, [parse] raises [FieldFormatError] at once:
    the run makes no call after that wait but, in [InnParser], the
    restoring of the implicit wait, and its log holds no wait for the
    terminal markers. *)
Theorem validation_marker_raises_field_format_error :
  forall d u self,
    (forall surname name lastname birthdate passport p0 s1 s2 s3 e p,
       InnParser._bypass_personal_data_block d (start d p0)
         = (Return tt, s1) ->
       InnParser._fill_personal_info d self surname name lastname
         birthdate passport s1 = (Return tt, s2) ->
       InnParser._submit_form d s2 = (Return tt, s3) ->
       drv_until d (Py.Int 2)
         (visibility_of_element_located (CLASS_NAME, "field-errors"))
         (drv_implicitly_wait d (Py.Int 0) (page s3)) = (Some e, p) ->
       let out := run (InnParser.parse d self surname name lastname
                         birthdate passport) p0 in
       fst out = Raise FieldFormatError
       /\ log (snd out)
          = (log s3
             ++ [ Eimplicitly_wait (Py.Int 0);
                  Euntil (Py.Int 2)
                    (visibility_of_element_located (CLASS_NAME, "field-errors"))
                    (Some e);
                  Eimplicitly_wait (BaseParser.timeout self) ])%list
       /\ forall t r,
            ~ In (Euntil t InnParser.result_markers r) (log (snd out)))
    /\ (forall inn p0 s1 s2 e p,
          RomParser._input_inn d self inn (start d p0) = (Return tt, s1) ->
          RomParser._submit_search d self s1 = (Return tt, s2) ->
          drv_until d (Py.Int 2)
            (visibility_of_element_located (CLASS_NAME, "field-errors"))
            (page s2) = (Some e, p) ->
          let out := run (RomParser.parse d self inn) p0 in
          fst out = Raise FieldFormatError
          /\ log (snd out)
             = (log s2
                ++ [ Euntil (Py.Int 2)
                       (visibility_of_element_located
                          (CLASS_NAME, "field-errors"))
                       (Some e) ])%list
          /\ forall t r,
               ~ In (Euntil t RomParser.result_markers r) (log (snd out)))
    /\ (forall inn p0 s1 s2 s3 e p,
          NpdParser._fill_inn_field d self inn (start d p0)
            = (Return tt, s1) ->
          NpdParser._fill_date_field d self s1 = (Return tt, s2) ->
          NpdParser._submit_form d self s2 = (Return tt, s3) ->
          drv_until d (Py.Int 2) NpdParser.validation_markers (page s3)
            = (Some e, p) ->
          let out := run (NpdParser.parse d u self inn) p0 in
          fst out = Raise FieldFormatError
          /\ log (snd out)
             = (log s3
                ++ [ Euntil (Py.Int 2) NpdParser.validation_markers
                       (Some e) ])%list
          /\ forall t r,
               ~ In (Euntil t NpdParser.result_marker r) (log (snd out))).
Proof.
  intros d u self.
  split; [ | split ].
  - intros surname name lastname birthdate passport p0 s1 s2 s3 e p
      H1 H2 H3 Hwait.
    assert (existsb (waited [InnParser.result_markers]) (log s3) = false)
      as Hquiet.
    { eapply quiet_result; [ | | exact H3 ].
      { unfold_steps. quiet_tac. }
      eapply quiet_result; [ | | exact H2 ].
      { unfold_steps. quiet_tac. }
      eapply quiet_result; [ | | exact H1 ].
      { unfold_steps. quiet_tac. }
      reflexivity. }
    assert (run (InnParser.parse d self surname name lastname birthdate
                   passport) p0
            = (Raise FieldFormatError,
               {| page := drv_implicitly_wait d (BaseParser.timeout self) p;
                  log := (log s3
                          ++ [ Eimplicitly_wait (Py.Int 0);
                               Euntil (Py.Int 2)
                                 (visibility_of_element_located
                                    (CLASS_NAME, "field-errors")) (Some e);
                               Eimplicitly_wait (BaseParser.timeout self) ])%list
               |})) as Hrun.
    { destruct s3 as [p3 l3]. cbn [page log] in *.
      unfold run, InnParser.parse, try_except, bind. run_steps.
      unfold InnParser._validate_input, InnParser._check_for_errors,
        BaseParser.wait_for_element_visibility.
      sym_reduce. rewrite Hwait. sym_reduce.
      rewrite <- !app_assoc. reflexivity. }
    cbv zeta. rewrite Hrun. cbn [fst snd log].
    split; [reflexivity | split; [reflexivity | no_race ] ].
  - intros inn p0 s1 s2 e p H1 H2 Hwait.
    assert (existsb (waited [RomParser.result_markers]) (log s2) = false)
      as Hquiet.
    { eapply quiet_result; [ | | exact H2 ].
      { unfold_steps. quiet_tac. }
      eapply quiet_result; [ | | exact H1 ].
      { unfold_steps. quiet_tac. }
      reflexivity. }
    assert (run (RomParser.parse d self inn) p0
            = (Raise FieldFormatError,
               {| page := p;
                  log := (log s2
                          ++ [ Euntil (Py.Int 2)
                                 (visibility_of_element_located
                                    (CLASS_NAME, "field-errors")) (Some e) ])%list
               |})) as Hrun.
    { destruct s2 as [p2 l2]. cbn [page log] in *.
      unfold run, RomParser.parse, try_except, bind. run_steps.
      unfold RomParser._check_entry_validation,
        BaseParser.wait_for_element_visibility.
      sym_reduce. rewrite Hwait. sym_reduce. reflexivity. }
    cbv zeta. rewrite Hrun. cbn [fst snd log].
    split; [reflexivity | split; [reflexivity | no_race ] ].
  - intros inn p0 s1 s2 s3 e p H1 H2 H3 Hwait.
    assert (existsb (waited [NpdParser.result_marker]) (log s3) = false)
      as Hquiet.
    { eapply quiet_result; [ | | exact H3 ].
      { unfold_steps. quiet_tac. }
      eapply quiet_result; [ | | exact H2 ].
      { unfold_steps. quiet_tac. }
      eapply quiet_result; [ | | exact H1 ].
      { unfold_steps. quiet_tac. }
      reflexivity. }
    assert (run (NpdParser.parse d u self inn) p0
            = (Raise FieldFormatError,
               {| page := p;
                  log := (log s3
                          ++ [ Euntil (Py.Int 2) NpdParser.validation_markers
                                 (Some e) ])%list
               |})) as Hrun.
    { destruct s3 as [p3 l3]. cbn [page log] in *.
      unfold run, NpdParser.parse, try_except, bind. run_steps.
      unfold NpdParser._check_entry_validation.
      sym_reduce. rewrite Hwait. sym_reduce. reflexivity. }
    cbv zeta. rewrite Hrun. cbn [fst snd log].
    split; [reflexivity | split; [reflexivity | no_race ] ].
Qed.

(** * The properties on the test doubles *)

Ltac in_log := cbv; repeat first [ left; reflexivity | right ].

(** On the arbitr page without its search field, the wait of the required
    Step [_input_inn] times out and [parse] raises
    [ServiceUnavailableError], which is not [UndefinedError]. *)
Lemma required_step_timeout_is_not_undefined :
  In (Euntil (Py.Int 30)
        (visibility_of_element_located
           (XPATH, xpath_id "sug-participants" "/div/textarea")) None)
     (log (snd (run (ArbitrParser.parse (StaticPage.driver []) session30
                       (inn ivanov)) [])))
  /\ fst (run (ArbitrParser.parse (StaticPage.driver []) session30
                 (inn ivanov)) [])
     = Raise ServiceUnavailableError
  /\ fst (run (ArbitrParser.parse (StaticPage.driver []) session30
                 (inn ivanov)) [])
     <> Raise UndefinedError.
Proof.
  split; [in_log | split; [vm_compute; reflexivity | vm_compute; discriminate] ].
Qed.

Lemma required_step_timeout_witness :
  fst (run (parse_service Arbitr (StaticPage.driver []) small_unicode
              session30 ivanov) Pages.arbitr_no_button)
  = Raise ServiceUnavailableError.
Proof.
  apply (required_step_timeout_raises_service_unavailable Arbitr
           (StaticPage.driver []) small_unicode session30 ivanov
           Pages.arbitr_no_button (Py.Int 30)
           (element_to_be_clickable
              (XPATH, xpath_id "b-form-submit" "/div/button"))).
  - cbn [required_waits In]. right. left. reflexivity.
  - in_log.
Defined.

Lemma analyze_result_witness :
  NpdParser._analyze_result small_unicode text_unknown
    = Raise ServiceUnavailableError
  /\ NpdParser._analyze_result small_unicode NpdParser.ne_yavlyaetsya
     = Return false
  /\ NpdParser._analyze_result small_unicode text_both = Return true.
Proof.
  split; [ | split].
  - apply (proj1 (analyze_result_leftmost_whole_word small_unicode
                    text_unknown)).
    intros i.
    do 15 (destruct i as [|i]; [split; vm_compute; reflexivity | ]).
    split; apply whole_word_out_of_range;
      try discriminate; vm_compute; lia.
  - apply (proj1 (proj2 (analyze_result_leftmost_whole_word small_unicode
                           NpdParser.ne_yavlyaetsya)) 0).
    + intros j Hj. inversion Hj.
    + vm_compute. reflexivity.
  - apply (proj2 (proj2 (analyze_result_leftmost_whole_word small_unicode
                           text_both)) 0).
    + intros j Hj. inversion Hj.
    + vm_compute. reflexivity.
Defined.

Lemma result_markers_precedence_witness :
  fst (InnParser._parse_result (StaticPage.driver []) session30
         (start (StaticPage.driver []) Pages.inn_success_and_result_3))
  = Return digits12
  /\ fst (InnParser._parse_result (StaticPage.driver []) session30
            (start (StaticPage.driver []) Pages.inn_result_0_and_success))
     = Raise InnNotFoundError.
Proof.
  split.
  - set (d := StaticPage.driver []).
    set (s := start d Pages.inn_success_and_result_3).
    set (s0 := snd (InnParser._wait_for_result_display d session30 s)).
    set (s1 := snd (InnParser._is_element_displayed d ID "result_0" s0)).
    set (s2 := snd (InnParser._is_element_displayed d ID "result_1" s1)).
    rewrite (proj1 (proj2 (proj1 (result_markers_precedence d session30 s s0)
                             eq_refl)) s1 s2);
      reflexivity.
  - set (d := StaticPage.driver []).
    set (s := start d Pages.inn_result_0_and_success).
    set (s0 := snd (InnParser._wait_for_result_display d session30 s)).
    set (s1 := snd (InnParser._is_element_displayed d ID "result_0" s0)).
    rewrite (proj1 (proj1 (result_markers_precedence d session30 s s0)
                      eq_refl) s1);
      reflexivity.
Defined.

Lemma result_wait_timeout_witness :
  fst (ArbitrParser.parse (StaticPage.driver []) session30 (inn ivanov)
         (start (StaticPage.driver []) Pages.arbitr_neither))
  = Raise ServiceUnavailableError
  /\ fst (InnParser.parse (StaticPage.driver []) session30
            (surname ivanov) (name ivanov) (lastname ivanov)
            (birthdate ivanov) (passport ivanov)
            (start (StaticPage.driver []) Pages.inn_form))
     = Raise ServiceUnavailableError
  /\ fst (RomParser.parse (StaticPage.driver []) session30 (inn ivanov)
            (start (StaticPage.driver []) Pages.rom_form))
     = Raise ServiceUnavailableError
  /\ fst (NpdParser.parse (StaticPage.driver []) small_unicode session30
            (inn ivanov) (start (StaticPage.driver []) Pages.npd_form))
     = Raise ServiceUnavailableError.
Proof.
  set (d := StaticPage.driver []).
  pose proof (result_wait_timeout_raises_service_unavailable d small_unicode
                session30) as [Harbitr [Hinn [Hrom Hnpd]]].
  split; [ | split; [ | split ] ].
  - set (s := start d Pages.arbitr_neither).
    set (s1 := snd (ArbitrParser._close_notification d session30 s)).
    set (s2 := snd (ArbitrParser._input_inn d session30 (inn ivanov) s1)).
    set (s3 := snd (ArbitrParser._submit_search d session30 s2)).
    rewrite (Harbitr (inn ivanov) s s1 s2 s3 Pages.arbitr_neither
               eq_refl eq_refl eq_refl eq_refl).
    reflexivity.
  - set (s := start d Pages.inn_form).
    set (s1 := snd (InnParser._bypass_personal_data_block d s)).
    set (s2 := snd (InnParser._fill_personal_info d session30
                      (surname ivanov) (name ivanov) (lastname ivanov)
                      (birthdate ivanov) (passport ivanov) s1)).
    set (s3 := snd (InnParser._submit_form d s2)).
    set (s4 := snd (InnParser._validate_input d session30 s3)).
    rewrite (Hinn (surname ivanov) (name ivanov) (lastname ivanov)
               (birthdate ivanov) (passport ivanov) s s1 s2 s3 s4
               Pages.inn_form eq_refl eq_refl eq_refl eq_refl eq_refl).
    reflexivity.
  - set (s := start d Pages.rom_form).
    set (s1 := snd (RomParser._input_inn d session30 (inn ivanov) s)).
    set (s2 := snd (RomParser._submit_search d session30 s1)).
    set (s3 := snd (RomParser._check_entry_validation d session30 s2)).
    rewrite (Hrom (inn ivanov) s s1 s2 s3 Pages.rom_form
               eq_refl eq_refl eq_refl eq_refl).
    reflexivity.
  - set (s := start d Pages.npd_form).
    set (s1 := snd (NpdParser._fill_inn_field d session30 (inn ivanov) s)).
    set (s2 := snd (NpdParser._fill_date_field d session30 s1)).
    set (s3 := snd (NpdParser._submit_form d session30 s2)).
    set (s4 := snd (NpdParser._check_entry_validation d s3)).
    rewrite (Hnpd (inn ivanov) s s1 s2 s3 s4 Pages.npd_form
               eq_refl eq_refl eq_refl eq_refl eq_refl).
    reflexivity.
Defined.

Lemma validation_marker_witness :
  (fst (run (InnParser.parse (StaticPage.driver []) session30
               (surname ivanov) (name ivanov) (lastname ivanov)
               (birthdate ivanov) (passport ivanov)) Pages.inn_field_errors)
   = Raise FieldFormatError
   /\ forall t r,
        ~ In (Euntil t InnParser.result_markers r)
             (log (snd (run (InnParser.parse (StaticPage.driver []) session30
                               (surname ivanov) (name ivanov)
                               (lastname ivanov) (birthdate ivanov)
                               (passport ivanov)) Pages.inn_field_errors))))
  /\ (fst (run (RomParser.parse (StaticPage.driver []) session30
                  (inn ivanov)) Pages.rom_field_errors)
      = Raise FieldFormatError
      /\ forall t r,
           ~ In (Euntil t RomParser.result_markers r)
                (log (snd (run (RomParser.parse (StaticPage.driver [])
                                  session30 (inn ivanov))
                             Pages.rom_field_errors))))
  /\ (fst (run (NpdParser.parse (StaticPage.driver []) small_unicode
                  session30 (inn ivanov)) MorePages.npd_invalid)
      = Raise FieldFormatError
      /\ forall t r,
           ~ In (Euntil t NpdParser.result_marker r)
                (log (snd (run (NpdParser.parse (StaticPage.driver [])
                                  small_unicode session30 (inn ivanov))
                             MorePages.npd_invalid)))).
Proof.
  set (d := StaticPage.driver []).
  split; [ | split ].
  - set (s := start d Pages.inn_field_errors).
    set (s1 := snd (InnParser._bypass_personal_data_block d s)).
    set (s2 := snd (InnParser._fill_personal_info d session30
                      (surname ivanov) (name ivanov) (lastname ivanov)
                      (birthdate ivanov) (passport ivanov) s1)).
    set (s3 := snd (InnParser._submit_form d s2)).
    destruct (proj1 (validation_marker_raises_field_format_error d
                       small_unicode session30)
                (surname ivanov) (name ivanov) (lastname ivanov)
                (birthdate ivanov) (passport ivanov)
                Pages.inn_field_errors s1 s2 s3 7%N Pages.inn_field_errors
                eq_refl eq_refl eq_refl eq_refl) as [Hraise [_ Hrace]].
    split; [exact Hraise | exact Hrace].
  - set (s := start d Pages.rom_field_errors).
    set (s1 := snd (RomParser._input_inn d session30 (inn ivanov) s)).
    set (s2 := snd (RomParser._submit_search d session30 s1)).
    destruct (proj1 (proj2 (validation_marker_raises_field_format_error d
                              small_unicode session30))
                (inn ivanov) Pages.rom_field_errors s1 s2 3%N
                Pages.rom_field_errors eq_refl eq_refl eq_refl)
      as [Hraise [_ Hrace]].
    split; [exact Hraise | exact Hrace].
  - set (s := start d MorePages.npd_invalid).
    set (s1 := snd (NpdParser._fill_inn_field d session30 (inn ivanov) s)).
    set (s2 := snd (NpdParser._fill_date_field d session30 s1)).
    set (s3 := snd (NpdParser._submit_form d session30 s2)).
    destruct (proj2 (proj2 (validation_marker_raises_field_format_error d
                              small_unicode session30))
                (inn ivanov) MorePages.npd_invalid s1 s2 s3 9%N
                MorePages.npd_invalid eq_refl eq_refl eq_refl eq_refl)
      as [Hraise [_ Hrace]].
    split; [exact Hraise | exact Hrace].
Defined.

Lemma arbitr_parse_classifies_markers_witness :
  fst (ArbitrParser.parse (StaticPage.driver []) session30 (inn ivanov)
         (start (StaticPage.driver []) Pages.arbitr_no_results))
  = Return false
  /\ fst (ArbitrParser.parse (StaticPage.driver []) session30 (inn ivanov)
            (start (StaticPage.driver []) Pages.arbitr_results))
     = Return true
  /\ fst (ArbitrParser.parse VanishingPage.driver session30 (inn ivanov)
            (start VanishingPage.driver tt))
     = Raise UndefinedError.
Proof.
  split; [ | split].
  - set (d := StaticPage.driver []).
    set (s := start d Pages.arbitr_no_results).
    set (s1 := snd (ArbitrParser._close_notification d session30 s)).
    set (s2 := snd (ArbitrParser._input_inn d session30 (inn ivanov) s1)).
    set (s3 := snd (ArbitrParser._submit_search d session30 s2)).
    set (s4 := snd (ArbitrParser._wait_for_result_display d session30 s3)).
    set (s5 := snd (ArbitrParser._is_element_displayed d CLASS_NAME
                      "b-noResults" s4)).
    rewrite (proj1 (arbitr_parse_classifies_markers d session30 (inn ivanov)
                      s s1 s2 s3 s4 eq_refl eq_refl eq_refl eq_refl) s5);
      reflexivity.
  - set (d := StaticPage.driver []).
    set (s := start d Pages.arbitr_results).
    set (s1 := snd (ArbitrParser._close_notification d session30 s)).
    set (s2 := snd (ArbitrParser._input_inn d session30 (inn ivanov) s1)).
    set (s3 := snd (ArbitrParser._submit_search d session30 s2)).
    set (s4 := snd (ArbitrParser._wait_for_result_display d session30 s3)).
    set (s5 := snd (ArbitrParser._is_element_displayed d CLASS_NAME
                      "b-noResults" s4)).
    set (s6 := snd (ArbitrParser._is_element_displayed d CLASS_NAME
                      "b-results" s5)).
    rewrite (proj1 (proj2 (arbitr_parse_classifies_markers d session30
                             (inn ivanov) s s1 s2 s3 s4
                             eq_refl eq_refl eq_refl eq_refl)) s5 s6);
      reflexivity.
  - set (d := VanishingPage.driver).
    set (s := start d tt).
    set (s1 := snd (ArbitrParser._close_notification d session30 s)).
    set (s2 := snd (ArbitrParser._input_inn d session30 (inn ivanov) s1)).
    set (s3 := snd (ArbitrParser._submit_search d session30 s2)).
    set (s4 := snd (ArbitrParser._wait_for_result_display d session30 s3)).
    set (s5 := snd (ArbitrParser._is_element_displayed d CLASS_NAME
                      "b-noResults" s4)).
    set (s6 := snd (ArbitrParser._is_element_displayed d CLASS_NAME
                      "b-results" s5)).
    rewrite (proj2 (proj2 (arbitr_parse_classifies_markers d session30
                             (inn ivanov) s s1 s2 s3 s4
                             eq_refl eq_refl eq_refl eq_refl)) s5 s6);
      reflexivity.
Defined.

Lemma inn_parse_returns_value_text_witness :
  fst (InnParser.parse (StaticPage.driver []) session30
         (surname ivanov) (name ivanov) (lastname ivanov) (birthdate ivanov)
         (passport ivanov)
         (start (StaticPage.driver []) Pages.inn_success))
  = Return digits12.
Proof.
  set (d := StaticPage.driver []).
  set (s := start d Pages.inn_success).
  set (s1 := snd (InnParser._bypass_personal_data_block d s)).
  set (s2 := snd (InnParser._fill_personal_info d session30 (surname ivanov)
                    (name ivanov) (lastname ivanov) (birthdate ivanov)
                    (passport ivanov) s1)).
  set (s3 := snd (InnParser._submit_form d s2)).
  set (s4 := snd (InnParser._validate_input d session30 s3)).
  set (s5 := snd (InnParser._wait_for_result_display d session30 s4)).
  set (s6 := snd (InnParser._is_element_displayed d ID "result_0" s5)).
  set (s7 := snd (InnParser._is_element_displayed d ID "result_1" s6)).
  set (s8 := snd (find_element d XPATH (xpath_id "resultInn" "") s7)).
  set (s9 := snd (text d 20%N s8)).
  rewrite (inn_parse_returns_value_text d session30
             (surname ivanov) (name ivanov) (lastname ivanov)
             (birthdate ivanov) (passport ivanov)
             s s1 s2 s3 s4 s5 s6 s7 s8 s9 20%N digits12);
    reflexivity.
Defined.

Lemma domain_errors_propagate_witness :
  fst (parse_service Rom (StaticPage.driver []) small_unicode session30 ivanov
         (start (StaticPage.driver []) Pages.rom_field_errors))
  = Raise FieldFormatError.
Proof.
  set (d := StaticPage.driver []).
  set (s := start d Pages.rom_field_errors).
  rewrite (domain_errors_propagate_unchanged Rom d small_unicode session30
             ivanov FieldFormatError s
             (snd (try_block Rom d small_unicode session30 ivanov s)));
    reflexivity.
Defined.

Lemma is_element_displayed_witness :
  fst (ArbitrParser._is_element_displayed (StaticPage.driver [])
         CLASS_NAME "b-results"
         (start (StaticPage.driver []) Pages.arbitr_no_results))
  = Return false
  /\ fst (ArbitrParser._is_element_displayed (StaticPage.driver [])
            CLASS_NAME "b-results"
            (start (StaticPage.driver []) Pages.arbitr_no_button))
     = Return false.
Proof.
  split.
  - apply (proj2 (proj2 (proj2
             (proj1 (is_element_displayed_absent_like_invisible
                       (StaticPage.driver []))
                CLASS_NAME "b-results"
                (start (StaticPage.driver []) Pages.arbitr_no_results))))).
    exists 4%N, Pages.arbitr_no_results. split; reflexivity.
  - apply (proj1 (proj2 (proj2
             (proj1 (is_element_displayed_absent_like_invisible
                       (StaticPage.driver []))
                CLASS_NAME "b-results"
                (start (StaticPage.driver []) Pages.arbitr_no_button))))).
    reflexivity.
Defined.

(** ** The four workflows, end to end, on static pages *)

Example arbitr_found :
  fst (run (ArbitrParser.parse (StaticPage.driver []) session30 (inn ivanov))
           Pages.arbitr_results) = Return true.
Proof. vm_compute. reflexivity. Qed.

Example arbitr_markers_hidden :
  fst (run (ArbitrParser.parse (StaticPage.driver []) session30 (inn ivanov))
           Pages.arbitr_neither) = Raise ServiceUnavailableError.
Proof. vm_compute. reflexivity. Qed.

Example inn_field_format_error :
  fst (run (parse_service Inn (StaticPage.driver []) small_unicode session30
              ivanov) Pages.inn_field_errors) = Raise FieldFormatError.
Proof. vm_compute. reflexivity. Qed.

Example inn_success_with_result_err :
  fst (run (parse_service Inn (StaticPage.driver []) small_unicode session30
              ivanov) Pages.inn_success_and_result_err)
  = Return (Value digits12).
Proof. vm_compute. reflexivity. Qed.

Example npd_not_self_employed :
  fst (run (NpdParser.parse (StaticPage.driver []) small_unicode session30
              (inn ivanov))
           (Pages.npd_page ([32; 32]%N ++ NpdParser.ne_yavlyaetsya ++ [10]%N)%list))
  = Return false.
Proof. vm_compute. reflexivity. Qed.

Example npd_self_employed :
  fst (run (NpdParser.parse (StaticPage.driver []) small_unicode session30
              (inn ivanov))
           (Pages.npd_page NpdParser.yavlyaetsya))
  = Return true.
Proof. vm_compute. reflexivity. Qed.

Example npd_unknown_text :
  fst (run (NpdParser.parse (StaticPage.driver []) small_unicode session30
              (inn ivanov))
           (Pages.npd_page text_unknown))
  = Raise ServiceUnavailableError.
Proof. vm_compute. reflexivity. Qed.

(** * Further properties *)

(** ** The errors a parser can raise *)

Section RaisesOnly.
Context {d : Driver}.

Lemma ro_ret {A} P (a : A) : raises_only (d := d) P (ret a).
Proof. intros s. exact I. Qed.

Lemma ro_raise {A} (P : exn -> bool) e :
  P e = true -> raises_only (d := d) (A := A) P (raise e).
Proof. intros H s. exact H. Qed.

Lemma ro_date P fmt : raises_only P (date_today_strftime d fmt).
Proof. intros s. exact I. Qed.

Lemma ro_call {A} P (f : drv_state d -> A * drv_state d) ev :
  raises_only P (call f ev).
Proof. intros s. unfold call. destruct (f (page s)). exact I. Qed.

Lemma ro_call_or_raise {A} (P : exn -> bool)
    (f : drv_state d -> option A * drv_state d) ev e :
  P e = true -> raises_only P (call_or_raise f ev e).
Proof.
  intros H s. unfold call_or_raise.
  destruct (f (page s)) as [[a|] p]; [exact I | exact H].
Qed.

Lemma ro_bind {A B} P (m : M d A) (k : A -> M d B) :
  raises_only P m -> (forall a, raises_only P (k a)) ->
  raises_only P (bind m k).
Proof.
  intros Hm Hk s. specialize (Hm s). unfold bind.
  destruct (m s) as [[a|e] s1]; cbn in *; [apply Hk | exact Hm].
Qed.

Lemma ro_try_except {A} (P Q : exn -> bool) (body : M d A) h :
  raises_only Q body -> (forall e, Q e = true -> raises_only P (h e)) ->
  raises_only P (try_except body h).
Proof.
  intros Hb Hh s. specialize (Hb s). unfold try_except.
  destruct (body s) as [[a|e] s1]; cbn in *; [exact I | apply Hh, Hb].
Qed.

(** Inside [suppress(E)] the body may raise [E] as well. *)
Lemma ro_suppress {A} (P : exn -> bool) E (body after : M d A) :
  raises_only (fun e => P e || exn_eqb e E) body ->
  raises_only P after ->
  raises_only P (suppress E body after).
Proof.
  intros Hb Ha. apply (ro_try_except P (fun e => P e || exn_eqb e E));
    [exact Hb | ].
  intros e He. destruct (exn_eqb e E); [exact Ha | ].
  rewrite orb_false_r in He. apply ro_raise, He.
Qed.

Lemma ro_try_finally {A} P (body : M d A) fin :
  raises_only P body -> raises_only P fin ->
  raises_only P (try_finally body fin).
Proof.
  intros Hb Hf s. specialize (Hb s). unfold try_finally.
  destruct (body s) as [r s1]. specialize (Hf s1).
  destruct (fin s1) as [[a|e] s2]; cbn in *; [exact Hb | exact Hf].
Qed.

(** The classifier raises nothing but [ServiceUnavailableError]. *)
Lemma ro_analyze_result (P : exn -> bool) u t :
  P ServiceUnavailableError = true ->
  raises_only (d := d) P (lift (NpdParser._analyze_result u t)).
Proof.
  intros H s. unfold lift, NpdParser._analyze_result. cbn.
  destruct (Re.search u NpdParser.pattern t); [exact I | exact H].
Qed.

(** The [except] clauses of [parse] turn the two Selenium exceptions
    into domain errors and let the rest through. *)
Lemma ro_try_block {A} (P Q : exn -> bool) (body : M d A) :
  raises_only Q body ->
  (forall e, Q e = true ->
             P (match e with
                | NoSuchElementException => UndefinedError
                | TimeoutException => ServiceUnavailableError
                | _ => e
                end) = true) ->
  raises_only P (try_except body except_clauses).
Proof.
  intros Hb HQ. eapply ro_try_except; [exact Hb | ].
  intros e He. specialize (HQ e He).
  destruct e; apply ro_raise; exact HQ.
Qed.

End RaisesOnly.

Ltac ro_step :=
  match goal with
  | |- raises_only _ (ret _) => apply ro_ret
  | |- raises_only _ (raise _) => apply ro_raise; reflexivity
  | |- raises_only _ (date_today_strftime _ _) => apply ro_date
  | |- raises_only _ (bind _ _) => apply ro_bind; [ | intro ]
  | |- raises_only _ (suppress _ _ _) => apply ro_suppress
  | |- raises_only _ (try_finally _ _) => apply ro_try_finally
  | |- raises_only _ (call _ _) => apply ro_call
  | |- raises_only _ (call_or_raise _ _ _) =>
      apply ro_call_or_raise; reflexivity
  | |- raises_only _ (WebDriverWait_until _ _ _) => unfold WebDriverWait_until
  | |- raises_only _ (lift (NpdParser._analyze_result _ _)) =>
      apply ro_analyze_result; reflexivity
  | |- raises_only _ (if ?c then _ else _) => destruct c
  end.

Ltac ro_tac := repeat ro_step.

(** What the [try] block of each [parse] can raise: the errors of
    [raisable] and [TimeoutException], and [NoSuchElementException] where
    the parser looks elements up. *)
Lemma parse_raises_only sv d u self rq :
  raises_only (one_of (raisable sv)) (parse_service sv d u self rq).
Proof.
  destruct sv; unfold parse_service;
    (apply ro_bind; [ | intro; apply ro_ret ]).
  4: apply (ro_try_block _ (one_of (TimeoutException :: raisable Npd))).
  1-3: match goal with
       | |- raises_only (one_of (raisable ?sv)) _ =>
           apply (ro_try_block _
                    (one_of (NoSuchElementException :: TimeoutException
                             :: raisable sv)))
       end.
  all: try (intros e He; destruct e; try discriminate He; reflexivity).
  all: unfold_steps; ro_tac.
Qed.

Lemma exn_eqb_eq a b : exn_eqb a b = true -> a = b.
Proof. destruct a, b; try discriminate; reflexivity. Qed.

Ltac raised_on d p :=
  exists d, small_unicode, session30, ivanov, (start d p);
  vm_compute; reflexivity.

(** X1: of the exception classes the sources name (the six of
    exceptions.py, [TimeoutException] and [NoSuchElementException]), only
    those that the docstring of [parse] lists under "Raises" leave
    [parse], and in [InnParser] also [ServiceCaptchaError], which its
    docstring does not list; [TimeoutException] and
    [NoSuchElementException] never leave [parse].  Each of these errors is
    raised on some page, [UndefinedError] of [NpdParser] apart: its lookups
    are all waits, which raise [TimeoutException]. *)
Theorem parse_raises_documented_errors :
  forall sv,
    (forall d u self rq s e,
       fst (parse_service sv d u self rq s) = Raise e ->
       In e (documented sv) \/ (sv = Inn /\ e = ServiceCaptchaError))
    /\ (forall e,
          (In e (documented sv) /\ ~ (sv = Npd /\ e = UndefinedError))
          \/ (sv = Inn /\ e = ServiceCaptchaError) ->
          exists d u self rq s,
            fst (parse_service sv d u self rq s) = Raise e).
Proof.
  intros sv. split.
  - intros d u self rq s e Hraise.
    pose proof (parse_raises_only sv d u self rq s) as H.
    rewrite Hraise in H.
    destruct sv, e; try discriminate H; cbn [documented In]; auto 8.
  - intros e [[Hin Hnot] | [-> ->]].
    + destruct sv; cbn [documented In] in Hin;
        repeat (destruct Hin as [<- | Hin]); try contradiction.
      * raised_on (StaticPage.driver []) (@nil StaticPage.node).
      * raised_on VanishingPage.driver tt.
      * raised_on (StaticPage.driver []) MorePages.inn_not_found.
      * raised_on (StaticPage.driver []) MorePages.inn_verification_error.
      * raised_on (StaticPage.driver []) Pages.inn_field_errors.
      * raised_on (StaticPage.driver []) MorePages.inn_server_error.
      * raised_on (StaticPage.driver []) MorePages.inn_success_without_value.
      * raised_on (StaticPage.driver []) Pages.rom_form.
      * raised_on (StaticPage.driver []) Pages.rom_field_errors.
      * raised_on ScriptedWaits.driver [Some 1%N; Some 2%N; None; Some 3%N].
      * raised_on (StaticPage.driver []) (Pages.npd_page text_unknown).
      * raised_on (StaticPage.driver []) MorePages.npd_invalid.
      * exfalso. apply Hnot. split; reflexivity.
    + raised_on (StaticPage.driver []) MorePages.inn_captcha.
Qed.

Lemma parse_raises_documented_errors_witness :
  (In ServiceCaptchaError (documented Inn)
   \/ (Inn = Inn /\ ServiceCaptchaError = ServiceCaptchaError))
  /\ exists d u self rq s,
       fst (parse_service Npd d u self rq s) = Raise FieldFormatError.
Proof.
  split.
  - apply (proj1 (parse_raises_documented_errors Inn) (StaticPage.driver [])
             small_unicode session30 ivanov
             (start (StaticPage.driver []) MorePages.inn_captcha)
             ServiceCaptchaError).
    vm_compute. reflexivity.
  - apply (proj2 (parse_raises_documented_errors Npd) FieldFormatError).
    left. split.
    + cbn [documented In]. right. left. reflexivity.
    + intros [_ H]. discriminate H.
Defined.

(** ** Nothing is done after a wait that times out *)

Section Halting.
Context {d : Driver} (bad : event -> bool).

Lemma halting_quiet {A} (m : M d A) : quiet bad m -> halting bad m.
Proof. intros Hm s H. left. apply Hm, H. Qed.

Lemma halting_bind {A B} (m : M d A) (k : A -> M d B) :
  halting bad m -> (forall a, halting bad (k a)) -> halting bad (bind m k).
Proof.
  intros Hm Hk s H. specialize (Hm s H). unfold bind.
  destruct (m s) as [[a|e] s1]; cbn in *.
  - destruct Hm as [Hm | [Hm _]]; [apply Hk, Hm | discriminate].
  - destruct Hm as [Hm | [Hm Hend]]; [left; exact Hm | right].
    split; [congruence | exact Hend].
Qed.

Lemma halting_until t c :
  (forall e, bad (Euntil t c (Some e)) = false) ->
  halting bad (WebDriverWait_until d t c).
Proof.
  intros Hev s H. unfold WebDriverWait_until, call_or_raise.
  destruct (drv_until d t c (page s)) as [[e|] p]; cbn.
  - left. rewrite existsb_snoc, H, Hev. reflexivity.
  - destruct (bad (Euntil t c None)) eqn:Hbad.
    + right. split; [reflexivity | ].
      exists (log s), (Euntil t c None). auto.
    + left. rewrite existsb_snoc, H, Hbad. reflexivity.
Qed.

(** The [except] clauses make no call. *)
Lemma halting_try_block {A} (body : M d A) p :
  halting bad body ->
  existsb bad (log (snd (run (try_except body except_clauses) p))) = true ->
  ends_with bad (log (snd (run (try_except body except_clauses) p))).
Proof.
  intros Hb. unfold run, start, try_except.
  specialize (Hb {| page := p; log := [] |} eq_refl).
  destruct (body {| page := p; log := [] |}) as [[a|e] s1]; cbn in *.
  - destruct Hb as [Hb | [Hb _]]; [congruence | discriminate].
  - destruct Hb as [Hb | [Hb Hend]].
    + destruct e; cbn; congruence.
    + inversion Hb; subst. intros _. exact Hend.
Qed.

Lemma ends_with_last l ev :
  ends_with bad l -> In ev l -> bad ev = true ->
  exists l0, l = (l0 ++ [ev])%list.
Proof.
  intros (l0 & ev0 & -> & Hbad0 & Hclean) Hin Hbad.
  apply in_app_or in Hin. destruct Hin as [Hin | [<- | []]].
  - pose proof (existsb_of_In bad ev l0 Hin Hbad). congruence.
  - exists l0. reflexivity.
Qed.

End Halting.

Ltac halting_tac :=
  first [ solve [apply halting_quiet; quiet_tac]
        | apply halting_until; intro; reflexivity
        | apply halting_bind; [ halting_tac | intro; halting_tac ] ].

(** X2: in every parser, when the wait of a required Step or the wait
    for the terminal markers times out, that wait is the last call of the
    run: nothing is typed, clicked, looked up or waited for after it. *)
Theorem timed_out_wait_is_last_call :
  forall sv d u self rq p t c,
    In c (result_wait sv :: required_waits sv) ->
    In (Euntil t c None) (log (snd (run (parse_service sv d u self rq) p))) ->
    exists l,
      log (snd (run (parse_service sv d u self rq) p))
      = (l ++ [Euntil t c None])%list.
Proof.
  intros sv d u self rq p t c Hc Hlog.
  assert (timed_out (result_wait sv :: required_waits sv) (Euntil t c None)
          = true) as Hbad.
  { cbn [timed_out]. rewrite andb_true_r.
    apply In_condition_eqb; [exact Hc | ].
    intros c' Hc'.
    destruct sv; cbn [required_waits result_wait In] in Hc';
      repeat (destruct Hc' as [<- | Hc']; [reflexivity | ]); contradiction. }
  apply (ends_with_last (timed_out (result_wait sv :: required_waits sv)));
    [ | exact Hlog | exact Hbad].
  pose proof (existsb_of_In _ _ _ Hlog Hbad) as Hex.
  rewrite parse_service_log in *.
  destruct sv; (apply halting_try_block; [ | exact Hex ]);
    unfold_steps; halting_tac.
Qed.

Lemma timed_out_wait_is_last_call_witness :
  exists l,
    log (snd (run (parse_service Arbitr (StaticPage.driver []) small_unicode
                     session30 ivanov) Pages.arbitr_no_button))
    = (l ++ [Euntil (Py.Int 30)
               (element_to_be_clickable
                  (XPATH, xpath_id "b-form-submit" "/div/button")) None])%list.
Proof.
  apply (timed_out_wait_is_last_call Arbitr (StaticPage.driver [])
           small_unicode session30 ivanov Pages.arbitr_no_button).
  - cbn [required_waits In]. right. right. left. reflexivity.
  - in_log.
Defined.

(** ** The captcha check of [InnParser] *)

(** X3: in [InnParser], when the captcha wait of the validation phase
    finds its dialog, the run ends in [ServiceCaptchaError] and the wait
    for the terminal markers is never made. *)
Theorem captcha_marker_raises_service_captcha_error :
  forall d self surname name lastname birthdate passport p t e,
    In (Euntil t captcha_wait (Some e))
       (log (snd (run (InnParser.parse d self surname name lastname
                         birthdate passport) p))) ->
    fst (run (InnParser.parse d self surname name lastname birthdate
                passport) p) = Raise ServiceCaptchaError
    /\ forall t' r,
         ~ In (Euntil t' InnParser.result_markers r)
              (log (snd (run (InnParser.parse d self surname name lastname
                                birthdate passport) p))).
Proof.
  intros d self surname name lastname birthdate passport p t e Hlog.
  assert (existsb (succeeded [captcha_wait])
            (log (snd (run (InnParser.parse d self surname name lastname
                              birthdate passport) p))) = true) as Hhit
    by (apply existsb_of_In with (1 := Hlog); reflexivity).
  destruct (decisive_try_block (succeeded [captcha_wait])
              (waited [InnParser.result_markers]) ServiceCaptchaError
              (InnParser._bypass_personal_data_block d ;;
               InnParser._fill_personal_info d self surname name lastname
                 birthdate passport ;;
               InnParser._submit_form d ;;
               InnParser._validate_input d self ;;
               InnParser._parse_result d self) p eq_refl)
    as [Hr Hn]; [ | exact Hhit | ].
  - unfold_steps. decisive_tac.
  - split; [exact Hr | ].
    intros t' r Hin.
    assert (existsb (waited [InnParser.result_markers])
              (log (snd (run (InnParser.parse d self surname name lastname
                                birthdate passport) p))) = true) as Hyes
      by (apply existsb_of_In with (1 := Hin); reflexivity).
    assert (true = false) as Habs by (rewrite <- Hyes; exact Hn).
    discriminate Habs.
Qed.

Lemma captcha_marker_witness :
  fst (run (InnParser.parse (StaticPage.driver []) session30
              (surname ivanov) (name ivanov) (lastname ivanov)
              (birthdate ivanov) (passport ivanov)) MorePages.inn_captcha)
  = Raise ServiceCaptchaError.
Proof.
  apply (captcha_marker_raises_service_captcha_error (StaticPage.driver [])
           session30 (surname ivanov) (name ivanov) (lastname ivanov)
           (birthdate ivanov) (passport ivanov) MorePages.inn_captcha
           (Py.Int 3) 8%N).
  in_log.
Defined.

(** ** Invariants of the log *)

Section Keeps.
Context {d : Driver} (P : list event -> Prop).

Lemma keeps_ret {A} (a : A) : keeps (d := d) P (ret a).
Proof. intros s H. exact H. Qed.

Lemma keeps_raise {A} e : keeps (d := d) (A := A) P (raise e).
Proof. intros s H. exact H. Qed.

Lemma keeps_lift {A} (r : outcome A) : keeps (d := d) P (lift r).
Proof. intros s H. exact H. Qed.

Lemma keeps_date fmt : keeps P (date_today_strftime d fmt).
Proof. intros s H. exact H. Qed.

Lemma keeps_bind {A B} (m : M d A) (k : A -> M d B) :
  keeps P m -> (forall a, keeps P (k a)) -> keeps P (bind m k).
Proof.
  intros Hm Hk s H. specialize (Hm s H). unfold bind.
  destruct (m s) as [[a|e] s1]; cbn in *; [apply Hk, Hm | exact Hm].
Qed.

Lemma keeps_try_except {A} (body : M d A) h :
  keeps P body -> (forall e, keeps P (h e)) -> keeps P (try_except body h).
Proof.
  intros Hb Hh s H. specialize (Hb s H). unfold try_except.
  destruct (body s) as [[a|e] s1]; cbn in *; [exact Hb | apply Hh, Hb].
Qed.

Lemma keeps_except_clauses {A} (body : M d A) :
  keeps P body -> keeps P (try_except body except_clauses).
Proof.
  intros Hb. apply keeps_try_except; [exact Hb | ].
  intros e; destruct e; apply keeps_raise.
Qed.

Lemma keeps_suppress {A} E (body after : M d A) :
  keeps P body -> keeps P after -> keeps P (suppress E body after).
Proof.
  intros Hb Ha. apply keeps_try_except; [exact Hb | ].
  intros e. destruct (exn_eqb e E); [exact Ha | apply keeps_raise].
Qed.

Lemma keeps_try_finally {A} (body : M d A) fin :
  keeps P body -> keeps P fin -> keeps P (try_finally body fin).
Proof.
  intros Hb Hf s H. specialize (Hb s H). unfold try_finally.
  destruct (body s) as [r s1]; cbn in *. specialize (Hf s1 Hb).
  destruct (fin s1) as [[a|e] s2]; cbn in *; exact Hf.
Qed.

(** A [finally] clause that restores the invariant makes up for a body
    that breaks it. *)
Lemma keeps_try_finally_restores {A} (body : M d A) fin :
  restores P fin -> keeps P (try_finally body fin).
Proof.
  intros Hf s _. unfold try_finally.
  destruct (body s) as [r s1]. specialize (Hf s1).
  destruct (fin s1) as [[a|e] s2]; cbn in *; exact Hf.
Qed.

Lemma keeps_call {A} (f : drv_state d -> A * drv_state d) ev :
  (forall l a, P l -> P (l ++ [ev a])%list) -> keeps P (call f ev).
Proof.
  intros Hev s H. unfold call.
  destruct (f (page s)) as [a p]; cbn. apply Hev, H.
Qed.

Lemma keeps_call_or_raise {A} (f : drv_state d -> option A * drv_state d)
    ev e :
  (forall l r, P l -> P (l ++ [ev r])%list) ->
  keeps P (call_or_raise f ev e).
Proof.
  intros Hev s H. unfold call_or_raise.
  destruct (f (page s)) as [[a|] p]; cbn; apply Hev, H.
Qed.

Lemma restores_call {A} (f : drv_state d -> A * drv_state d) ev :
  (forall l a, P (l ++ [ev a])%list) -> restores P (call f ev).
Proof.
  intros Hev s. unfold call.
  destruct (f (page s)) as [a p]; cbn. apply Hev.
Qed.

End Keeps.

(** [keeps_tac side]: follow the structure of the computation; [side]
    proves that one more event keeps the invariant. *)
Ltac keeps_step side :=
  match goal with
  | |- keeps _ (ret _) => apply keeps_ret
  | |- keeps _ (raise _) => apply keeps_raise
  | |- keeps _ (lift _) => apply keeps_lift
  | |- keeps _ (date_today_strftime _ _) => apply keeps_date
  | |- keeps _ (bind _ _) => apply keeps_bind; [ | intro ]
  | |- keeps _ (suppress _ _ _) => apply keeps_suppress
  | |- keeps _ (try_except _ except_clauses) => apply keeps_except_clauses
  | |- keeps _ (try_finally _ _) =>
      first [ apply keeps_try_finally_restores; apply restores_call; side
            | apply keeps_try_finally ]
  | |- keeps _ (call _ _) => apply keeps_call; side
  | |- keeps _ (call_or_raise _ _ _) => apply keeps_call_or_raise; side
  | |- keeps _ (WebDriverWait_until _ _ _) => unfold WebDriverWait_until
  | |- keeps _ (if ?c then _ else _) => destruct c
  end.

Ltac keeps_tac side := repeat (keeps_step side).

Ltac implicit_wait_side :=
  intros; unfold implicit_wait_after in *; rewrite fold_left_app;
  cbn [fold_left]; first [assumption | reflexivity].

(** X4: the implicit wait of the session is the parser's timeout after
    construction, and a call of [parse] of any parser leaves it so on
    every way out, although [InnParser._validate_input] sets it to 0 in
    between. *)
Theorem implicit_wait_is_session_timeout :
  forall sv d u url t rq s cur,
    implicit_wait_after (log (snd (BaseParser.__init__ d url t s))) cur
      = Some t
    /\ forall self s',
         implicit_wait_after (log s') cur = Some (BaseParser.timeout self) ->
         implicit_wait_after (log (snd (parse_service sv d u self rq s'))) cur
           = Some (BaseParser.timeout self).
Proof.
  intros sv d u url t rq s cur. split.
  - unfold BaseParser.__init__, implicitly_wait, driver_get, bind, call, ret.
    cbn. unfold implicit_wait_after. rewrite !fold_left_app. reflexivity.
  - intros self.
    change (keeps (fun l => implicit_wait_after l cur
                            = Some (BaseParser.timeout self))
              (parse_service sv d u self rq)).
    destruct sv; unfold parse_service, ArbitrParser.parse, InnParser.parse,
      RomParser.parse, NpdParser.parse;
      (apply keeps_bind; [ | intro; apply keeps_ret ]);
      apply keeps_except_clauses;
      unfold_steps; keeps_tac implicit_wait_side.
Qed.

Lemma implicit_wait_witness :
  implicit_wait_after
    (log (snd (parse_service Inn (StaticPage.driver []) small_unicode
                 session30 ivanov
                 (snd (InnParser.__init__ (StaticPage.driver []) (Py.Int 30)
                         (start (StaticPage.driver [])
                                Pages.inn_field_errors)))))) None
  = Some (Py.Int 30).
Proof.
  apply (proj2 (implicit_wait_is_session_timeout Inn (StaticPage.driver [])
                  small_unicode InnParser.URL (Py.Int 30) ivanov
                  (start (StaticPage.driver []) Pages.inn_field_errors) None)
           session30).
  vm_compute. reflexivity.
Defined.

Ltac timeout_side :=
  intros; apply Forall_app; split; [assumption | ];
  constructor; [ | constructor]; cbn [timeout_ok]; try exact I; reflexivity.

(** X5: in every run of every parser, each wait is made with the timeout
    meant for it: 5 for the notification of [ArbitrParser], 2 for the
    field-format markers, 3 for the captcha dialog, whatever the session
    timeout is, and the session timeout for every other wait. *)
Theorem waits_use_their_timeouts :
  forall sv d u self rq p t c r,
    In (Euntil t c r) (log (snd (run (parse_service sv d u self rq) p))) ->
    t = expected_timeout self c.
Proof.
  intros sv d u self rq p t c r Hin.
  assert (keeps (Forall (timeout_ok self)) (parse_service sv d u self rq))
    as Hkeeps.
  { destruct sv; unfold parse_service, ArbitrParser.parse, InnParser.parse,
      RomParser.parse, NpdParser.parse;
      (apply keeps_bind; [ | intro; apply keeps_ret ]);
      apply keeps_except_clauses;
      unfold_steps; keeps_tac timeout_side. }
  specialize (Hkeeps (start d p) (Forall_nil _)).
  rewrite Forall_forall in Hkeeps.
  exact (Hkeeps _ Hin).
Qed.

Lemma waits_use_their_timeouts_witness :
  Py.Int 2
  = expected_timeout session30
      (visibility_of_element_located (CLASS_NAME, "field-errors")).
Proof.
  apply (waits_use_their_timeouts Rom (StaticPage.driver []) small_unicode
           session30 ivanov Pages.rom_field_errors (Py.Int 2)
           (visibility_of_element_located (CLASS_NAME, "field-errors"))
           (Some 3%N)).
  in_log.
Defined.

(** ** The classifier, read backwards *)

Section Classifier.
Context (u : Unicode).

(** The engine finds the leftmost position at which the pattern
    matches. *)
Lemma search_from_spec r text : forall n i,
  match Re.search_from u r text i n with
  | Some m =>
      i <= Re.m_start m <= i + n
      /\ Re.matches u r text (Re.m_start m) Some = Some (Re.m_end m)
      /\ forall j, i <= j < Re.m_start m -> Re.matches u r text j Some = None
  | None =>
      forall j, i <= j <= i + n -> Re.matches u r text j Some = None
  end.
Proof.
  induction n as [|n IH]; intros i; cbn [Re.search_from].
  - destruct (Re.matches u r text i Some) as [e|] eqn:Hm;
      cbn [Re.m_start Re.m_end].
    + repeat split; try lia. exact Hm.
    + intros j Hj. assert (j = i) as -> by lia. exact Hm.
  - destruct (Re.matches u r text i Some) as [e|] eqn:Hm;
      cbn [Re.m_start Re.m_end].
    + repeat split; try lia. exact Hm.
    + specialize (IH (S i)).
      destruct (Re.search_from u r text (S i) n) as [m|].
      * destruct IH as (Hrange & Hmatch & Hbefore).
        repeat split; try lia; [exact Hmatch | ].
        intros j Hj. destruct (Nat.eq_dec j i) as [-> | Hne];
          [exact Hm | apply Hbefore; lia].
      * intros j Hj. destruct (Nat.eq_dec j i) as [-> | Hne];
          [exact Hm | apply IH; lia].
Qed.

Lemma no_match_no_phrase text j :
  Re.matches u NpdParser.pattern text j Some = None ->
  whole_word u NpdParser.ne_yavlyaetsya text j = false
  /\ whole_word u NpdParser.yavlyaetsya text j = false.
Proof.
  rewrite matches_pattern.
  destruct (whole_word u NpdParser.ne_yavlyaetsya text j); [discriminate | ].
  destruct (whole_word u NpdParser.yavlyaetsya text j); [discriminate | ].
  split; reflexivity.
Qed.

(** The three ways the classifier can end, each with its reason. *)
Lemma analyze_result_cases text :
  (NpdParser._analyze_result u text = Return false
   /\ exists i, no_phrase_before u text i
                /\ whole_word u NpdParser.ne_yavlyaetsya text i = true)
  \/ (NpdParser._analyze_result u text = Return true
      /\ exists i, no_phrase_before u text i
                   /\ whole_word u NpdParser.ne_yavlyaetsya text i = false
                   /\ whole_word u NpdParser.yavlyaetsya text i = true)
  \/ (NpdParser._analyze_result u text = Raise ServiceUnavailableError
      /\ forall i, whole_word u NpdParser.ne_yavlyaetsya text i = false
                   /\ whole_word u NpdParser.yavlyaetsya text i = false).
Proof.
  unfold NpdParser._analyze_result, Re.search.
  pose proof (search_from_spec NpdParser.pattern text (List.length text) 0)
    as Hspec.
  destruct (Re.search_from u NpdParser.pattern text 0 (List.length text))
    as [[i e]|]; cbn [Re.m_start Re.m_end] in Hspec.
  - destruct Hspec as (_ & Hmatch & Hbefore).
    assert (no_phrase_before u text i) as Hno
      by (intros j Hj; apply no_match_no_phrase, Hbefore; lia).
    rewrite matches_pattern in Hmatch.
    destruct (whole_word u NpdParser.ne_yavlyaetsya text i) eqn:Hne.
    + left.
      assert (e = i + List.length NpdParser.ne_yavlyaetsya) as ->
        by congruence.
      rewrite (group_of_occurrence _ _ _ (whole_word_occurs u _ _ _ Hne)).
      split; [reflexivity | exists i; auto].
    + destruct (whole_word u NpdParser.yavlyaetsya text i) eqn:Hya;
        [ | discriminate].
      right. left.
      assert (e = i + List.length NpdParser.yavlyaetsya) as ->
        by congruence.
      rewrite (group_of_occurrence _ _ _ (whole_word_occurs u _ _ _ Hya)).
      split; [reflexivity | exists i; auto].
  - right. right. split; [reflexivity | ].
    intros i. destruct (Nat.le_gt_cases i (List.length text)) as [Hle | Hgt].
    + apply no_match_no_phrase, Hspec. lia.
    + split; apply whole_word_out_of_range; try discriminate; lia.
Qed.

End Classifier.

(** X6: what an answer of [_analyze_result] tells about the text.  [False]
    is returned only when the leftmost whole-word phrase of the text is
    "ne yavlyaetsya", [True] only when it is "yavlyaetsya" not preceded by
    "ne", and the only error raised is [ServiceUnavailableError], which
    means that neither phrase stands anywhere in the text as a whole
    word. *)
Theorem analyze_result_answer_has_reason :
  forall u text,
    (NpdParser._analyze_result u text = Return false ->
     exists i, no_phrase_before u text i
               /\ whole_word u NpdParser.ne_yavlyaetsya text i = true)
    /\ (NpdParser._analyze_result u text = Return true ->
        exists i, no_phrase_before u text i
                  /\ whole_word u NpdParser.ne_yavlyaetsya text i = false
                  /\ whole_word u NpdParser.yavlyaetsya text i = true)
    /\ (forall e,
          NpdParser._analyze_result u text = Raise e ->
          e = ServiceUnavailableError
          /\ forall i, whole_word u NpdParser.ne_yavlyaetsya text i = false
                       /\ whole_word u NpdParser.yavlyaetsya text i = false).
Proof.
  intros u text.
  destruct (analyze_result_cases u text)
    as [[Hr H] | [[Hr H] | [Hr H]]]; rewrite Hr;
    (split; [ | split]);
    try (intros; discriminate); try (intros _; exact H).
  intros e He. injection He as <-. split; [reflexivity | exact H].
Qed.

Lemma analyze_result_answer_witness :
  exists i, no_phrase_before small_unicode text_both i
            /\ whole_word small_unicode NpdParser.ne_yavlyaetsya text_both i
               = false
            /\ whole_word small_unicode NpdParser.yavlyaetsya text_both i
               = true.
Proof.
  apply (proj1 (proj2 (analyze_result_answer_has_reason small_unicode
                         text_both))).
  vm_compute. reflexivity.
Defined.

(** ** Running a parser against an arbitrary driver, call by call *)

Ltac explore_step :=
  match goal with
  | |- context [drv_until ?d ?t ?c ?st] =>
      destruct (drv_until d t c st) as [[?|] ?]
  | |- context [drv_find_element ?d ?l ?st] =>
      destruct (drv_find_element d l st) as [[?|] ?]
  | |- context [drv_is_displayed ?d ?e ?st] =>
      destruct (drv_is_displayed d e st) as [[|] ?]
  | |- context [drv_text ?d ?e ?st] =>
      destruct (drv_text d e st) as [? ?]
  end; sym_reduce.

Ltac explore := unfold_steps; sym_reduce; repeat explore_step.

(** The last two, or four, events of a log written call by call. *)
Ltac last_two := rewrite <- app_assoc; cbn [app]; repeat eexists.
Ltac last_four := do 3 rewrite <- app_assoc; cbn [app]; repeat eexists.

Section MonadInversion.
Context {d : Driver}.

Lemma bind_returns {A B} (m : M d A) (k : A -> M d B) s b s2 :
  bind m k s = (Return b, s2) ->
  exists a s1, m s = (Return a, s1) /\ k a s1 = (Return b, s2).
Proof.
  unfold bind. destruct (m s) as [[a|e] s1]; [ | discriminate].
  intros H. exists a, s1. auto.
Qed.

(** The [except] clauses only raise: when [parse] returns, its [try]
    block has returned. *)
Lemma try_block_returns {A} (body : M d A) s a s1 :
  try_except body except_clauses s = (Return a, s1) ->
  body s = (Return a, s1).
Proof.
  unfold try_except. destruct (body s) as [[a'|e] s']; [auto | ].
  destruct e; discriminate.
Qed.

End MonadInversion.

Lemma arbitr_check_result_evidence d u self s b s' :
  ArbitrParser._check_result d self s = (Return b, s') ->
  evidence Arbitr u self (Found b) (log s').
Proof.
  revert b s'. destruct s as [p0 l0].
  explore; intros b s' H; inversion H; subst; cbn [evidence log]; last_two.
Qed.

Lemma rom_check_result_evidence d u self s b s' :
  RomParser._check_result d self s = (Return b, s') ->
  evidence Rom u self (Found b) (log s').
Proof.
  revert b s'. destruct s as [p0 l0].
  explore; intros b s' H; inversion H; subst; cbn [evidence log]; last_two.
Qed.

Lemma inn_parse_result_evidence d u self s v s' :
  InnParser._parse_result d self s = (Return v, s') ->
  evidence Inn u self (Value v) (log s').
Proof.
  revert v s'. destruct s as [p0 l0].
  explore; intros v' s' H; inversion H; subst; cbn [evidence log]; last_four.
Qed.

Lemma npd_result_text_evidence d u self s txt s' :
  NpdParser._get_result_text d u self s = (Return txt, s') ->
  exists l0 e t,
    log s' = (l0 ++ [ Euntil (BaseParser.timeout self) NpdParser.result_marker
                        (Some e);
                      Etext e t ])%list
    /\ txt = strip u t.
Proof.
  revert txt s'. destruct s as [p0 l0].
  explore; intros txt s' H; inversion H; subst; cbn [log].
  rewrite <- app_assoc; cbn [app]. repeat eexists.
Qed.

Ltac split_bind H :=
  let a := fresh "a" in
  let s := fresh "s" in
  let H1 := fresh "Hstep" in
  apply bind_returns in H; destruct H as (a & s & H1 & H).

(** X7: a result that [parse] returns rests on what the session answered
    last.  [ArbitrParser] and [RomParser] return [True] (or [False]) only
    right after the results (or no-results) marker was found and seen
    displayed; [InnParser] returns a value only right after [result_1] was
    seen displayed, and the value is the text read from [resultInn];
    [NpdParser] returns the classification of the stripped text of the
    result element it has just waited for. *)
Theorem answer_rests_on_evidence :
  forall sv d u self rq s res s',
    parse_service sv d u self rq s = (Return res, s') ->
    evidence sv u self res (log s').
Proof.
  intros sv d u self rq s res s' H.
  destruct sv; unfold parse_service in H; split_bind H;
    unfold ret in H; inversion H; subst; clear H;
    apply try_block_returns in Hstep.
  - do 3 split_bind Hstep. split_bind Hstep.
    unfold ret in Hstep. inversion Hstep; subst.
    match goal with H : _ = (Return _, s') |- _ =>
      exact (arbitr_check_result_evidence _ _ _ _ _ _ H) end.
  - do 4 split_bind Hstep.
    match goal with H : _ = (Return _, s') |- _ =>
      exact (inn_parse_result_evidence _ _ _ _ _ _ H) end.
  - do 3 split_bind Hstep. split_bind Hstep.
    unfold ret in Hstep. inversion Hstep; subst.
    match goal with H : _ = (Return _, s') |- _ =>
      exact (rom_check_result_evidence _ _ _ _ _ _ H) end.
  - do 4 split_bind Hstep. split_bind Hstep.
    unfold lift in Hstep. inversion Hstep; subst.
    match goal with
    | H : NpdParser._get_result_text _ _ _ _ = _ |- _ =>
        apply npd_result_text_evidence in H;
        destruct H as (l0 & e & t & Hlog & ->)
    end.
    cbn [evidence]. exists l0, e, t. split; [exact Hlog | assumption].
Qed.

Lemma answer_rests_on_evidence_witness :
  evidence Inn small_unicode session30 (Value digits12)
    (log (snd (parse_service Inn (StaticPage.driver []) small_unicode
                 session30 ivanov
                 (start (StaticPage.driver []) Pages.inn_success)))).
Proof.
  apply (answer_rests_on_evidence Inn (StaticPage.driver []) small_unicode
           session30 ivanov
           (start (StaticPage.driver []) Pages.inn_success)
           (Value digits12)
           (snd (parse_service Inn (StaticPage.driver []) small_unicode
                   session30 ivanov
                   (start (StaticPage.driver []) Pages.inn_success)))).
  vm_compute. reflexivity.
Defined.

(** ** What an error rests on *)

Ltac explore_classifier :=
  match goal with
  | |- context [NpdParser._analyze_result ?u ?t] =>
      let Hc := fresh "Hclassifier" in
      destruct (analyze_result_cases u t)
        as [[Hc _] | [[Hc _] | [Hc _]]];
      rewrite Hc
  end; sym_reduce.

Ltac on_every_run tac :=
  unfold run, start, ArbitrParser.parse, InnParser.parse, RomParser.parse,
    NpdParser.parse;
  explore; try explore_classifier; tac.

(** At the end of a run: the checks on its log are computed, the
    elements of the log being unknown. *)
Ltac cause_leaf :=
  first
    [ reflexivity
    | unfold cause, ended_by_tests, ended_without_value, ended_by_timeout,
        ended_by_unknown_text, tests_answered, helper_answered,
        result_wait_found;
      cbn [rev app fold_right fst snd];
      try match goal with Hc : _ = Raise _ |- _ => rewrite Hc end;
      repeat first [ rewrite N.eqb_refl
                   | progress cbn -[N.eqb NpdParser._analyze_result] ];
      reflexivity ].

Lemma parse_service_outcome sv d u self rq p e :
  fst (run (parse_service sv d u self rq) p) = Raise e ->
  match sv with
  | Arbitr => fst (run (ArbitrParser.parse d self (inn rq)) p) = Raise e
  | Inn => fst (run (InnParser.parse d self (surname rq) (name rq)
                       (lastname rq) (birthdate rq) (passport rq)) p) = Raise e
  | Rom => fst (run (RomParser.parse d self (inn rq)) p) = Raise e
  | Npd => fst (run (NpdParser.parse d u self (inn rq)) p) = Raise e
  end.
Proof.
  destruct sv; unfold run, parse_service, bind;
    match goal with
    | |- context [match ?m ?s with _ => _ end] => destruct (m s) as [[a|e'] s1]
    end; cbn; congruence.
Qed.

(** Every run of every parser, explored call by call: the phases come in
    order, and an error has its cause in the log. *)
Lemma every_run_in_order_with_cause sv d u self rq p :
  phases_in_order sv (log (snd (run (parse_service sv d u self rq) p))) = true
  /\ forall e,
       fst (run (parse_service sv d u self rq) p) = Raise e ->
       cause sv u e (log (snd (run (parse_service sv d u self rq) p))) = true.
Proof.
  assert (forall e,
            fst (run (parse_service sv d u self rq) p) = Raise e ->
            match sv with
            | Arbitr =>
                fst (run (ArbitrParser.parse d self (inn rq)) p) = Raise e
            | Inn =>
                fst (run (InnParser.parse d self (surname rq) (name rq)
                            (lastname rq) (birthdate rq) (passport rq)) p)
                = Raise e
            | Rom => fst (run (RomParser.parse d self (inn rq)) p) = Raise e
            | Npd => fst (run (NpdParser.parse d u self (inn rq)) p) = Raise e
            end) as Hout
    by (intro e; apply parse_service_outcome).
  rewrite parse_service_log.
  destruct sv.
  all: split; [ | intros e He; apply Hout in He; revert e He ].
  all: on_every_run ltac:(
         try (intros e H; inversion H; subst); cause_leaf).
Qed.

(** X8: every error [parse] raises has its cause in the calls of the run
    (the runs of the model: only lookups and waits raise).
    [FieldFormatError] and [ServiceCaptchaError] are raised only when the
    validation wait for their marker found it.  The errors of the result
    phase are raised only when the wait for the terminal markers had found
    a marker and the run then ended with the tests of the markers, in the
    order of the code, each lookup followed by [is_displayed] on the
    element it found: [InnNotFoundError] when [result_0] was displayed;
    [DataVerificationError] when [result_0] and [result_1] were not
    displayed (or not found) and [result_3] was; [ServiceUnavailableError]
    of [InnParser] when only [result_err] was; [UndefinedError] when no
    marker of the parser was displayed or found, or, in [InnParser], when
    [result_0] was not displayed, [result_1] was, and the lookup of
    [resultInn] found nothing.  Otherwise [ServiceUnavailableError] is
    raised only when the last call of the run is a required wait or the
    result wait and it timed out, or, in [NpdParser], when the last calls
    are the result wait and the reading of a text that the classifier
    rejects. *)
Theorem every_error_has_its_cause :
  forall sv d u self rq p e,
    fst (run (parse_service sv d u self rq) p) = Raise e ->
    cause sv u e (log (snd (run (parse_service sv d u self rq) p))) = true.
Proof.
  intros sv d u self rq p e.
  apply (proj2 (every_run_in_order_with_cause sv d u self rq p)).
Qed.

Lemma every_error_has_its_cause_witness :
  cause Rom small_unicode UndefinedError
    (log (snd (run (parse_service Rom ScriptedWaits.driver small_unicode
                      session30 ivanov)
                 [Some 1%N; Some 2%N; None; Some 3%N]))) = true
  /\ cause Inn small_unicode UndefinedError
    (log (snd (run (parse_service Inn (StaticPage.driver []) small_unicode
                      session30 ivanov)
                 MorePages.inn_success_without_value))) = true
  /\ cause Inn small_unicode DataVerificationError
    (log (snd (run (parse_service Inn (StaticPage.driver []) small_unicode
                      session30 ivanov)
                 MorePages.inn_verification_error))) = true
  /\ cause Npd small_unicode ServiceUnavailableError
    (log (snd (run (parse_service Npd (StaticPage.driver []) small_unicode
                      session30 ivanov)
                 (Pages.npd_page text_unknown)))) = true
  /\ cause Arbitr small_unicode ServiceUnavailableError
    (log (snd (run (parse_service Arbitr (StaticPage.driver []) small_unicode
                      session30 ivanov)
                 Pages.arbitr_no_button))) = true.
Proof.
  split; [ | split; [ | split; [ | split ] ] ].
  - apply (every_error_has_its_cause Rom ScriptedWaits.driver small_unicode
             session30 ivanov [Some 1%N; Some 2%N; None; Some 3%N]
             UndefinedError).
    vm_compute. reflexivity.
  - apply (every_error_has_its_cause Inn (StaticPage.driver []) small_unicode
             session30 ivanov MorePages.inn_success_without_value
             UndefinedError).
    vm_compute. reflexivity.
  - apply (every_error_has_its_cause Inn (StaticPage.driver []) small_unicode
             session30 ivanov MorePages.inn_verification_error
             DataVerificationError).
    vm_compute. reflexivity.
  - apply (every_error_has_its_cause Npd (StaticPage.driver []) small_unicode
             session30 ivanov (Pages.npd_page text_unknown)
             ServiceUnavailableError).
    vm_compute. reflexivity.
  - apply (every_error_has_its_cause Arbitr (StaticPage.driver [])
             small_unicode session30 ivanov Pages.arbitr_no_button
             ServiceUnavailableError).
    vm_compute. reflexivity.
Defined.

(** ** The order of the phases *)

Lemma locator_eqb_eq a b : locator_eqb a b = true -> a = b.
Proof.
  destruct a as [x s], b as [y s']. unfold locator_eqb. cbn [fst snd].
  intros H. apply andb_prop in H. destruct H as [H1 H2].
  apply String.eqb_eq in H2. subst.
  destruct x, y; try discriminate; reflexivity.
Qed.

Lemma condition_eqb_eq : forall a b, condition_eqb a b = true -> a = b.
Proof.
  fix IH 1.
  intros [l|l|cs] [l'|l'|cs']; cbn [condition_eqb]; try discriminate.
  - intros H. apply locator_eqb_eq in H. congruence.
  - intros H. apply locator_eqb_eq in H. congruence.
  - intros H. f_equal. revert cs' H.
    induction cs as [|x xs IHxs]; intros [|y ys] H; try discriminate.
    + reflexivity.
    + apply andb_prop in H. destruct H as [H1 H2].
      f_equal; [apply IH, H1 | apply IHxs, H2].
Qed.

Lemma succeeded_event c l :
  existsb (succeeded [c]) l = true ->
  exists t e, In (Euntil t c (Some e)) l.
Proof.
  intros H. apply existsb_exists in H. destruct H as (ev & Hin & Hev).
  destruct ev; try discriminate. cbn [succeeded existsb] in Hev.
  rewrite orb_false_r in Hev. apply andb_prop in Hev. destruct Hev as [Hc Hr].
  apply condition_eqb_eq in Hc. subst c0.
  destruct r; [ | discriminate]. eauto.
Qed.

Lemma timed_out_event c l :
  existsb (timed_out [c]) l = true -> exists t, In (Euntil t c None) l.
Proof.
  intros H. apply existsb_exists in H. destruct H as (ev & Hin & Hev).
  destruct ev; try discriminate. cbn [timed_out existsb] in Hev.
  rewrite orb_false_r in Hev. apply andb_prop in Hev. destruct Hev as [Hc Hr].
  apply condition_eqb_eq in Hc. subst c0.
  destruct r; [discriminate | ]. eauto.
Qed.

(** X9: in every run of every parser, the wait for the terminal markers
    is made only after every required wait has found its element and
    every wait of the validation phase (field-format markers, and the
    captcha dialog in [InnParser]) has timed out. *)
Theorem result_wait_follows_steps_and_validation :
  forall sv d u self rq p t r,
    In (Euntil t (result_wait sv) r)
       (log (snd (run (parse_service sv d u self rq) p))) ->
    (forall c, In c (required_waits sv) ->
               exists t' e,
                 In (Euntil t' c (Some e))
                    (log (snd (run (parse_service sv d u self rq) p))))
    /\ (forall c, In c (time_boxed_waits sv) ->
                  exists t',
                    In (Euntil t' c None)
                       (log (snd (run (parse_service sv d u self rq) p)))).
Proof.
  intros sv d u self rq p t r Hin.
  pose proof (proj1 (every_run_in_order_with_cause sv d u self rq p)) as H.
  unfold phases_in_order in H.
  assert (existsb (waited [result_wait sv])
            (log (snd (run (parse_service sv d u self rq) p))) = true) as Hw.
  { apply existsb_of_In with (1 := Hin).
    cbn [waited existsb]. rewrite orb_false_r. destruct sv; reflexivity. }
  rewrite Hw in H. apply andb_prop in H. destruct H as [Hreq Hval].
  rewrite forallb_forall in Hreq, Hval.
  split; intros c Hc.
  - apply succeeded_event, Hreq, Hc.
  - apply timed_out_event, Hval, Hc.
Qed.

Lemma result_wait_follows_witness :
  exists t',
    In (Euntil t' (visibility_of_element_located (CLASS_NAME, "field-errors"))
          None)
       (log (snd (run (parse_service Rom (StaticPage.driver []) small_unicode
                         session30 ivanov) MorePages.rom_data))).
Proof.
  refine (proj2 (result_wait_follows_steps_and_validation Rom
                   (StaticPage.driver []) small_unicode session30 ivanov
                   MorePages.rom_data (Py.Int 30) (Some 5%N) _) _ _).
  - in_log.
  - cbn [time_boxed_waits validation_wait In]. left. reflexivity.
Defined.

(** ** Optional steps *)

(** X10: a missing optional element does not fail a run.  When the
    notification of kad.arbitr.ru does not become clickable within its 5
    seconds, [ArbitrParser._close_notification] returns having made no
    other call.  When the lookup of [InnParser._find_and_click] finds
    nothing, it returns [False] having made no other call, and it returns
    [True] when the lookup finds the element and the click script on it
    returns.  So [_bypass_personal_data_block] returns without looking for
    the button [btnContinue] when the checkbox [unichk_0] is missing, and
    [_submit_form] returns, without having submitted anything, when the
    button [btn_send] is missing. *)
Theorem missing_optional_elements_do_not_fail :
  forall d self s p,
    (drv_until d (Py.Int 5)
       (element_to_be_clickable
          (XPATH, xpath_id "js" "/div[13]/div[2]/div/div/div/div/a[1]"))
       (page s) = (None, p) ->
     ArbitrParser._close_notification d self s
     = (Return tt,
        after_call s
          (Euntil (Py.Int 5)
             (element_to_be_clickable
                (XPATH, xpath_id "js" "/div[13]/div[2]/div/div/div/div/a[1]"))
             None) p))
    /\ (forall by_ locator,
          drv_find_element d (by_, locator) (page s) = (None, p) ->
          InnParser._find_and_click d by_ locator s
          = (Return false,
             after_call s (Efind_element (by_, locator) None) p))
    /\ (forall by_ locator element s',
          drv_find_element d (by_, locator) (page s) = (Some element, p) ->
          execute_script d "arguments[0].click()" [JElement element]
            (after_call s (Efind_element (by_, locator) (Some element)) p)
          = (Return tt, s') ->
          InnParser._find_and_click d by_ locator s = (Return true, s'))
    /\ (drv_find_element d (XPATH, xpath_id "unichk_0" "") (page s)
         = (None, p) ->
        InnParser._bypass_personal_data_block d s
        = (Return tt,
           after_call s
             (Efind_element (XPATH, xpath_id "unichk_0" "") None) p))
    /\ (drv_find_element d (XPATH, xpath_id "btn_send" "") (page s)
         = (None, p) ->
        InnParser._submit_form d s
        = (Return tt,
           after_call s
             (Efind_element (XPATH, xpath_id "btn_send" "") None) p)).
Proof.
  intros d self [p0 l0] p. cbn [page].
  repeat split.
  - intros H. unfold ArbitrParser._close_notification,
      BaseParser.wait_for_element_clickable, after_call.
    sym_reduce. rewrite H. reflexivity.
  - intros by_ locator H. unfold InnParser._find_and_click, after_call.
    sym_reduce. rewrite H. reflexivity.
  - intros by_ locator element s' H Hscript.
    unfold InnParser._find_and_click, after_call in *.
    unfold suppress, try_except, bind, find_element, call_or_raise.
    cbn [page log] in *. rewrite H, Hscript. reflexivity.
  - intros H. unfold InnParser._bypass_personal_data_block,
      InnParser._find_and_click, after_call.
    sym_reduce. rewrite H. reflexivity.
  - intros H. unfold InnParser._submit_form, InnParser._find_and_click,
      after_call.
    sym_reduce. rewrite H. reflexivity.
Qed.

Lemma missing_optional_elements_witness :
  fst (ArbitrParser._close_notification (StaticPage.driver []) session30
         (start (StaticPage.driver []) Pages.arbitr_form)) = Return tt
  /\ fst (InnParser._find_and_click (StaticPage.driver []) XPATH
            (xpath_id "unichk_0" "")
            (start (StaticPage.driver []) Pages.inn_form)) = Return false
  /\ fst (InnParser._find_and_click (StaticPage.driver []) XPATH
            (xpath_id "btn_send" "")
            (start (StaticPage.driver []) Pages.inn_form)) = Return true
  /\ fst (InnParser._bypass_personal_data_block (StaticPage.driver [])
            (start (StaticPage.driver []) Pages.inn_form)) = Return tt
  /\ InnParser._submit_form (StaticPage.driver [])
       (start (StaticPage.driver []) Pages.rom_form)
     = (Return tt,
        after_call (start (StaticPage.driver []) Pages.rom_form)
          (Efind_element (XPATH, xpath_id "btn_send" "") None)
          Pages.rom_form).
Proof.
  set (d := StaticPage.driver []).
  split; [ | split; [ | split; [ | split ] ] ].
  - rewrite (proj1 (missing_optional_elements_do_not_fail d session30
                      (start d Pages.arbitr_form) Pages.arbitr_form)
               eq_refl).
    reflexivity.
  - rewrite (proj1 (proj2 (missing_optional_elements_do_not_fail d session30
                             (start d Pages.inn_form) Pages.inn_form))
               XPATH (xpath_id "unichk_0" "") eq_refl).
    reflexivity.
  - rewrite (proj1 (proj2 (proj2
               (missing_optional_elements_do_not_fail d session30
                  (start d Pages.inn_form) Pages.inn_form)))
               XPATH (xpath_id "btn_send" "") 6%N
               (snd (InnParser._find_and_click d XPATH
                       (xpath_id "btn_send" "") (start d Pages.inn_form)))
               eq_refl eq_refl).
    reflexivity.
  - rewrite (proj1 (proj2 (proj2 (proj2
               (missing_optional_elements_do_not_fail d session30
                  (start d Pages.inn_form) Pages.inn_form))))
               eq_refl).
    reflexivity.
  - apply (proj2 (proj2 (proj2 (proj2
             (missing_optional_elements_do_not_fail d session30
                (start d Pages.rom_form) Pages.rom_form))))).
    reflexivity.
Defined.

(** ** Classification in [RomParser] and [NpdParser] *)

(** X11: in [RomParser], once the Steps have completed, the validation
    wait has timed out and the result wait has completed, [parse] returns
    [False] when the no-data panel is displayed, [True] when it is not and
    the data panel is, and raises [UndefinedError] when neither is
    displayed.  The no-data panel is tested first, although the result
    wait names the data panel first. *)
Theorem rom_parse_classifies_markers :
  forall d self inn s s1 s2 s3 s4,
    RomParser._input_inn d self inn s = (Return tt, s1) ->
    RomParser._submit_search d self s1 = (Return tt, s2) ->
    RomParser._check_entry_validation d self s2 = (Return tt, s3) ->
    RomParser._wait_for_result_display d self s3 = (Return tt, s4) ->
    (forall s5,
       RomParser._is_element_displayed d ID "pnlNoData" s4
         = (Return true, s5) ->
       RomParser.parse d self inn s = (Return false, s5))
    /\ (forall s5 s6,
          RomParser._is_element_displayed d ID "pnlNoData" s4
            = (Return false, s5) ->
          RomParser._is_element_displayed d ID "pnlData" s5
            = (Return true, s6) ->
          RomParser.parse d self inn s = (Return true, s6))
    /\ (forall s5 s6,
          RomParser._is_element_displayed d ID "pnlNoData" s4
            = (Return false, s5) ->
          RomParser._is_element_displayed d ID "pnlData" s5
            = (Return false, s6) ->
          RomParser.parse d self inn s = (Raise UndefinedError, s6)).
Proof.
  intros d self inn s s1 s2 s3 s4 H1 H2 H3 H4.
  unfold RomParser.parse, RomParser._check_result, try_except, bind.
  repeat split; intros; run_steps; reflexivity.
Qed.

Lemma rom_parse_classifies_markers_witness :
  fst (RomParser.parse (StaticPage.driver []) session30 (inn ivanov)
         (start (StaticPage.driver []) MorePages.rom_no_data))
  = Return false
  /\ fst (RomParser.parse (StaticPage.driver []) session30 (inn ivanov)
            (start (StaticPage.driver []) MorePages.rom_data))
     = Return true
  /\ fst (RomParser.parse ScriptedWaits.driver session30 (inn ivanov)
            (start ScriptedWaits.driver [Some 1; Some 2; None; Some 3]%N))
     = Raise UndefinedError.
Proof.
  split; [ | split].
  - set (d := StaticPage.driver []).
    set (s := start d MorePages.rom_no_data).
    set (s1 := snd (RomParser._input_inn d session30 (inn ivanov) s)).
    set (s2 := snd (RomParser._submit_search d session30 s1)).
    set (s3 := snd (RomParser._check_entry_validation d session30 s2)).
    set (s4 := snd (RomParser._wait_for_result_display d session30 s3)).
    set (s5 := snd (RomParser._is_element_displayed d ID "pnlNoData" s4)).
    rewrite (proj1 (rom_parse_classifies_markers d session30 (inn ivanov)
                      s s1 s2 s3 s4 eq_refl eq_refl eq_refl eq_refl) s5);
      reflexivity.
  - set (d := StaticPage.driver []).
    set (s := start d MorePages.rom_data).
    set (s1 := snd (RomParser._input_inn d session30 (inn ivanov) s)).
    set (s2 := snd (RomParser._submit_search d session30 s1)).
    set (s3 := snd (RomParser._check_entry_validation d session30 s2)).
    set (s4 := snd (RomParser._wait_for_result_display d session30 s3)).
    set (s5 := snd (RomParser._is_element_displayed d ID "pnlNoData" s4)).
    set (s6 := snd (RomParser._is_element_displayed d ID "pnlData" s5)).
    rewrite (proj1 (proj2 (rom_parse_classifies_markers d session30
                             (inn ivanov) s s1 s2 s3 s4
                             eq_refl eq_refl eq_refl eq_refl)) s5 s6);
      reflexivity.
  - set (d := ScriptedWaits.driver).
    set (s := start d [Some 1; Some 2; None; Some 3]%N).
    set (s1 := snd (RomParser._input_inn d session30 (inn ivanov) s)).
    set (s2 := snd (RomParser._submit_search d session30 s1)).
    set (s3 := snd (RomParser._check_entry_validation d session30 s2)).
    set (s4 := snd (RomParser._wait_for_result_display d session30 s3)).
    set (s5 := snd (RomParser._is_element_displayed d ID "pnlNoData" s4)).
    set (s6 := snd (RomParser._is_element_displayed d ID "pnlData" s5)).
    rewrite (proj2 (proj2 (rom_parse_classifies_markers d session30
                             (inn ivanov) s s1 s2 s3 s4
                             eq_refl eq_refl eq_refl eq_refl)) s5 s6);
      reflexivity.
Defined.

(** X12: in [NpdParser], once the three Steps have completed and the
    validation wait has timed out, when the result element appears and its
    text reads [t], [parse] ends as the classifier ends on [t] stripped of
    surrounding blanks: with its boolean, or with its
    [ServiceUnavailableError], which the [except] clauses leave as it
    is. *)
Theorem npd_parse_classifies_stripped_text :
  forall d u self inn s s1 s2 s3 s4 s5 s6 element t,
    NpdParser._fill_inn_field d self inn s = (Return tt, s1) ->
    NpdParser._fill_date_field d self s1 = (Return tt, s2) ->
    NpdParser._submit_form d self s2 = (Return tt, s3) ->
    NpdParser._check_entry_validation d s3 = (Return tt, s4) ->
    WebDriverWait_until d (BaseParser.timeout self) NpdParser.result_marker s4
      = (Return element, s5) ->
    text d element s5 = (Return t, s6) ->
    NpdParser.parse d u self inn s
      = (NpdParser._analyze_result u (strip u t), s6).
Proof.
  intros d u self inn s s1 s2 s3 s4 s5 s6 element t H1 H2 H3 H4 H5 H6.
  unfold NpdParser.parse, NpdParser._get_result_text, try_except, bind, lift,
    ret.
  run_steps.
  destruct (analyze_result_cases u (strip u t))
    as [[-> _] | [[-> _] | [-> _]]]; reflexivity.
Qed.

Lemma npd_parse_classifies_witness :
  NpdParser.parse (StaticPage.driver []) small_unicode session30 (inn ivanov)
    (start (StaticPage.driver [])
       (Pages.npd_page text_padded))
  = (Return false,
     snd (NpdParser.parse (StaticPage.driver []) small_unicode session30
            (inn ivanov)
            (start (StaticPage.driver [])
               (Pages.npd_page text_padded)))).
Proof.
  set (d := StaticPage.driver []).
  set (s := start d (Pages.npd_page text_padded)).
  set (s1 := snd (NpdParser._fill_inn_field d session30 (inn ivanov) s)).
  set (s2 := snd (NpdParser._fill_date_field d session30 s1)).
  set (s3 := snd (NpdParser._submit_form d session30 s2)).
  set (s4 := snd (NpdParser._check_entry_validation d s3)).
  set (s5 := snd (WebDriverWait_until d (Py.Int 30) NpdParser.result_marker
                    s4)).
  set (s6 := snd (text d 4%N s5)).
  rewrite (npd_parse_classifies_stripped_text d small_unicode session30
             (inn ivanov) s s1 s2 s3 s4 s5 s6 4%N text_padded
             eq_refl eq_refl eq_refl eq_refl eq_refl eq_refl).
  reflexivity.
Defined.

(** ** Stripping the result text *)

Section Strip.
Context (u : Unicode).
Local Open Scope list_scope.

(** The outcome of the classifier, from the leftmost phrase. *)
Lemma analyze_result_by_phrase text :
  ((forall i, whole_word u NpdParser.ne_yavlyaetsya text i = false
              /\ whole_word u NpdParser.yavlyaetsya text i = false) ->
   NpdParser._analyze_result u text = Raise ServiceUnavailableError)
  /\ (forall i,
        no_phrase_before u text i ->
        whole_word u NpdParser.ne_yavlyaetsya text i = true ->
        NpdParser._analyze_result u text = Return false)
  /\ (forall i,
        no_phrase_before u text i ->
        whole_word u NpdParser.ne_yavlyaetsya text i = false ->
        whole_word u NpdParser.yavlyaetsya text i = true ->
        NpdParser._analyze_result u text = Return true).
Proof.
  assert (forall i k,
            no_phrase_before u text i -> no_phrase_before u text k ->
            (whole_word u NpdParser.ne_yavlyaetsya text i = true
             \/ whole_word u NpdParser.yavlyaetsya text i = true) ->
            (whole_word u NpdParser.ne_yavlyaetsya text k = true
             \/ whole_word u NpdParser.yavlyaetsya text k = true) ->
            i = k) as Hsame.
  { intros i k Hi Hk Hwi Hwk.
    destruct (Nat.lt_trichotomy i k) as [Hlt | [Heq | Hgt]]; [ | exact Heq | ].
    - destruct (Hk i Hlt) as [H1 H2]. destruct Hwi; congruence.
    - destruct (Hi k Hgt) as [H1 H2]. destruct Hwk; congruence. }
  destruct (analyze_result_cases u text)
    as [[Hr (k & Hk & Hw)] | [[Hr (k & Hk & Hkn & Hw)] | [Hr Hnone]]];
    rewrite Hr; (split; [ | split]).
  - intros H. destruct (H k) as [H1 _]. congruence.
  - reflexivity.
  - intros i Hi Hin Hiy. exfalso.
    assert (i = k) by (apply Hsame; auto). subst i. congruence.
  - intros H. destruct (H k) as [_ H2]. congruence.
  - intros i Hi Hin. exfalso.
    assert (i = k) by (apply Hsame; auto). subst i. congruence.
  - reflexivity.
  - reflexivity.
  - intros i _ H. destruct (Hnone i) as [H1 _]. congruence.
  - intros i _ _ H. destruct (Hnone i) as [_ H2]. congruence.
Qed.

(** Two texts whose whole-word occurrences correspond, [k] positions
    apart, are classified alike. *)
Lemma analyze_result_shift text text' k :
  (forall s i, s = NpdParser.ne_yavlyaetsya \/ s = NpdParser.yavlyaetsya ->
               whole_word u s text' (k + i) = whole_word u s text i) ->
  (forall s j, s = NpdParser.ne_yavlyaetsya \/ s = NpdParser.yavlyaetsya ->
               j < k -> whole_word u s text' j = false) ->
  NpdParser._analyze_result u text' = NpdParser._analyze_result u text.
Proof.
  intros Hshift Hlow.
  assert (forall i, no_phrase_before u text i ->
                    no_phrase_before u text' (k + i)) as Hbefore.
  { intros i Hi j Hj. destruct (Nat.lt_ge_cases j k) as [Hlt | Hge].
    - split; apply Hlow; auto.
    - replace j with (k + (j - k)) by lia.
      rewrite !Hshift by auto. apply Hi. lia. }
  destruct (analyze_result_by_phrase text') as (Hnone' & Hfalse' & Htrue').
  destruct (analyze_result_cases u text)
    as [[Hr (i & Hi & Hw)] | [[Hr (i & Hi & Hn & Hw)] | [Hr Hnone]]];
    rewrite Hr.
  - apply (Hfalse' (k + i)); [apply Hbefore, Hi | ].
    rewrite Hshift by auto. exact Hw.
  - apply (Htrue' (k + i)); [apply Hbefore, Hi | | ];
      rewrite Hshift by auto; assumption.
  - apply Hnone'. intros j. destruct (Nat.lt_ge_cases j k) as [Hlt | Hge].
    + split; apply Hlow; auto.
    + replace j with (k + (j - k)) by lia.
      rewrite !Hshift by auto. apply Hnone.
Qed.

Lemma occurs_cons s c text : forall i,
  occurs s (c :: text) (S i) = occurs s text i.
Proof.
  induction s as [|x s IH]; intros i; cbn [occurs nth_error];
    [reflexivity | ].
  destruct (nth_error text i); [rewrite IH | ]; reflexivity.
Qed.

Lemma at_boundary_cons c text i :
  Re.word_char u c = false ->
  Re.at_boundary u (c :: text) (S i) = Re.at_boundary u text i.
Proof.
  intros Hc. unfold Re.at_boundary, Re.word_at. cbn [nth_error].
  destruct i as [|j]; cbn [nth_error]; [rewrite Hc | ]; reflexivity.
Qed.

Lemma whole_word_cons s c text i :
  Re.word_char u c = false ->
  whole_word u s (c :: text) (S i) = whole_word u s text i.
Proof.
  intros Hc. unfold whole_word.
  change (S i + List.length s) with (S (i + List.length s)).
  rewrite !at_boundary_cons by exact Hc. rewrite occurs_cons. reflexivity.
Qed.

Lemma whole_word_cons_0 s c text :
  Re.word_char u c = false -> whole_word u s (c :: text) 0 = false.
Proof.
  intros Hc. unfold whole_word, Re.at_boundary, Re.word_at.
  cbn [nth_error]. rewrite Hc. reflexivity.
Qed.

(** A non-word character in front of the text changes nothing. *)
Lemma analyze_result_cons c text :
  Re.word_char u c = false ->
  NpdParser._analyze_result u (c :: text) = NpdParser._analyze_result u text.
Proof.
  intros Hc. apply (analyze_result_shift text (c :: text) 1).
  - intros s i _. apply whole_word_cons, Hc.
  - intros s j _ Hj. assert (j = 0) as -> by lia.
    apply whole_word_cons_0, Hc.
Qed.

Lemma word_at_snoc c text j :
  Re.word_char u c = false ->
  Re.word_at u (text ++ [c]) j = Re.word_at u text j.
Proof.
  intros Hc. unfold Re.word_at.
  destruct (Nat.lt_trichotomy j (List.length text)) as [Hlt | [-> | Hgt]].
  - rewrite nth_error_app1 by exact Hlt. reflexivity.
  - rewrite nth_error_app2 by lia. rewrite Nat.sub_diag. cbn [nth_error].
    rewrite Hc.
    assert (nth_error text (List.length text) = None) as ->
      by (apply nth_error_None; lia).
    reflexivity.
  - assert (nth_error (text ++ [c]) j = None) as ->
      by (apply nth_error_None; rewrite length_app; cbn; lia).
    assert (nth_error text j = None) as ->
      by (apply nth_error_None; lia).
    reflexivity.
Qed.

Lemma at_boundary_snoc c text i :
  Re.word_char u c = false ->
  Re.at_boundary u (text ++ [c]) i = Re.at_boundary u text i.
Proof.
  intros Hc. unfold Re.at_boundary.
  destruct i; rewrite ?word_at_snoc by exact Hc; reflexivity.
Qed.

Lemma occurs_snoc_mono s c text : forall i,
  occurs s text i = true -> occurs s (text ++ [c]) i = true.
Proof.
  induction s as [|x s IH]; intros i; cbn [occurs]; [reflexivity | ].
  destruct (nth_error text i) as [y|] eqn:Hn; [ | discriminate].
  rewrite nth_error_app1 by (apply nth_error_Some; congruence).
  rewrite Hn. intros H. apply andb_prop in H. destruct H as [H1 H2].
  rewrite H1, (IH _ H2). reflexivity.
Qed.

Lemma occurs_snoc_new s c text : forall i,
  occurs s (text ++ [c]) i = true ->
  occurs s text i = true \/ i + List.length s = S (List.length text).
Proof.
  induction s as [|x s IH]; intros i; cbn [occurs List.length];
    [left; reflexivity | ].
  destruct (Nat.lt_trichotomy i (List.length text)) as [Hlt | [-> | Hgt]].
  - rewrite nth_error_app1 by exact Hlt.
    destruct (nth_error text i) as [y|]; [ | discriminate].
    intros H. apply andb_prop in H. destruct H as [H1 H2].
    rewrite H1. destruct (IH _ H2) as [H | H]; [left; exact H | right; lia].
  - rewrite nth_error_app2 by lia. rewrite Nat.sub_diag. cbn [nth_error].
    intros H. apply andb_prop in H. destruct H as [_ H2].
    destruct s as [|z s]; [right; cbn; lia | ].
    cbn [occurs] in H2.
    assert (nth_error (text ++ [c]) (S (List.length text)) = None) as Hn
      by (apply nth_error_None; rewrite length_app; cbn; lia).
    rewrite Hn in H2. discriminate.
  - assert (nth_error (text ++ [c]) i = None) as ->
      by (apply nth_error_None; rewrite length_app; cbn; lia).
    discriminate.
Qed.

Lemma whole_word_snoc s c text i :
  Re.word_char u c = false ->
  whole_word u s (text ++ [c]) i = whole_word u s text i.
Proof.
  intros Hc. unfold whole_word. rewrite !at_boundary_snoc by exact Hc.
  destruct (occurs s text i) eqn:Hocc.
  - rewrite (occurs_snoc_mono s c text i Hocc). reflexivity.
  - destruct (occurs s (text ++ [c]) i) eqn:Hocc'; [ | reflexivity].
    destruct (occurs_snoc_new s c text i Hocc') as [H | H]; [congruence | ].
    rewrite H. rewrite !andb_false_r, andb_true_r.
    unfold Re.at_boundary, Re.word_at.
    assert (nth_error text (List.length text) = None) as ->
      by (apply nth_error_None; lia).
    assert (nth_error text (S (List.length text)) = None) as ->
      by (apply nth_error_None; lia).
    rewrite andb_false_r. reflexivity.
Qed.

(** A non-word character after the text changes nothing. *)
Lemma analyze_result_snoc c text :
  Re.word_char u c = false ->
  NpdParser._analyze_result u (text ++ [c])
  = NpdParser._analyze_result u text.
Proof.
  intros Hc. apply (analyze_result_shift text (text ++ [c]) 0).
  - intros s i _. apply whole_word_snoc, Hc.
  - intros s j _ Hj. lia.
Qed.

Hypothesis blanks_are_not_word_characters :
  forall c, isspace u c = true -> Re.word_char u c = false.

Lemma analyze_result_lstrip text :
  NpdParser._analyze_result u (lstrip (isspace u) text)
  = NpdParser._analyze_result u text.
Proof.
  induction text as [|c text IH]; cbn [lstrip]; [reflexivity | ].
  destruct (isspace u c) eqn:Hc; [ | reflexivity].
  rewrite IH. symmetry. apply analyze_result_cons.
  apply blanks_are_not_word_characters, Hc.
Qed.

Lemma analyze_result_rstrip : forall rtext,
  NpdParser._analyze_result u (rev (lstrip (isspace u) rtext))
  = NpdParser._analyze_result u (rev rtext).
Proof.
  induction rtext as [|c rtext IH]; cbn [lstrip]; [reflexivity | ].
  destruct (isspace u c) eqn:Hc; [ | reflexivity].
  rewrite IH. cbn [rev]. symmetry. apply analyze_result_snoc.
  apply blanks_are_not_word_characters, Hc.
Qed.

Lemma analyze_result_strip text :
  NpdParser._analyze_result u (strip u text)
  = NpdParser._analyze_result u text.
Proof.
  unfold strip. rewrite analyze_result_rstrip, rev_involutive.
  apply analyze_result_lstrip.
Qed.

End Strip.

(** X13: whenever no blank is a word character, which is how the Unicode
    tables are, the [strip] of [_get_result_text] has no effect on the
    answer: the classifier ends on the stripped text as it ends on the
    text itself. *)
Theorem strip_does_not_change_the_answer :
  forall u text,
    (forall c, isspace u c = true -> Re.word_char u c = false) ->
    NpdParser._analyze_result u (strip u text)
    = NpdParser._analyze_result u text.
Proof.
  intros u text Hblank. apply analyze_result_strip, Hblank.
Qed.

Lemma strip_does_not_change_the_answer_witness :
  NpdParser._analyze_result small_unicode (strip small_unicode text_padded)
  = NpdParser._analyze_result small_unicode text_padded.
Proof.
  apply (strip_does_not_change_the_answer small_unicode text_padded).
  intros c Hc. unfold small_unicode in *. cbn [isspace] in Hc.
  unfold Re.word_char. cbn [isalnum].
  apply orb_prop in Hc. destruct Hc as [Hc | Hc].
  - apply N.eqb_eq in Hc. subst c. reflexivity.
  - apply andb_prop in Hc. destruct Hc as [H1 H2].
    apply N.leb_le in H1, H2.
    repeat match goal with
      | |- context [(?a <=? c)%N] =>
          let H := fresh in
          destruct (N.leb_spec a c) as [H | H]; try lia
      | |- context [(c <=? ?a)%N] =>
          let H := fresh in
          destruct (N.leb_spec c a) as [H | H]; try lia
      | |- context [(c =? ?a)%N] =>
          let H := fresh in
          destruct (N.eqb_spec c a) as [H | H]; try lia
      end; reflexivity.
Defined.

(** ** The [main] functions: closing the browser, printing the result *)

Section Steady.
Context {d : Driver}.

Lemma steady_ret {A} (a : A) : steady (d := d) (ret a).
Proof. intros s. split; reflexivity. Qed.

Lemma steady_raise {A} e : steady (d := d) (A := A) (raise e).
Proof. intros s. split; reflexivity. Qed.

Lemma steady_lift {A} (r : outcome A) : steady (d := d) (lift r).
Proof. intros s. split; reflexivity. Qed.

Lemma steady_date fmt : steady (date_today_strftime (managed d) fmt).
Proof. intros s. split; reflexivity. Qed.

Lemma steady_bind {A B} (m : M (managed d) A) (k : A -> M (managed d) B) :
  steady m -> (forall a, steady (k a)) -> steady (bind m k).
Proof.
  intros Hm Hk s. specialize (Hm s). unfold bind.
  destruct (m s) as [[a|e] s1]; cbn [fst snd] in *; [ | exact Hm].
  destruct (Hk a s1) as [H1 H2]. destruct Hm as [H3 H4].
  split; congruence.
Qed.

Lemma steady_try_except {A} (body : M (managed d) A) h :
  steady body -> (forall e, steady (h e)) -> steady (try_except body h).
Proof.
  intros Hb Hh s. specialize (Hb s). unfold try_except.
  destruct (body s) as [[a|e] s1]; cbn [fst snd] in *; [exact Hb | ].
  destruct (Hh e s1) as [H1 H2]. destruct Hb as [H3 H4].
  split; congruence.
Qed.

Lemma steady_suppress {A} E (body after : M (managed d) A) :
  steady body -> steady after -> steady (suppress E body after).
Proof.
  intros Hb Ha. apply steady_try_except; [exact Hb | ].
  intros e. destruct (exn_eqb e E); [exact Ha | apply steady_raise].
Qed.

Lemma steady_try_finally {A} (body : M (managed d) A) fin :
  steady body -> steady fin -> steady (try_finally body fin).
Proof.
  intros Hb Hf s. specialize (Hb s). unfold try_finally.
  destruct (body s) as [r s1]; cbn [fst snd] in *. specialize (Hf s1).
  destruct (fin s1) as [[a|e] s2]; cbn [fst snd] in *;
    destruct Hb, Hf; split; congruence.
Qed.

Lemma steady_call {A} (f : world d -> A * world d) ev :
  (forall w, quits (snd (f w)) = quits w /\ stdout (snd (f w)) = stdout w) ->
  steady (call (d := managed d) f ev).
Proof.
  intros Hf s. unfold call. specialize (Hf (page s)).
  destruct (f (page s)) as [a p]; exact Hf.
Qed.

Lemma steady_call_or_raise {A} (f : world d -> option A * world d) ev e :
  (forall w, quits (snd (f w)) = quits w /\ stdout (snd (f w)) = stdout w) ->
  steady (call_or_raise (d := managed d) f ev e).
Proof.
  intros Hf s. unfold call_or_raise. specialize (Hf (page s)).
  destruct (f (page s)) as [[a|] p]; exact Hf.
Qed.

Lemma in_browser_steady {A} (f : drv_state d -> A * drv_state d) w :
  quits (snd (in_browser f w)) = quits w
  /\ stdout (snd (in_browser f w)) = stdout w.
Proof.
  unfold in_browser. destruct (f (browser w)). split; reflexivity.
Qed.

End Steady.

Ltac steady_side :=
  intro;
  first [ apply in_browser_steady | split; reflexivity ].

Ltac steady_step :=
  match goal with
  | |- steady (ret _) => apply steady_ret
  | |- steady (raise _) => apply steady_raise
  | |- steady (lift _) => apply steady_lift
  | |- steady (date_today_strftime _ _) => apply steady_date
  | |- steady (bind _ _) => apply steady_bind; [ | intro ]
  | |- steady (suppress _ _ _) => apply steady_suppress
  | |- steady (try_except _ _) =>
      apply steady_try_except; [ | intros []; apply steady_raise ]
  | |- steady (try_finally _ _) => apply steady_try_finally
  | |- steady (call _ _) => apply steady_call; steady_side
  | |- steady (call_or_raise _ _ _) => apply steady_call_or_raise; steady_side
  | |- steady (WebDriverWait_until _ _ _) => unfold WebDriverWait_until
  | |- steady (if ?c then _ else _) => destruct c
  end.

Ltac steady_tac := repeat steady_step.

(** No call of [parse] quits the browser or prints. *)
Lemma parse_steady sv d u self rq :
  match sv with
  | Arbitr => steady (ArbitrParser.parse (managed d) self (inn rq))
  | Inn => steady (InnParser.parse (managed d) self (surname rq) (name rq)
                     (lastname rq) (birthdate rq) (passport rq))
  | Rom => steady (RomParser.parse (managed d) self (inn rq))
  | Npd => steady (NpdParser.parse (managed d) u self (inn rq))
  end.
Proof.
  destruct sv; unfold ArbitrParser.parse, InnParser.parse,
    RomParser.parse, NpdParser.parse;
    unfold_steps; steady_tac.
Qed.

Section WithTryPrint.
Context (d : Driver).

(** The shape shared by the four [main] functions: inside [with], the
    answer of [parse] is printed, or the text of its error when the
    [except] clause names it; the browser is quit on every way out. *)
Lemma with_try_print {A} (m : BaseParser.t -> M (managed d) A)
    (wrap : A -> result)
    (show : A -> Py.str) (handler : exn -> M (managed d) unit) sv self :
  steady (m self) ->
  (forall e, handler e = if existsb (exn_eqb e) (caught sv)
                         then print d (__str__ e) else raise e) ->
  (forall a, show a = shown sv (wrap a)) ->
  forall s : session (managed d),
  let r := bind (m self) (fun a => ret (wrap a)) s in
  let out := ContextManager.with_ d self (fun parser =>
               try_except (bind (m parser) (fun data => print d (show data)))
                 handler) s in
  quits (d := d) (page (snd out)) = S (quits (d := d) (page s))
  /\ match fst r with
     | Return data =>
         fst out = Return tt
         /\ stdout (d := d) (page (snd out))
            = (stdout (d := d) (page s) ++ [shown sv data])%list
     | Raise e =>
         if existsb (exn_eqb e) (caught sv)
         then fst out = Return tt
              /\ stdout (d := d) (page (snd out))
                 = (stdout (d := d) (page s) ++ [__str__ e])%list
         else fst out = Raise e
              /\ stdout (d := d) (page (snd out)) = stdout (d := d) (page s)
     end.
Proof.
  intros Hm Hh Hshow s.
  destruct (Hm s) as [Hq Ho].
  unfold ContextManager.with_, ContextManager.__exit__, ContextManager.close,
    ContextManager.__enter__, try_finally, try_except, bind.
  destruct (m self s) as [[a|e] s1]; cbn [fst snd] in *.
  - rewrite <- Hq, <- Ho, Hshow.
    unfold print, driver_quit, in_process, ret.
    cbn [fst snd page quits stdout].
    split; [reflexivity | split; reflexivity].
  - rewrite Hh.
    destruct (existsb (exn_eqb e) (caught sv)); rewrite <- Hq, <- Ho;
      unfold print, driver_quit, in_process, raise;
      cbn [fst snd page quits stdout];
      (split; [reflexivity | split; reflexivity]).
Qed.

End WithTryPrint.

Lemma new_parser_steady sv d t : steady (new_parser sv (managed d) t).
Proof.
  destruct sv;
    unfold new_parser, ArbitrParser.__init__, InnParser.__init__,
      RomParser.__init__, NpdParser.__init__, BaseParser.__init__,
      implicitly_wait, driver_get;
    steady_tac.
Qed.

Lemma new_parser_run sv d t s :
  new_parser sv d t s
  = (Return {| BaseParser.timeout := t |}, snd (new_parser sv d t s)).
Proof. destruct sv; reflexivity. Qed.

Ltac main_case wrap :=
  match goal with
  | |- context [ContextManager.with_ ?d ?self
                  (fun parser =>
                     try_except
                       (bind (@?m parser)
                             (fun data => print _ (@?show data)))
                       ?handler) _] =>
      match goal with
      | |- context [if existsb _ (caught ?sv) then _ else _] =>
          apply (with_try_print d m wrap show handler sv self)
      end
  end.

(** One run of [main], step by step: the parser is made, [parse] is
    called on it, its answer is printed, or the text of its error when the
    [except] clause names it, and the browser is quit. *)
Lemma main_run sv d u (s : session (managed d)) :
  let made := new_parser sv (managed d) (Py.Int 30) s in
  let r := parse_service sv (managed d) u session30 (main_request sv)
             (snd made) in
  let out := main_of sv d u s in
  quits (d := d) (page (snd out)) = S (quits (d := d) (page s))
  /\ match fst r with
     | Return data =>
         fst out = Return tt
         /\ stdout (d := d) (page (snd out))
            = (stdout (d := d) (page s) ++ [shown sv data])%list
     | Raise e =>
         if existsb (exn_eqb e) (caught sv)
         then fst out = Return tt
              /\ stdout (d := d) (page (snd out))
                 = (stdout (d := d) (page s) ++ [__str__ e])%list
         else fst out = Raise e
              /\ stdout (d := d) (page (snd out)) = stdout (d := d) (page s)
     end.
Proof.
  cbv zeta.
  destruct (new_parser_steady sv d (Py.Int 30) s) as [Hq Ho].
  pose proof (new_parser_run sv (managed d) (Py.Int 30) s) as Hmade.
  rewrite <- Hq, <- Ho.
  set (s1 := snd (new_parser sv (managed d) (Py.Int 30) s)) in *.
  clearbody s1. clear Hq Ho.
  pose proof (parse_steady sv d u session30 (main_request sv)) as Hsteady.
  destruct sv;
    unfold main_of, parser_arbitr.main, parser_inn.main, parser_rom.main,
      parser_npd.main;
    unfold new_parser in Hmade;
    rewrite (bind_return _ _ _ _ _ Hmade);
    unfold parse_service, main_request in *;
    cbn [inn surname name lastname birthdate passport] in *.
  1,3,4: main_case Found.
  10: main_case Value.
  all: try exact Hsteady.
  all: try (intros []; unfold shown; reflexivity).
  all: intros []; reflexivity.
Qed.

(** X14: the context manager of [BaseParser] lets the outcome of its
    block through as it is, an exception included ([__exit__] returns
    [None]), and quits the browser once on the way out.  So, once the
    parser has been constructed, [main] quits the browser exactly once,
    whether [parse] returns or an error leaves [main]: [parse] never
    quits.  (The constructor runs before the [with] block.) *)
Theorem main_quits_browser_once :
  forall d,
    (forall A (body : BaseParser.t -> M (managed d) A) self s,
       fst (ContextManager.with_ d self body s) = fst (body self s)
       /\ quits (d := d) (page (snd (ContextManager.with_ d self body s)))
          = S (quits (d := d) (page (snd (body self s))))
       /\ stdout (d := d) (page (snd (ContextManager.with_ d self body s)))
          = stdout (d := d) (page (snd (body self s))))
    /\ (forall sv u (s : session (managed d)) self s1,
          new_parser sv (managed d) (Py.Int 30) s = (Return self, s1) ->
          quits (d := d) (page (snd (main_of sv d u s)))
          = S (quits (d := d) (page s1))).
Proof.
  intros d. split.
  - intros A body self s.
    unfold ContextManager.with_, ContextManager.__exit__,
      ContextManager.close, ContextManager.__enter__, try_finally,
      driver_quit, in_process.
    destruct (body self s) as [r s1]. cbn [fst snd page quits stdout].
    split; [reflexivity | split; reflexivity].
  - intros sv u s self s1 Hnew.
    destruct (new_parser_steady sv d (Py.Int 30) s) as [Hq _].
    rewrite Hnew in Hq. cbn [snd] in Hq. rewrite Hq.
    exact (proj1 (main_run sv d u s)).
Qed.

Lemma main_quits_browser_once_witness :
  quits (d := StaticPage.driver [])
    (page (snd (main_of Inn (StaticPage.driver []) small_unicode
                  (fresh_process (StaticPage.driver [])
                     MorePages.inn_captcha))))
  = 1.
Proof.
  apply (proj2 (main_quits_browser_once (StaticPage.driver []))
           Inn small_unicode
           (fresh_process (StaticPage.driver []) MorePages.inn_captcha)
           session30
           (snd (new_parser Inn (managed (StaticPage.driver [])) (Py.Int 30)
                   (fresh_process (StaticPage.driver [])
                      MorePages.inn_captcha)))).
  reflexivity.
Defined.

(** X15: when [parse] returns, [main] returns and has printed one line
    more, the one for the answer: the found value for [InnParser], one of
    the two fixed lines of the parser for the others. *)
Theorem main_prints_answer sv d u (s : session (managed d)) data :
  fst (parse_service sv (managed d) u session30 (main_request sv)
         (snd (new_parser sv (managed d) (Py.Int 30) s))) = Return data ->
  fst (main_of sv d u s) = Return tt
  /\ stdout (d := d) (page (snd (main_of sv d u s)))
     = (stdout (d := d) (page s) ++ [shown sv data])%list.
Proof.
  intros H. pose proof (proj2 (main_run sv d u s)) as R.
  cbv zeta in R. rewrite H in R. exact R.
Qed.

Lemma main_prints_answer_witness :
  let s := fresh_process (StaticPage.driver []) MorePages.rom_data in
  fst (main_of Rom (StaticPage.driver []) small_unicode s) = Return tt
  /\ stdout (d := StaticPage.driver [])
       (page (snd (main_of Rom (StaticPage.driver []) small_unicode s)))
     = [shown Rom (Found true)].
Proof.
  apply (main_prints_answer Rom (StaticPage.driver []) small_unicode
           (fresh_process (StaticPage.driver []) MorePages.rom_data)
           (Found true)).
  vm_compute. reflexivity.
Defined.

(** X16: when [parse] raises an error of exceptions.py other than
    [ServiceCaptchaError], [main] catches it, prints the text of the
    error, the one its class has in exceptions.py, and returns. *)
Theorem main_prints_error_text sv d u (s : session (managed d)) e :
  fst (parse_service sv (managed d) u session30 (main_request sv)
         (snd (new_parser sv (managed d) (Py.Int 30) s))) = Raise e ->
  domain_error e = true ->
  e <> ServiceCaptchaError ->
  fst (main_of sv d u s) = Return tt
  /\ stdout (d := d) (page (snd (main_of sv d u s)))
     = (stdout (d := d) (page s) ++ [__str__ e])%list.
Proof.
  intros H Hdomain Hne. pose proof (proj2 (main_run sv d u s)) as R.
  pose proof (parse_raises_only sv (managed d) u session30 (main_request sv)
                (snd (new_parser sv (managed d) (Py.Int 30) s))) as Hro.
  cbv zeta in R. rewrite H in R, Hro.
  destruct sv, e; try discriminate Hro; try discriminate Hdomain;
    try exact R; contradiction Hne; reflexivity.
Qed.

Lemma main_prints_error_text_witness :
  let s := fresh_process (StaticPage.driver []) Pages.rom_form in
  fst (main_of Rom (StaticPage.driver []) small_unicode s) = Return tt
  /\ stdout (d := StaticPage.driver [])
       (page (snd (main_of Rom (StaticPage.driver []) small_unicode s)))
     = [__str__ ServiceUnavailableError].
Proof.
  apply (main_prints_error_text Rom (StaticPage.driver []) small_unicode
           (fresh_process (StaticPage.driver []) Pages.rom_form)
           ServiceUnavailableError).
  - vm_compute. reflexivity.
  - reflexivity.
  - discriminate.
Defined.

(** X17: an error of exceptions.py leaves [main] only in parser_inn.py
    and only as [ServiceCaptchaError], which the [except] clause there
    does not name; nothing has been printed then. *)
Theorem main_lets_only_captcha_error_out sv d u (s : session (managed d)) e :
  fst (main_of sv d u s) = Raise e ->
  domain_error e = true ->
  sv = Inn /\ e = ServiceCaptchaError
  /\ stdout (d := d) (page (snd (main_of sv d u s)))
     = stdout (d := d) (page s).
Proof.
  intros H Hdomain. pose proof (proj2 (main_run sv d u s)) as R.
  pose proof (parse_raises_only sv (managed d) u session30 (main_request sv)
                (snd (new_parser sv (managed d) (Py.Int 30) s))) as Hro.
  cbv zeta in R.
  destruct (fst (parse_service sv (managed d) u session30 (main_request sv)
                   (snd (new_parser sv (managed d) (Py.Int 30) s))))
    as [data|e0].
  - destruct R as [R _]. rewrite R in H. discriminate H.
  - destruct sv, e0; try discriminate Hro;
      cbn [existsb caught exn_eqb orb] in R; destruct R as [R Ro];
      rewrite R in H; try discriminate H.
    injection H as <-. repeat split. exact Ro.
Qed.

Lemma main_lets_only_captcha_error_out_witness :
  let s := fresh_process (StaticPage.driver []) MorePages.inn_captcha in
  Inn = Inn /\ ServiceCaptchaError = ServiceCaptchaError
  /\ stdout (d := StaticPage.driver [])
       (page (snd (main_of Inn (StaticPage.driver []) small_unicode s)))
     = [].
Proof.
  apply (main_lets_only_captcha_error_out Inn (StaticPage.driver [])
           small_unicode
           (fresh_process (StaticPage.driver []) MorePages.inn_captcha)
           ServiceCaptchaError).
  - vm_compute. reflexivity.
  - reflexivity.
Defined.
